(** * saharaclient.osc.v1.clusters : the cluster commands of the CLI plugin

    A shallow embedding of [saharaclient/osc/v1/clusters.py].

    The module is a set of command handlers ([take_action] methods) that
    talk to collaborators outside the file: the REST client, the lookup
    helpers of [saharaclient.osc.v1.utils], the polling helpers and the
    logger.  A handler is embedded as a computation in a small monad that
    threads the state of the outside world, may raise a Python exception
    and records every collaborator call (with what it returned) and every
    logged error in a trace.  The collaborators themselves are a parameter:
    one oracle that answers each call from the current world.

    Python values are dynamically typed; the embedding keeps them that way
    ([pyval]) and writes out what the interpreter does when a value has an
    unexpected shape (KeyError, TypeError, AttributeError), following
    Python 3. JSON numbers are restricted to integers. *)

From Stdlib Require Import String Ascii List ZArith Lia Bool DecimalString.
Import ListNotations.
Open Scope string_scope.
Open Scope Z_scope.

Set Warnings "-register-all".

(** ** Python values *)

Inductive pyval : Type :=
| PNone
| PBool (b : bool)
| PInt (n : Z)
| PStr (s : string)
| PList (l : list pyval)
| PDict (d : list (string * pyval)).

(** A dict with string keys (a JSON object, keyword arguments, the
    attributes of a resource), in insertion order. *)
Definition pydict := list (string * pyval).

(** A dict whose keys are arbitrary hashable values, in insertion order. *)
Definition pymap := list (pyval * pyval).

Inductive exn : Type :=
| CommandError (msg : string)
| KeyError (key : string)
| AttributeError (attr : string)
| TypeError
| ValueError (msg : string)
| APIException (msg : string).

Inductive result (A : Type) : Type :=
| Ok (a : A)
| Raise (e : exn).
Arguments Ok {A} a.
Arguments Raise {A} e.

Module Py.

(** [bool(v)] *)
Definition truthy (v : pyval) : bool :=
  match v with
  | PNone => false
  | PBool b => b
  | PInt n => negb (n =? 0)
  | PStr s => negb (s =? "")%string
  | PList l => match l with [] => false | _ => true end
  | PDict d => match d with [] => false | _ => true end
  end.

(** Truthiness of an optional command-line string ([None] when the flag
    is not given). *)
Definition truthy_opt (o : option string) : bool :=
  match o with
  | None => false
  | Some s => negb (s =? "")%string
  end.

Definition of_opt (o : option string) : pyval :=
  match o with
  | None => PNone
  | Some s => PStr s
  end.

(** *** dict operations *)

Fixpoint dict_get (k : string) (d : pydict) : option pyval :=
  match d with
  | [] => None
  | (k', v) :: r => if (k =? k')%string then Some v else dict_get k r
  end.

Definition dict_in (k : string) (d : pydict) : bool :=
  match dict_get k d with Some _ => true | None => false end.

(** [d[k] = v]: an existing key keeps its position. *)
Fixpoint dict_set (k : string) (v : pyval) (d : pydict) : pydict :=
  match d with
  | [] => [(k, v)]
  | (k', v') :: r =>
      if (k =? k')%string then (k', v) :: r else (k', v') :: dict_set k v r
  end.

Definition dict_del (k : string) (d : pydict) : pydict :=
  filter (fun kv => negb (k =? fst kv)%string) d.

(** [d.pop(k)] *)
Definition dict_pop (k : string) (d : pydict) : result (pyval * pydict) :=
  match dict_get k d with
  | Some v => Ok (v, dict_del k d)
  | None => Raise (KeyError k)
  end.

Definition keys (d : pydict) : list string := map fst d.

(** *** equality [==] *)

Definition bool_int (b : bool) : Z := if b then 1 else 0.

Fixpoint py_eq (a b : pyval) {struct a} : bool :=
  match a, b with
  | PNone, PNone => true
  | PBool x, PBool y => Bool.eqb x y
  | PBool x, PInt n => bool_int x =? n
  | PInt n, PBool x => n =? bool_int x
  | PInt m, PInt n => m =? n
  | PStr s, PStr t => (s =? t)%string
  | PList l, PList l' =>
      (fix go (l l' : list pyval) : bool :=
         match l, l' with
         | [], [] => true
         | x :: xs, y :: ys => py_eq x y && go xs ys
         | _, _ => false
         end) l l'
  | PDict d, PDict d' =>
      (length d =? length d')%nat &&
      (fix go (d : pydict) : bool :=
         match d with
         | [] => true
         | (k, v) :: r =>
             match dict_get k d' with
             | Some v' => py_eq v v'
             | None => false
             end && go r
         end) d
  | _, _ => false
  end.

(** [x in l] for a list [l] *)
Definition list_mem (x : pyval) (l : list pyval) : bool :=
  existsb (py_eq x) l.

(** [sub in s] for strings *)
Fixpoint contains (sub s : string) : bool :=
  String.prefix sub s ||
  match s with
  | EmptyString => false
  | String _ r => contains sub r
  end.

(** *** maps with arbitrary keys *)

Definition hashable (v : pyval) : bool :=
  match v with
  | PList _ | PDict _ => false
  | _ => true
  end.

Fixpoint map_get (k : pyval) (m : pymap) : option pyval :=
  match m with
  | [] => None
  | (k', v) :: r => if py_eq k k' then Some v else map_get k r
  end.

Fixpoint map_set (k v : pyval) (m : pymap) : pymap :=
  match m with
  | [] => [(k, v)]
  | (k', v') :: r =>
      if py_eq k k' then (k', v) :: r else (k', v') :: map_set k v r
  end.

Definition map_of_dict (d : pydict) : pymap :=
  map (fun kv => (PStr (fst kv), snd kv)) d.

(** *** subscripts, attributes, iteration *)

(** [v[k]] for a string [k] *)
Definition subscript (v : pyval) (k : string) : result pyval :=
  match v with
  | PDict d =>
      match dict_get k d with
      | Some x => Ok x
      | None => Raise (KeyError k)
      end
  | _ => Raise TypeError
  end.

(** [r.attr] for a resource object: a resource is represented by the
    dict of its attributes. *)
Definition getattr (r : pyval) (attr : string) : result pyval :=
  match r with
  | PDict d =>
      match dict_get attr d with
      | Some x => Ok x
      | None => Raise (AttributeError attr)
      end
  | _ => Raise (AttributeError attr)
  end.

(** [r.to_dict()] *)
Definition to_dict (r : pyval) : result pyval :=
  match r with
  | PDict d => Ok (PDict d)
  | _ => Raise (AttributeError "to_dict")
  end.

Fixpoint chars (s : string) : list pyval :=
  match s with
  | EmptyString => []
  | String c r => PStr (String c EmptyString) :: chars r
  end.

(** [for x in v] *)
Definition iter (v : pyval) : result (list pyval) :=
  match v with
  | PList l => Ok l
  | PStr s => Ok (chars s)
  | PDict d => Ok (map (fun kv => PStr (fst kv)) d)
  | _ => Raise TypeError
  end.

(** *** strings *)

Definition dec (n : Z) : string := NilZero.string_of_int (Z.to_int n).

(** [x.split(':', 1)] *)
Fixpoint split_colon (s : string) : list string :=
  match s with
  | EmptyString => [EmptyString]
  | String c r =>
      if Ascii.eqb c ":"%char then [EmptyString; r]
      else match split_colon r with
           | h :: t => String c h :: t
           | [] => [String c EmptyString]
           end
  end.


Fixpoint pairs_set (k v : string) (d : list (string * string))
  : list (string * string) :=
  match d with
  | [] => [(k, v)]
  | (k', v') :: r =>
      if (k =? k')%string then (k', v) :: r else (k', v') :: pairs_set k v r
  end.

(** [dict(pairs)] for a sequence of lists of strings: each must have two
    elements; a repeated key keeps its first position and takes the last
    value. *)
Fixpoint dict_of_pairs (acc : list (string * string))
         (l : list (list string)) : result (list (string * string)) :=
  match l with
  | [] => Ok acc
  | [k; v] :: r => dict_of_pairs (pairs_set k v acc) r
  | _ :: _ =>
      Raise (ValueError "dictionary update sequence element has wrong length")
  end.

End Py.

(** ** Exceptions in pure code *)

Definition rbind {A B : Type} (r : result A) (k : A -> result B) : result B :=
  match r with
  | Ok a => k a
  | Raise e => Raise e
  end.

Notation "'let?' x := r 'in' k" := (rbind r (fun x => k))
  (at level 10, x pattern, r at level 100, k at level 200).

Fixpoint rmap {A B : Type} (f : A -> result B) (l : list A) : result (list B) :=
  match l with
  | [] => Ok []
  | x :: r =>
      let? y := f x in
      let? ys := rmap f r in
      Ok (y :: ys)
  end.

(** ** Collaborators *)

(** [client.clusters], [client.cluster_templates], [client.images],
    [client.node_group_templates] *)
Inductive manager : Type :=
| clusters
| cluster_templates
| images
| node_group_templates.

(** The calls a handler makes to the outside.  [wait_for_status] is always
    called with [client.clusters.get] as its status function and
    [wait_for_delete] with [client.clusters] as its manager. *)
Inductive call : Type :=
| read_blob_file_contents (file : string)
| get_resource (m : manager) (name_or_id : pyval)
| get_resource_id (m : manager) (name_or_id : pyval)
| find_attr (path : string) (value : pyval)
| clusters_create (kwargs : pydict)
| clusters_get (id : pyval)
| clusters_update (id : pyval) (kwargs : pydict)
| clusters_scale (id : pyval) (obj : pyval)
| clusters_delete (id : pyval)
| clusters_list (search_opts : pydict)
| wait_for_status (id : pyval)
| wait_for_delete (id : pyval).

(** What a run leaves behind: each call with its outcome, and each
    [self.log.error(fmt, arg)].  (The [log.debug] line that opens every
    handler is not recorded.) *)
Inductive event : Type :=
| Called (c : call) (r : result pyval)
| LogError (fmt : string) (arg : pyval).

(** The outside of the module.  [perform] answers a call in a world and
    gives the world after it; the other fields are the pure functions the
    module imports: [json.loads] (the [inr] case is the ValueError with its
    message), [int] on a string, [repr] of a list or dict,
    [osc_utils.format_list], cliff's [dict2columns],
    [osc_utils.get_item_properties], and three display helpers of
    [saharaclient.osc.v1.utils], [get_by_name_substring],
    [prepare_column_headers] and [prepare_data], of which the module has
    only the calls. *)
Class Collaborators (World : Type) : Type := {
  perform : call -> World -> result pyval * World;
  json_loads : string -> pyval + string;
  py_int : string -> option Z;
  py_repr : pyval -> string;
  format_list : pyval -> result pyval;
  dict2columns : pymap -> pyval;
  get_item_properties : pyval -> list string -> pyval;
  get_by_name_substring : pyval -> string -> result pyval;
  prepare_column_headers : list string -> list (string * string) -> pyval;
  prepare_data : pydict -> list string -> pydict
}.

(** ** The monad of handlers *)

Definition M (World A : Type) : Type :=
  World -> result A * World * list event.

Section Monad.
Context {World : Type} {C : Collaborators World}.

Definition ret {A} (a : A) : M World A := fun w => (Ok a, w, []).

Definition raise {A} (e : exn) : M World A := fun w => (Raise e, w, []).

Definition bind {A B} (m : M World A) (k : A -> M World B) : M World B :=
  fun w =>
    match m w with
    | (Ok a, w1, t1) =>
        match k a w1 with
        | (r, w2, t2) => (r, w2, (t1 ++ t2)%list)
        end
    | (Raise e, w1, t1) => (Raise e, w1, t1)
    end.

Definition lift {A} (r : result A) : M World A := fun w => (r, w, []).

Definition do_call (c : call) : M World pyval :=
  fun w =>
    match perform c w with
    | (r, w1) => (r, w1, [Called c r])
    end.

Definition log_error (fmt : string) (arg : pyval) : M World unit :=
  fun w => (Ok tt, w, [LogError fmt arg]).

End Monad.

Notation "x <- m ;; k" := (bind m (fun x => k))
  (at level 61, m at next level, right associativity).
Notation "' pat <- m ;; k" :=
  (bind m (fun x => match x with pat => k end))
  (at level 61, pat pattern, m at next level, right associativity).
Notation "m ;;; k" := (bind m (fun _ => k))
  (at level 61, right associativity).

Section Loops.
Context {World : Type} {C : Collaborators World}.

(** [[f(x) for x in l]] *)
Fixpoint mapM {A B} (f : A -> M World B) (l : list A) : M World (list B) :=
  match l with
  | [] => ret []
  | x :: r =>
      y <- f x ;;
      ys <- mapM f r ;;
      ret (y :: ys)
  end.

(** [for x in l: f(x)] *)
Fixpoint for_each {A} (f : A -> M World unit) (l : list A) : M World unit :=
  match l with
  | [] => ret tt
  | x :: r => f x ;;; for_each f r
  end.

(** a loop that updates one local variable *)
Fixpoint foldM {A S} (f : S -> A -> M World S) (s : S) (l : list A)
  : M World S :=
  match l with
  | [] => ret s
  | x :: r => s1 <- f s x ;; foldM f s1 r
  end.

End Loops.

(** Projections of a finished run. *)
Definition outcome {World A} (x : result A * World * list event) : result A :=
  fst (fst x).
Definition final {World A} (x : result A * World * list event) : World :=
  snd (fst x).
Definition trace {World A} (x : result A * World * list event) : list event :=
  snd x.

(** ** Module-level definitions of clusters.py *)

Definition CLUSTER_FIELDS : list string :=
  ["cluster_template_id"; "use_autoconfig"; "user_keypair_id";
   "status"; "image"; "node_groups"; "id";
   "anti_affinity"; "version"; "name"; "is_transient";
   "is_protected"; "description"; "is_public";
   "neutron_management_network"; "plugin_name"].

Section Formatting.
Context {World : Type} {C : Collaborators World}.

(** ['%s' % v] *)
Definition py_str (v : pyval) : string :=
  match v with
  | PNone => "None"
  | PBool true => "True"
  | PBool false => "False"
  | PInt n => Py.dec n
  | PStr s => s
  | _ => py_repr v
  end.

Definition node_group_pair (ng : pyval) : result string :=
  let? n := Py.subscript ng "name" in
  let? c := Py.subscript ng "count" in
  Ok (py_str n ++ ":" ++ py_str c).

Definition _format_node_groups_list (node_groups : pyval) : result pyval :=
  let? ngs := Py.iter node_groups in
  let? parts := rmap node_group_pair ngs in
  Ok (PStr (String.concat ", " parts)).

(** The source updates [data] in place; here the updated dict is
    returned. *)
Definition _format_cluster_output (data : pyval) : result pydict :=
  match data with
  | PDict d =>
      let? (v, d1) := Py.dict_pop "hadoop_version" d in
      let d2 := Py.dict_set "version" v d1 in
      let? (i, d3) := Py.dict_pop "default_image_id" d2 in
      let d4 := Py.dict_set "image" i d3 in
      let? ngs := Py.subscript (PDict d4) "node_groups" in
      let? s := _format_node_groups_list ngs in
      let d5 := Py.dict_set "node_groups" s d4 in
      let? aa := Py.subscript (PDict d5) "anti_affinity" in
      let? l := format_list aa in
      Ok (Py.dict_set "anti_affinity" l d5)
  | PList _ => Raise TypeError
  | _ => Raise (AttributeError "pop")
  end.

(** [_format_cluster_output(data); data = utils.prepare_data(data,
    CLUSTER_FIELDS); return self.dict2columns(data)]: the tail shared by
    the handlers that show one cluster. *)
Definition show_cluster (data : pyval) : result pyval :=
  let? d := _format_cluster_output data in
  Ok (dict2columns (Py.map_of_dict (prepare_data d CLUSTER_FIELDS))).

Definition _get_plugin_version (cluster_template : pyval)
  : M World (pyval * pyval * pyval) :=
  ct <- do_call (get_resource cluster_templates cluster_template) ;;
  p <- lift (Py.getattr ct "plugin_name") ;;
  v <- lift (Py.getattr ct "hadoop_version") ;;
  i <- lift (Py.getattr ct "id") ;;
  ret (p, v, i).

(** [k in v] for a string [k] *)
Definition py_in (k : string) (v : pyval) : result bool :=
  match v with
  | PDict d => Ok (Py.dict_in k d)
  | PStr s => Ok (Py.contains k s)
  | PList l => Ok (Py.list_mem (PStr k) l)
  | _ => Raise TypeError
  end.

Definition template_error (file e : string) : string :=
  "An error occurred when reading template from file " ++ file ++ ": " ++ e.

(** [blob = read_blob_file_contents(file); try: template =
    json.loads(blob) except ValueError as e: raise CommandError(...)] *)
Definition read_template (file : string) : M World pyval :=
  blob <- do_call (read_blob_file_contents file) ;;
  match blob with
  | PStr b =>
      match json_loads b with
      | inl template => ret template
      | inr e => raise (CommandError (template_error file e))
      end
  | _ => raise TypeError
  end.

(** [if not wait_for_status(client.clusters.get, id): self.log.error(fmt,
    arg)], the argument of the log call being evaluated only when the
    wait failed. *)
Definition wait_or_log (id : pyval) (fmt : string) (arg : result pyval)
  : M World unit :=
  ok <- do_call (wait_for_status id) ;;
  if Py.truthy ok then ret tt
  else (x <- lift arg ;; log_error fmt x).

End Formatting.

(** ** class CreateCluster *)

Module CreateCluster.

(** The namespace [get_parser] produces: a string option is [None]
    unless its flag is given, [--count] has [type=int], the [store_true]
    flags default to [False]. *)
Record parsed_args : Type := {
  name : option string;
  cluster_template : option string;
  image : option string;
  description : option string;
  user_keypair : option string;
  neutron_network : option string;
  count : option Z;
  public : bool;
  protected : bool;
  transient : bool;
  json : option string;
  wait : bool
}.

Definition missing_arguments : string :=
  "At least --name , --cluster-template, --image arguments should be specified or json template should be provided with --json argument".

Definition creation_error : string :=
  "Error occurred during cluster creation: %s".

Definition count_value (a : parsed_args) : pyval :=
  match count a with
  | Some n => PInt n
  | None => PNone
  end.

(** [parsed_args.count and parsed_args.count > 1] as a condition *)
Definition count_gt_1 (c : pyval) : result bool :=
  if negb (Py.truthy c) then Ok false
  else match c with
       | PInt n => Ok (1 <? n)
       | PBool _ => Ok false
       | _ => Raise TypeError
       end.

(** [if 'neutron_management_network' in template: template['net_id'] =
    template.pop('neutron_management_network')] *)
Definition rename_network (template : pyval) : result pyval :=
  let? b := py_in "neutron_management_network" template in
  if b then
    match template with
    | PDict d =>
        let? (v, d1) := Py.dict_pop "neutron_management_network" d in
        Ok (PDict (Py.dict_set "net_id" v d1))
    | PList _ => Raise TypeError
    | _ => Raise (AttributeError "pop")
    end
  else Ok template.

(** [if 'count' in template: parsed_args.count = template['count']]:
    the value of [parsed_args.count] afterwards *)
Definition template_count (template : pyval) (c : pyval) : result pyval :=
  let? b := py_in "count" template in
  if b then Py.subscript template "count" else Ok c.

(** [**template] *)
Definition as_kwargs (template : pyval) : result pydict :=
  match template with
  | PDict d => Ok d
  | _ => Raise TypeError
  end.

Section Handler.
Context {World : Type} {C : Collaborators World}.

(** The keyword arguments of [client.clusters.create] in the branch
    without [--json]. *)
Definition create_kwargs (a : parsed_args)
           (plugin version template_id image_id net_id : pyval) : pydict :=
  [("name", Py.of_opt (name a));
   ("plugin_name", plugin);
   ("hadoop_version", version);
   ("cluster_template_id", template_id);
   ("default_image_id", image_id);
   ("description", Py.of_opt (description a));
   ("is_transient", PBool (transient a));
   ("user_keypair_id", Py.of_opt (user_keypair a));
   ("net_id", net_id);
   ("count", count_value a);
   ("is_public", PBool (public a));
   ("is_protected", PBool (protected a))].

(** The first [if]: the create response as a dict, and the value of
    [parsed_args.count] after it. *)
Definition create (a : parsed_args) : M World (pyval * pyval) :=
  if Py.truthy_opt (json a) then
    template <- read_template (match json a with Some f => f | None => "" end) ;;
    template <- lift (rename_network template) ;;
    c <- lift (template_count template (count_value a)) ;;
    kwargs <- lift (as_kwargs template) ;;
    r <- do_call (clusters_create kwargs) ;;
    data <- lift (Py.to_dict r) ;;
    ret (data, c)
  else
    if negb (Py.truthy_opt (name a))
       || negb (Py.truthy_opt (cluster_template a))
       || negb (Py.truthy_opt (image a))
    then raise (CommandError missing_arguments)
    else
      '(plugin, version, template_id) <-
        _get_plugin_version (Py.of_opt (cluster_template a)) ;;
      image_id <- do_call (get_resource_id images (Py.of_opt (image a))) ;;
      net_id <-
        (if Py.truthy_opt (neutron_network a) then
           n <- do_call (find_attr "networks"
                                   (Py.of_opt (neutron_network a))) ;;
           lift (Py.subscript n "id")
         else ret PNone) ;;
      r <- do_call (clusters_create
                      (create_kwargs a plugin version template_id
                                     image_id net_id)) ;;
      data <- lift (Py.to_dict r) ;;
      ret (data, count_value a).

(** [data[cluster.name] = cluster.id] *)
Definition add_cluster (m : pymap) (cluster : pyval) : M World pymap :=
  i <- lift (Py.getattr cluster "id") ;;
  n <- lift (Py.getattr cluster "name") ;;
  if Py.hashable n then ret (Py.map_set n i m) else raise TypeError.

(** The branch [parsed_args.count > 1]. *)
Definition batch (a : parsed_args) (data : pyval) : M World pyval :=
  ids <- lift (let? l := Py.subscript data "clusters" in Py.iter l) ;;
  cs <- mapM (fun id => do_call (get_resource clusters id)) ids ;;
  (if wait a then
     for_each (fun cluster =>
                 id <- lift (Py.getattr cluster "id") ;;
                 wait_or_log id creation_error (Py.subscript data "id"))
              cs
   else ret tt) ;;;
  m <- foldM add_cluster [] cs ;;
  ret (dict2columns m).

(** The [else] branch: one cluster. *)
Definition single (a : parsed_args) (data : pyval) : M World pyval :=
  data <-
    (if wait a then
       id <- lift (Py.subscript data "id") ;;
       wait_or_log id creation_error (Py.subscript data "id") ;;;
       id <- lift (Py.subscript data "id") ;;
       r <- do_call (clusters_get id) ;;
       lift (Py.to_dict r)
     else ret data) ;;
  lift (show_cluster data).

Definition take_action (a : parsed_args) : M World pyval :=
  '(data, c) <- create a ;;
  big <- lift (count_gt_1 c) ;;
  if big then batch a data else single a data.

End Handler.

End CreateCluster.

(** ** class ListClusters *)

Module ListClusters.

Record parsed_args : Type := {
  long : bool;
  plugin : option string;
  version : option string;
  name : option string
}.

Definition columns (a : parsed_args) : list string :=
  if long a then
    ["name"; "id"; "plugin_name"; "hadoop_version"; "status";
     "description"; "default_image_id"]
  else ["name"; "id"; "plugin_name"; "hadoop_version"; "status"].

Definition search_opts (a : parsed_args) : pydict :=
  ((if Py.truthy_opt (plugin a)
    then [("plugin_name", Py.of_opt (plugin a))] else [])
   ++
   (if Py.truthy_opt (version a)
    then [("hadoop_version", Py.of_opt (version a))] else []))%list.

Section Handler.
Context {World : Type} {C : Collaborators World}.

(** The result is the pair of the column headers and the rows. *)
Definition take_action (a : parsed_args) : M World pyval :=
  data <- do_call (clusters_list (search_opts a)) ;;
  data <-
    (match name a with
     | Some n =>
         if Py.truthy_opt (name a)
         then lift (get_by_name_substring data n) else ret data
     | None => ret data
     end) ;;
  rows <- lift (Py.iter data) ;;
  ret (PList
         [prepare_column_headers
            (columns a)
            [("hadoop_version", "version"); ("default_image_id", "image")];
          PList (map (fun s => get_item_properties s (columns a)) rows)]).

End Handler.

End ListClusters.

(** ** class ShowCluster *)

Module ShowCluster.

Record parsed_args : Type := { cluster : string }.

Section Handler.
Context {World : Type} {C : Collaborators World}.

Definition take_action (a : parsed_args) : M World pyval :=
  r <- do_call (get_resource clusters (PStr (cluster a))) ;;
  data <- lift (Py.to_dict r) ;;
  lift (show_cluster data).

End Handler.

End ShowCluster.

(** ** class DeleteCluster *)

Module DeleteCluster.

(** [cluster] has [nargs="+"]. *)
Record parsed_args : Type := {
  cluster : list string;
  wait : bool
}.

Definition deleting_error : string :=
  "Error occurred during cluster deleting: %s".

Section Handler.
Context {World : Type} {C : Collaborators World}.

(** The body of the first loop; the id is what the loop appends to
    [clusters]. *)
Definition delete_one (c : string) : M World pyval :=
  cluster_id <- do_call (get_resource_id clusters (PStr c)) ;;
  do_call (clusters_delete cluster_id) ;;;
  ret cluster_id.

Definition wait_one (cluster_id : pyval) : M World unit :=
  ok <- do_call (wait_for_delete cluster_id) ;;
  if Py.truthy ok then ret tt
  else log_error deleting_error cluster_id.

(** The method returns [None]. *)
Definition take_action (a : parsed_args) : M World pyval :=
  cs <- mapM delete_one (cluster a) ;;
  (if wait a then for_each wait_one cs else ret tt) ;;;
  ret PNone.

End Handler.

End DeleteCluster.

(** ** class UpdateCluster *)

Module UpdateCluster.

Record parsed_args : Type := {
  cluster : string;
  name : option string;
  description : option string;
  is_public : option bool;
  is_protected : option bool
}.

(** An occurrence of one of the optional arguments [get_parser]
    declares, as argparse hands it to the argument's action. *)
Inductive flag : Type :=
| f_name (s : string)
| f_description (s : string)
| f_public
| f_private
| f_protected
| f_unprotected.

(** The namespace before any flag is read: [--name] and [--description]
    default to [None], and [set_defaults(is_public=None,
    is_protected=None)] gives the two shared destinations [None]. *)
Definition defaults (c : string) : parsed_args :=
  {| cluster := c; name := None; description := None;
     is_public := None; is_protected := None |}.

(** The two mutually exclusive groups: the flag a flag may not be
    combined with. *)
Definition conflict (f : flag) : option flag :=
  match f with
  | f_public => Some f_private
  | f_private => Some f_public
  | f_protected => Some f_unprotected
  | f_unprotected => Some f_protected
  | _ => None
  end.

Definition flag_eqb (f g : flag) : bool :=
  match f, g with
  | f_name _, f_name _ | f_description _, f_description _
  | f_public, f_public | f_private, f_private
  | f_protected, f_protected | f_unprotected, f_unprotected => true
  | _, _ => false
  end.

(** The action of a flag: [store] for the two strings, [store_true] and
    [store_false] on the shared destinations for the others. *)
Definition store (f : flag) (a : parsed_args) : parsed_args :=
  match f with
  | f_name s =>
      {| cluster := cluster a; name := Some s; description := description a;
         is_public := is_public a; is_protected := is_protected a |}
  | f_description s =>
      {| cluster := cluster a; name := name a; description := Some s;
         is_public := is_public a; is_protected := is_protected a |}
  | f_public | f_private =>
      {| cluster := cluster a; name := name a; description := description a;
         is_public := Some (flag_eqb f f_public);
         is_protected := is_protected a |}
  | f_protected | f_unprotected =>
      {| cluster := cluster a; name := name a; description := description a;
         is_public := is_public a;
         is_protected := Some (flag_eqb f f_protected) |}
  end.

(** Reading the flags left to right; [None] is the parser's error exit
    when a flag follows the one it is exclusive with. *)
Fixpoint parse_flags (seen : list flag) (fs : list flag) (a : parsed_args)
  : option parsed_args :=
  match fs with
  | [] => Some a
  | f :: r =>
      match conflict f with
      | Some g =>
          if existsb (flag_eqb g) seen then None
          else parse_flags (f :: seen) r (store f a)
      | None => parse_flags (f :: seen) r (store f a)
      end
  end.

Definition get_parser (c : string) (fs : list flag) : option parsed_args :=
  parse_flags [] fs (defaults c).

Definition of_optb (o : option bool) : pyval :=
  match o with
  | Some b => PBool b
  | None => PNone
  end.

Definition update_kwargs (a : parsed_args) : pydict :=
  [("name", Py.of_opt (name a));
   ("description", Py.of_opt (description a));
   ("is_public", of_optb (is_public a));
   ("is_protected", of_optb (is_protected a))].

Section Handler.
Context {World : Type} {C : Collaborators World}.

Definition take_action (a : parsed_args) : M World pyval :=
  cluster_id <- do_call (get_resource_id clusters (PStr (cluster a))) ;;
  r <- do_call (clusters_update cluster_id (update_kwargs a)) ;;
  data <- lift (Py.getattr r "cluster") ;;
  lift (show_cluster data).

End Handler.

End UpdateCluster.

(** ** class ScaleCluster *)

Module ScaleCluster.

(** [--node-groups] has [nargs='+'] and is [None] when not given. *)
Record parsed_args : Type := {
  cluster : string;
  node_groups : option (list string);
  json : option string;
  wait : bool
}.

Definition scaling_error : string :=
  "Error occurred during cluster scaling: %s".

(** The dict [scale_object]: it only ever has these two keys, each bound
    to a list. *)
Record scale_object : Type := {
  add_node_groups : list pyval;
  resize_node_groups : list pyval
}.

Definition empty_scale_object : scale_object :=
  {| add_node_groups := []; resize_node_groups := [] |}.

(** [if not scale_object[k]: del scale_object[k]] for both keys, and the
    dict that is left. *)
Definition request (o : scale_object) : pydict :=
  ((match add_node_groups o with
    | [] => []
    | l => [("add_node_groups", PList l)]
    end)
   ++
   (match resize_node_groups o with
    | [] => []
    | l => [("resize_node_groups", PList l)]
    end))%list.

(** [dict(map(lambda x: x.split(':', 1), parsed_args.node_groups))] *)
Definition scale_node_groups (a : parsed_args)
  : result (list (string * string)) :=
  match node_groups a with
  | None => Raise TypeError
  | Some l => Py.dict_of_pairs [] (map Py.split_colon l)
  end.

(** [[ng['name'] for ng in cluster.node_groups]] *)
Definition cluster_node_groups (cluster : pyval) : result (list pyval) :=
  let? ngs := Py.getattr cluster "node_groups" in
  let? l := Py.iter ngs in
  rmap (fun ng => Py.subscript ng "name") l.

Section Handler.
Context {World : Type} {C : Collaborators World}.

(** [int(count)] *)
Definition int_of (count : string) : result pyval :=
  match py_int count with
  | Some n => Ok (PInt n)
  | None => Raise (ValueError "invalid literal for int()")
  end.

(** The body of the loop over [scale_node_groups.items()]; the items come
    in insertion order. *)
Definition place (existing : list pyval) (o : scale_object)
           (item : string * string) : M World scale_object :=
  let (name, count) := item in
  ng <- do_call (get_resource node_group_templates (PStr name)) ;;
  n <- lift (Py.getattr ng "name") ;;
  if Py.list_mem n existing then
    n <- lift (Py.getattr ng "name") ;;
    c <- lift (int_of count) ;;
    ret {| add_node_groups := add_node_groups o;
           resize_node_groups :=
             (resize_node_groups o
                ++ [PDict [("name", n); ("count", c)]])%list |}
  else
    i <- lift (Py.getattr ng "id") ;;
    n <- lift (Py.getattr ng "name") ;;
    c <- lift (int_of count) ;;
    ret {| add_node_groups :=
             (add_node_groups o
                ++ [PDict [("node_group_template_id", i);
                           ("name", n); ("count", c)]])%list;
           resize_node_groups := resize_node_groups o |}.

(** The first [if]: the scale response. *)
Definition scale (a : parsed_args) (cluster : pyval) : M World pyval :=
  if Py.truthy_opt (json a) then
    template <- read_template (match json a with Some f => f | None => "" end) ;;
    id <- lift (Py.getattr cluster "id") ;;
    r <- do_call (clusters_scale id template) ;;
    lift (Py.to_dict r)
  else
    items <- lift (scale_node_groups a) ;;
    existing <- lift (cluster_node_groups cluster) ;;
    o <- foldM (place existing) empty_scale_object items ;;
    id <- lift (Py.getattr cluster "id") ;;
    r <- do_call (clusters_scale id (PDict (request o))) ;;
    lift (Py.getattr r "cluster").

Definition take_action (a : parsed_args) : M World pyval :=
  cluster <- do_call (get_resource clusters (PStr (cluster a))) ;;
  data <- scale a cluster ;;
  data <-
    (if wait a then
       id <- lift (Py.subscript data "id") ;;
       wait_or_log id scaling_error (Py.getattr cluster "id") ;;;
       id <- lift (Py.getattr cluster "id") ;;
       r <- do_call (clusters_get id) ;;
       lift (Py.to_dict r)
     else ret data) ;;
  lift (show_cluster data).

End Handler.

End ScaleCluster.

(** ** A scripted outside, to run the handlers on concrete inputs *)

Module Script.

(** The world is the list of the answers still to be given: a call takes
    the next one, whatever the call is.  Files do not change: reading
    one is answered from a table of contents. *)
Definition world := list (result pyval).

Fixpoint read (files : list (string * string)) (f : string) : result pyval :=
  match files with
  | [] => Raise (CommandError ("Error occurred trying to read from file " ++ f))
  | (k, v) :: r => if (f =? k)%string then Ok (PStr v) else read r f
  end.

Definition answer (files : list (string * string)) (c : call) (w : world)
  : result pyval * world :=
  match c with
  | read_blob_file_contents f => (read files f, w)
  | _ =>
      match w with
      | r :: w' => (r, w')
      | [] => (Raise (APIException "no answer"), [])
      end
  end.

(** [json.loads] on the documents of a table; anything else is not
    JSON. *)
Fixpoint loads (docs : list (string * pyval)) (s : string) : pyval + string :=
  match docs with
  | [] => inr "No JSON object could be decoded"
  | (k, v) :: r => if (s =? k)%string then inl v else loads r s
  end.

Definition int (s : string) : option Z :=
  option_map Z.of_int (NilZero.int_of_string s).

Fixpoint strings (l : list pyval) : option (list string) :=
  match l with
  | [] => Some []
  | PStr s :: r => option_map (cons s) (strings r)
  | _ => None
  end.

(** [', '.join(data)] for a list of strings *)
Definition join_list (v : pyval) : result pyval :=
  match v with
  | PList l =>
      match strings l with
      | Some ss => Ok (PStr (String.concat ", " ss))
      | None => Raise TypeError
      end
  | _ => Raise TypeError
  end.

Definition columns (m : pymap) : pyval :=
  PList [PList (map fst m); PList (map snd m)].

Definition properties (r : pyval) (cols : list string) : pyval :=
  PList (map (fun c => match Py.getattr r c with
                       | Ok v => v
                       | Raise _ => PStr ""
                       end) cols).

(** A [prepare_data] for the scripted world: the listed fields that the
    record has, each with its value. *)
Definition listed (data : pydict) (fields : list string) : pydict :=
  flat_map (fun f => match Py.dict_get f data with
                     | Some v => [(f, v)]
                     | None => []
                     end) fields.

Definition outside (files : list (string * string))
           (docs : list (string * pyval)) : Collaborators world :=
  {| perform := answer files;
     json_loads := loads docs;
     py_int := int;
     py_repr := fun _ => "<repr>";
     format_list := join_list;
     dict2columns := columns;
     get_item_properties := properties;
     get_by_name_substring := fun data _ => Ok data;
     prepare_column_headers := fun cols _ => PList (map PStr cols);
     prepare_data := listed |}.

(** Some data: a cluster record as the service returns it, and the
    document of a JSON template. *)
Definition cluster_fields (id name : string) : pydict :=
  [("id", PStr id); ("name", PStr name);
   ("hadoop_version", PStr "2.7.1");
   ("default_image_id", PStr "img-1");
   ("node_groups",
    PList [PDict [("name", PStr "master"); ("count", PInt 1)];
           PDict [("name", PStr "worker"); ("count", PInt 3)]]);
   ("anti_affinity", PList [PStr "datanode"; PStr "namenode"]);
   ("status", PStr "Active");
   ("plugin_name", PStr "vanilla")].

Definition cluster_record (id name : string) : pyval :=
  PDict (cluster_fields id name).

Definition template_fields : pydict :=
  [("name", PStr "from-json");
   ("plugin_name", PStr "vanilla");
   ("hadoop_version", PStr "2.7.1");
   ("neutron_management_network", PStr "net-7")].

Definition template_doc : pyval := PDict template_fields.

Definition docs : list (string * pyval) :=
  [("TEMPLATE", template_doc);
   ("BATCH", PDict [("name", PStr "from-json"); ("count", PInt 2)])].

(** [bad.json] holds an opening brace and nothing else. *)
Definition files : list (string * string) :=
  [("cluster.json", "TEMPLATE"); ("batch.json", "BATCH"); ("bad.json", "{")].

Definition demo : Collaborators world := outside files docs.

(** The command line [--name c --cluster-template tmpl --image img], to
    which a count, a JSON file and [--wait] are added. *)
Definition create_args (count : option Z) (json : option string) (wait : bool)
  : CreateCluster.parsed_args :=
  {| CreateCluster.name := Some "c";
     CreateCluster.cluster_template := Some "tmpl";
     CreateCluster.image := Some "img";
     CreateCluster.description := None;
     CreateCluster.user_keypair := None;
     CreateCluster.neutron_network := None;
     CreateCluster.count := count;
     CreateCluster.public := false;
     CreateCluster.protected := false;
     CreateCluster.transient := false;
     CreateCluster.json := json;
     CreateCluster.wait := wait |}.

(** The cluster template [tmpl] as a resource. *)
Definition template_resource : pyval :=
  PDict [("plugin_name", PStr "vanilla"); ("hadoop_version", PStr "2.7.1");
         ("id", PStr "t-1")].

End Script.

(** * The vocabulary of the properties *)

(** ** Kinds of events *)

Definition is_create (e : event) : bool :=
  match e with Called (clusters_create _) _ => true | _ => false end.


Definition is_scale (e : event) : bool :=
  match e with Called (clusters_scale _ _) _ => true | _ => false end.

Definition is_delete (e : event) : bool :=
  match e with Called (clusters_delete _) _ => true | _ => false end.

Definition is_list (e : event) : bool :=
  match e with Called (clusters_list _) _ => true | _ => false end.


Definition is_wait (e : event) : bool :=
  match e with
  | Called (wait_for_status _) _ | Called (wait_for_delete _) _ => true
  | _ => false
  end.

Definition is_log (e : event) : bool :=
  match e with LogError _ _ => true | _ => false end.

(** A wait that came back with a false value. *)
Definition failed_wait (e : event) : Prop :=
  exists id v, e = Called (wait_for_status id) (Ok v) /\ Py.truthy v = false.

(** ** Shapes of traces *)

(** The number of events of the kind [p]. *)
Definition count (p : event -> bool) (t : list event) : nat :=
  length (filter p t).

(** [e1] comes right before [e2] in [t]. *)
Definition adjacent (e1 e2 : event) (t : list event) : Prop :=
  exists pre post, t = (pre ++ e1 :: e2 :: post)%list.

(** For each argument in turn, the lookup and then the delete of the id
    it returned. *)
Inductive resolved_then_deleted : list string -> list event -> Prop :=
| rd_nil : resolved_then_deleted [] []
| rd_cons c id r cs t :
    resolved_then_deleted cs t ->
    resolved_then_deleted
      (c :: cs)
      (Called (get_resource_id clusters (PStr c)) (Ok id)
              :: Called (clusters_delete id) (Ok r) :: t).

(** The lookups of a batch: one per id, in order. *)
Definition lookups (ids cs : list pyval) : list event :=
  map (fun ic => Called (get_resource clusters (fst ic)) (Ok (snd ic)))
      (combine ids cs).

(** The ids of the delete calls, and of the waits for a deletion, in
    order. *)
Definition deleted (t : list event) : list pyval :=
  flat_map (fun e => match e with
                     | Called (clusters_delete id) _ => [id]
                     | _ => []
                     end) t.

Definition waited (t : list event) : list pyval :=
  flat_map (fun e => match e with
                     | Called (wait_for_delete id) _ => [id]
                     | _ => []
                     end) t.

(** A wait for a deletion that came back with a false value. *)
Definition is_failed_delete_wait (e : event) : bool :=
  match e with
  | Called (wait_for_delete _) (Ok v) => negb (Py.truthy v)
  | _ => false
  end.

Definition is_find_attr (e : event) : bool :=
  match e with Called (find_attr _ _) _ => true | _ => false end.

Definition is_template_lookup (e : event) : bool :=
  match e with
  | Called (get_resource node_group_templates _) _ => true
  | _ => false
  end.

(** ** Records and documents *)

(** Whether a string has a colon. *)
Fixpoint has_colon (s : string) : bool :=
  match s with
  | EmptyString => false
  | String c r => Ascii.eqb c ":"%char || has_colon r
  end.


(** The fields [_format_cluster_output] reads or writes. *)
Definition reshaped_fields : list string :=
  ["hadoop_version"; "default_image_id"; "version"; "image"; "node_groups";
   "anti_affinity"].

(** The document with its ['neutron_management_network'] key renamed to
    ['net_id']. *)
Definition network_renamed (d : pydict) : pydict :=
  match Py.dict_get "neutron_management_network" d with
  | Some v => Py.dict_set "net_id" v (Py.dict_del "neutron_management_network" d)
  | None => d
  end.

(** [data[cluster.name] = cluster.id] and the loop over the clusters,
    without the monad: they make no call. *)
Definition store_cluster (m : pymap) (cluster : pyval) : result pymap :=
  let? i := Py.getattr cluster "id" in
  let? n := Py.getattr cluster "name" in
  if Py.hashable n then Ok (Py.map_set n i m) else Raise TypeError.

Fixpoint name_id_map (m : pymap) (cs : list pyval) : result pymap :=
  match cs with
  | [] => Ok m
  | c :: r => let? m1 := store_cluster m c in name_id_map m1 r
  end.

(** No two of the values are equal ([==]). *)
Fixpoint distinct (ns : list pyval) : Prop :=
  match ns with
  | [] => True
  | n :: r => Forall (fun k => Py.py_eq k n = false) r /\ distinct r
  end.


(** The id stored last under a name equal ([==]) to [n], in a list of
    (name, id) pairs. *)
Definition last_id (n : pyval) (pairs : list (pyval * pyval)) : option pyval :=
  fold_left (fun acc p => if Py.py_eq n (fst p) then Some (snd p) else acc)
            pairs None.

(** ** The command line of [UpdateCluster] *)

(** Whether a flag occurs on the command line (whatever its value, for
    the two flags that take one). *)
Definition given (f : UpdateCluster.flag) (fs : list UpdateCluster.flag) : bool :=
  existsb (UpdateCluster.flag_eqb f) fs.

(** The value of the last [--name], of the last [--description]; [d]
    without one. *)
Definition last_name (fs : list UpdateCluster.flag) (d : option string)
  : option string :=
  fold_left (fun acc f => match f with
                          | UpdateCluster.f_name s => Some s
                          | _ => acc
                          end) fs d.

Definition last_description (fs : list UpdateCluster.flag) (d : option string)
  : option string :=
  fold_left (fun acc f => match f with
                          | UpdateCluster.f_description s => Some s
                          | _ => acc
                          end) fs d.

(** A destination shared by a [store_true] and a [store_false] flag. *)
Definition switch (on off : bool) (d : option bool) : option bool :=
  if on then Some true else if off then Some false else d.

(** ** Handlers and their runs *)

Section Vocabulary.
Context {World : Type} {C : Collaborators World}.

(** Every event of every run satisfies [P]. *)
Definition always {A} (P : event -> Prop) (m : M World A) : Prop :=
  forall w, Forall P (trace (m w)).

(** No event of the kind [p], in any run. *)
Definition never {A} (p : event -> bool) (m : M World A) : Prop :=
  always (fun e => p e = false) m.


(** A call that raises ends the run with its exception: the call is the
    last event and the exception is the outcome. *)
Definition propagates {A} (m : M World A) : Prop :=
  forall w c e,
    In (Called c (Raise e)) (trace (m w)) ->
    outcome (m w) = Raise e /\
    exists pre, trace (m w) = (pre ++ [Called c (Raise e)])%list.

(** A handler whose result, when it returns, is a cluster shown by
    [show_cluster]. *)
Definition shows (m : M World pyval) : Prop :=
  forall w v, outcome (m w) = Ok v -> exists data, show_cluster data = Ok v.

(** Each node group of [ngs] has a name and a count, and [parts] are the
    ['name:count'] strings, in the same order. *)
Definition name_count_pairs (ngs : list pyval) (parts : list string) : Prop :=
  Forall2 (fun ng part =>
             exists n c, Py.subscript ng "name" = Ok n /\
                         Py.subscript ng "count" = Ok c /\
                         part = py_str n ++ ":" ++ py_str c) ngs parts.

(** In [CreateCluster], what follows the reading of the template in the
    branch with [--json]. *)
Definition after_template (a : CreateCluster.parsed_args) (template : pyval)
  : M World (pyval * pyval) :=
  template <- lift (CreateCluster.rename_network template) ;;
  c <- lift (CreateCluster.template_count template (CreateCluster.count_value a)) ;;
  kwargs <- lift (CreateCluster.as_kwargs template) ;;
  r <- do_call (clusters_create kwargs) ;;
  data <- lift (Py.to_dict r) ;;
  ret (data, c).

(** In [CreateCluster], the body of the loop [for cluster in clusters]
    under [--wait]. *)
Definition wait_for_cluster (data cluster : pyval) : M World unit :=
  id <- lift (Py.getattr cluster "id") ;;
  wait_or_log id CreateCluster.creation_error (Py.subscript data "id").





End Vocabulary.

(** * Properties *)

(** ** Runs of the monad *)

Section Runs.
Context {World : Type} {C : Collaborators World}.

Lemma bind_ok {A B} (m : M World A) (k : A -> M World B) w a w1 t1 :
  m w = (Ok a, w1, t1) ->
  bind m k w = (outcome (k a w1), final (k a w1), (t1 ++ trace (k a w1))%list).
Proof.
  intros E. unfold bind. rewrite E.
  destruct (k a w1) as [[r w2] t2]. reflexivity.
Qed.

Lemma bind_raise {A B} (m : M World A) (k : A -> M World B) w e w1 t1 :
  m w = (Raise e, w1, t1) -> bind m k w = (Raise e, w1, t1).
Proof. intros E. unfold bind. rewrite E. reflexivity. Qed.

Lemma bind_inv {A B} (m : M World A) (k : A -> M World B) w b w2 t :
  bind m k w = (Ok b, w2, t) ->
  exists a w1 t1 t2,
    m w = (Ok a, w1, t1) /\ k a w1 = (Ok b, w2, t2) /\ t = (t1 ++ t2)%list.
Proof.
  unfold bind. destruct (m w) as [[[a|e] w1] t1]; [|discriminate].
  destruct (k a w1) as [[r w2'] t2] eqn:E. intros X. inversion X; subst.
  exists a, w1, t1, t2. auto.
Qed.

Lemma trace_bind {A B} (m : M World A) (k : A -> M World B) w :
  trace (bind m k w) =
  (trace (m w) ++ match outcome (m w) with
                  | Ok a => trace (k a (final (m w)))
                  | Raise _ => []
                  end)%list.
Proof.
  unfold bind. destruct (m w) as [[[a|e] w1] t1]; cbn.
  - destruct (k a w1) as [[r w2] t2]. reflexivity.
  - now rewrite app_nil_r.
Qed.

Lemma outcome_bind {A B} (m : M World A) (k : A -> M World B) w :
  outcome (bind m k w) =
  match outcome (m w) with
  | Ok a => outcome (k a (final (m w)))
  | Raise e => Raise e
  end.
Proof.
  unfold bind. destruct (m w) as [[[a|e] w1] t1]; cbn; [|reflexivity].
  destruct (k a w1) as [[r w2] t2]. reflexivity.
Qed.

Lemma lift_run {A} (r : result A) (w : World) : lift r w = (r, w, []).
Proof. reflexivity. Qed.

Lemma do_call_run c w :
  do_call c w = (fst (perform c w), snd (perform c w),
                 [Called c (fst (perform c w))]).
Proof. unfold do_call. destruct (perform c w). reflexivity. Qed.

(** *** A property of every event of every run *)

Lemma always_ret {A} P (a : A) : always (World := World) P (ret a).
Proof. intros w. constructor. Qed.

Lemma always_raise {A} P e : always P (@raise World A e).
Proof. intros w. constructor. Qed.

Lemma always_lift {A} P (r : result A) : always (World := World) P (lift r).
Proof. intros w. constructor. Qed.

Lemma always_bind {A B} P (m : M World A) (k : A -> M World B) :
  always P m -> (forall a, always P (k a)) -> always P (bind m k).
Proof.
  intros Hm Hk w. rewrite trace_bind. apply Forall_app. split; [apply Hm|].
  destruct (outcome (m w)); [apply Hk | constructor].
Qed.

(** After [lift r], the continuation only runs on the value of [r]. *)
Lemma always_bind_lift {A B} P (r : result A) (k : A -> M World B) :
  (forall a, r = Ok a -> always P (k a)) -> always P (bind (lift r) k).
Proof.
intros Hk w. rewrite trace_bind. cbn.
destruct r as [a|e]; [now apply Hk | constructor].
Qed.

Lemma always_call P c : (forall r, P (Called c r)) -> always P (do_call c).
Proof.
  intros Hc w. rewrite do_call_run. cbn. constructor; [apply Hc | constructor].
Qed.

Lemma always_log P fmt arg :
  P (LogError fmt arg) -> always (World := World) P (log_error fmt arg).
Proof. intros Hl w. cbn. constructor; [exact Hl | constructor]. Qed.

Lemma always_mapM {A B} P (f : A -> M World B) l :
  (forall x, always P (f x)) -> always P (mapM f l).
Proof.
  intros Hf. induction l as [|x r IH]; cbn.
  - apply always_ret.
  - apply always_bind; [apply Hf|]. intros y.
    apply always_bind; [exact IH|]. intros ys. apply always_ret.
Qed.

Lemma always_for_each {A} P (f : A -> M World unit) l :
  (forall x, always P (f x)) -> always P (for_each f l).
Proof.
  intros Hf. induction l as [|x r IH]; cbn.
  - apply always_ret.
  - apply always_bind; [apply Hf|]. intros _. exact IH.
Qed.

Lemma always_foldM {A S} P (f : S -> A -> M World S) l :
  (forall s x, always P (f s x)) -> forall s, always P (foldM f s l).
Proof.
  intros Hf. induction l as [|x r IH]; intros s; cbn.
  - apply always_ret.
  - apply always_bind; [apply Hf|]. intros s1. apply IH.
Qed.

Lemma always_if {A} P (b : bool) (m1 m2 : M World A) :
  always P m1 -> always P m2 -> always P (if b then m1 else m2).
Proof. destruct b; auto. Qed.

End Runs.

(** Event by event: a handler's trace satisfies [P] when each call and
    each log line it can make does. *)
Ltac always_tac :=
  repeat first
    [ apply always_ret | apply always_raise | apply always_lift
    | apply always_log | apply always_call
    | apply always_mapM | apply always_for_each | apply always_foldM
    | apply always_if
    | match goal with
      | |- always _ (match ?x with _ => _ end) => destruct x
      | |- forall _, _ => intro
      end
    | apply always_bind_lift
    | apply always_bind ].

(** ** Argument validation *)

Lemma prefix_app (p s : string) : String.prefix p (p ++ s) = true.
Proof.
  induction p as [|c p IH]; cbn.
  - now destruct s.
  - rewrite IH. destruct (Ascii.ascii_dec c c); [reflexivity | congruence].
Qed.

Lemma contains_prefix (f s : string) :
  String.prefix f s = true -> Py.contains f s = true.
Proof. intros E. destruct s; cbn in *; rewrite E; reflexivity. Qed.

Lemma contains_app (p f s : string) : Py.contains f (p ++ f ++ s) = true.
Proof.
  induction p as [|c p IH].
  - change ("" ++ f ++ s) with (f ++ s). apply contains_prefix, prefix_app.
  - cbn. cbn in IH. rewrite IH. apply orb_true_r.
Qed.

Lemma template_error_names_file (file e : string) :
  Py.contains file (template_error file e) = true.
Proof. unfold template_error. apply contains_app. Qed.

Lemma truthy_some (f : string) : f <> "" -> Py.truthy_opt (Some f) = true.
Proof.
  intros Hf. cbn. destruct (String.eqb_spec f ""); [contradiction | reflexivity].
Qed.

Section Validation.
Context {World : Type} {C : Collaborators World}.

Lemma read_template_invalid file blob e (w w1 : World) :
  perform (read_blob_file_contents file) w = (Ok (PStr blob), w1) ->
  json_loads blob = inr e ->
  read_template file w =
  (Raise (CommandError (template_error file e)), w1,
   [Called (read_blob_file_contents file) (Ok (PStr blob))]).
Proof.
  intros Hr Hj. unfold read_template, bind, do_call.
  rewrite Hr, Hj. reflexivity.
Qed.

(** C1, as amended.  (1) [CreateCluster] without a JSON file and with
    one of [--name], [--cluster-template], [--image] missing raises the
    CommandError at once: the trace is empty.  (2) [CreateCluster] with
    [--json], the file holding something that is not JSON, raises the
    CommandError whose message names the file, the read of the file
    being the only call made.  (3) [ScaleCluster] with such a file
    raises the same error, no scale call being made, once the lookup of
    the cluster, which comes before the file is read, has returned the
    cluster. *)
Theorem validation_failures_raise_CommandError :
  (forall (a : CreateCluster.parsed_args) (w : World),
      Py.truthy_opt (CreateCluster.json a) = false ->
      CreateCluster.name a = None \/
      CreateCluster.cluster_template a = None \/
      CreateCluster.image a = None ->
      CreateCluster.take_action a w =
      (Raise (CommandError CreateCluster.missing_arguments), w, []))
  /\
  (forall (a : CreateCluster.parsed_args) (w w1 : World) file blob e,
      CreateCluster.json a = Some file -> file <> "" ->
      perform (read_blob_file_contents file) w = (Ok (PStr blob), w1) ->
      json_loads blob = inr e ->
      CreateCluster.take_action a w =
      (Raise (CommandError (template_error file e)), w1,
       [Called (read_blob_file_contents file) (Ok (PStr blob))])
      /\ Py.contains file (template_error file e) = true)
  /\
  (forall (a : ScaleCluster.parsed_args) (w w1 w2 : World) cluster file blob e,
      ScaleCluster.json a = Some file -> file <> "" ->
      perform (get_resource clusters (PStr (ScaleCluster.cluster a))) w
      = (Ok cluster, w1) ->
      perform (read_blob_file_contents file) w1 = (Ok (PStr blob), w2) ->
      json_loads blob = inr e ->
      ScaleCluster.take_action a w =
      (Raise (CommandError (template_error file e)), w2,
       [Called (get_resource clusters (PStr (ScaleCluster.cluster a)))
               (Ok cluster);
        Called (read_blob_file_contents file) (Ok (PStr blob))])
      /\ Py.contains file (template_error file e) = true).
Proof.
  split; [|split].
  - intros a w Hj Hm.
    unfold CreateCluster.take_action, CreateCluster.create.
    rewrite Hj.
    assert (negb (Py.truthy_opt (CreateCluster.name a))
            || negb (Py.truthy_opt (CreateCluster.cluster_template a))
            || negb (Py.truthy_opt (CreateCluster.image a)) = true) as ->.
    { destruct Hm as [E|[E|E]]; rewrite E; cbn;
        rewrite ?orb_true_r; reflexivity. }
    reflexivity.
  - intros a w w1 file blob e Hj Hf Hr Hl.
    split; [|apply template_error_names_file].
    unfold CreateCluster.take_action, CreateCluster.create.
    rewrite Hj, (truthy_some _ Hf).
    apply bind_raise. apply bind_raise.
    now apply read_template_invalid.
  - intros a w w1 w2 cluster file blob e Hj Hf Hc Hr Hl.
    split; [|apply template_error_names_file].
    unfold ScaleCluster.take_action.
    erewrite bind_ok
      by (unfold do_call; rewrite Hc; reflexivity).
    assert (ScaleCluster.scale a cluster w1 =
            (Raise (CommandError (template_error file e)), w2,
             [Called (read_blob_file_contents file) (Ok (PStr blob))])) as E.
    { unfold ScaleCluster.scale. rewrite Hj, (truthy_some _ Hf).
      apply bind_raise. now apply read_template_invalid. }
    erewrite (bind_raise (ScaleCluster.scale a cluster)) by exact E.
    reflexivity.
Qed.

End Validation.

Lemma validation_failures_witness :
  CreateCluster.take_action
    (C := Script.demo)
    {| CreateCluster.name := Some "c";
       CreateCluster.cluster_template := None;
       CreateCluster.image := Some "img";
       CreateCluster.description := None;
       CreateCluster.user_keypair := None;
       CreateCluster.neutron_network := None;
       CreateCluster.count := None;
       CreateCluster.public := false;
       CreateCluster.protected := false;
       CreateCluster.transient := false;
       CreateCluster.json := None;
       CreateCluster.wait := false |} []
  = (Raise (CommandError CreateCluster.missing_arguments), [], [])
  /\
  outcome
    (ScaleCluster.take_action
       (C := Script.demo)
       {| ScaleCluster.cluster := "c";
          ScaleCluster.node_groups := None;
          ScaleCluster.json := Some "bad.json";
          ScaleCluster.wait := false |}
       [Ok (Script.cluster_record "c-1" "c")])
  = Raise (CommandError
             (template_error "bad.json" "No JSON object could be decoded")).
Proof.
  destruct (@validation_failures_raise_CommandError Script.world Script.demo)
    as [H1 [_ H3]].
  split.
  - apply H1; [reflexivity | right; left; reflexivity].
  - edestruct (H3 {| ScaleCluster.cluster := "c";
                     ScaleCluster.node_groups := None;
                     ScaleCluster.json := Some "bad.json";
                     ScaleCluster.wait := false |}
                  [Ok (Script.cluster_record "c-1" "c")])
      as [E _];
      [reflexivity | discriminate | reflexivity | reflexivity | reflexivity |].
    rewrite E. reflexivity.
Defined.

(** C1 as stated fails for [ScaleCluster]: the cluster is looked up before
    the file is read, so with a cluster the lookup does not find, the
    lookup's error is what is raised, whatever the file holds. *)
Lemma scale_lookup_fails_before_validation :
  let a := {| ScaleCluster.cluster := "ghost";
              ScaleCluster.node_groups := None;
              ScaleCluster.json := Some "bad.json";
              ScaleCluster.wait := false |} in
  let run := ScaleCluster.take_action
               (C := Script.demo) a
               [Raise (APIException "Cluster ghost not found")] in
  (forall w, perform (Collaborators := Script.demo)
                     (read_blob_file_contents "bad.json") w
             = (Ok (PStr "{"), w))
  /\ json_loads (Collaborators := Script.demo) "{"
     = inr "No JSON object could be decoded"
  /\ run = (Raise (APIException "Cluster ghost not found"), [],
            [Called (get_resource clusters (PStr "ghost"))
                    (Raise (APIException "Cluster ghost not found"))])
  /\ forall msg, outcome run <> Raise (CommandError msg).
Proof.
  cbv zeta. repeat split.
  intros msg. cbn. discriminate.
Qed.

(** ** Dicts *)

Lemma dict_get_set_same k v d : Py.dict_get k (Py.dict_set k v d) = Some v.
Proof.
induction d as [|[k' v'] r IH]; cbn.
- now rewrite String.eqb_refl.
- destruct (k =? k')%string eqn:E; cbn; rewrite E; auto.
Qed.

Lemma dict_get_set_other k k' v d :
  (k =? k')%string = false ->
  Py.dict_get k (Py.dict_set k' v d) = Py.dict_get k d.
Proof.
intros N. induction d as [|[k2 v2] r IH]; cbn.
- now rewrite N.
- destruct (k' =? k2)%string eqn:E; cbn.
  + apply String.eqb_eq in E. subst k2. now rewrite N.
  + now rewrite IH.
Qed.

Lemma dict_get_del_same k d : Py.dict_get k (Py.dict_del k d) = None.
Proof.
unfold Py.dict_del.
induction d as [|[k' v'] r IH]; cbn; [reflexivity|].
destruct (k =? k')%string eqn:E; cbn; [exact IH | now rewrite E].
Qed.

Lemma dict_get_del_other k k' d :
  (k =? k')%string = false ->
  Py.dict_get k (Py.dict_del k' d) = Py.dict_get k d.
Proof.
intros N. unfold Py.dict_del.
induction d as [|[k2 v2] r IH]; cbn; [reflexivity|].
destruct (k' =? k2)%string eqn:E; cbn.
- apply String.eqb_eq in E. subst k2. now rewrite N.
- now rewrite IH.
Qed.

(** ** The record shown for one cluster *)

Section Display.
Context {World : Type} {C : Collaborators World}.

Lemma format_node_groups ngs parts :
  name_count_pairs ngs parts ->
  _format_node_groups_list (PList ngs) = Ok (PStr (String.concat ", " parts)).
Proof.
intros Hp. unfold _format_node_groups_list. cbn.
assert (rmap node_group_pair ngs = Ok parts) as ->; [|reflexivity].
induction Hp as [|ng part ngs parts (n & c & Hn & Hc & ->) _ IH]; cbn.
- reflexivity.
- unfold node_group_pair at 1. rewrite Hn, Hc. cbn. now rewrite IH.
Qed.

Lemma shows_lift data : shows (lift (show_cluster data)).
Proof. intros w v Hv. now exists data. Qed.

Lemma shows_bind {A} (m : M World A) k :
  (forall a, shows (k a)) -> shows (bind m k).
Proof.
intros Hk w v. rewrite outcome_bind.
destruct (outcome (m w)); [apply Hk | discriminate].
Qed.

Lemma shows_single a data : shows (CreateCluster.single a data).
Proof. apply shows_bind. intros d. apply shows_lift. Qed.

Lemma shows_show a : shows (ShowCluster.take_action a).
Proof. repeat (apply shows_bind; intro). apply shows_lift. Qed.

Lemma shows_update a : shows (UpdateCluster.take_action a).
Proof. repeat (apply shows_bind; intro). apply shows_lift. Qed.

Lemma shows_scale a : shows (ScaleCluster.take_action a).
Proof.
apply shows_bind; intro. apply shows_bind; intro.
apply shows_bind; intro. apply shows_lift.
Qed.

(** The handler after its first [if]. *)
Lemma take_action_after_create a (w w1 : World) data c t1 :
  CreateCluster.create a w = (Ok (data, c), w1, t1) ->
  CreateCluster.take_action a w =
  let k := bind (lift (CreateCluster.count_gt_1 c))
                (fun big : bool => if big then CreateCluster.batch a data
                                   else CreateCluster.single a data) in
  (outcome (k w1), final (k w1), (t1 ++ trace (k w1))%list).
Proof.
intros E. unfold CreateCluster.take_action.
now rewrite (bind_ok _ _ _ _ _ _ E).
Qed.

Lemma shows_create_single a (w w1 : World) data c t1 v :
  CreateCluster.create a w = (Ok (data, c), w1, t1) ->
  CreateCluster.count_gt_1 c = Ok false ->
  outcome (CreateCluster.take_action a w) = Ok v ->
  exists data', show_cluster data' = Ok v.
Proof.
intros E Hc. rewrite (take_action_after_create _ _ _ _ _ _ E).
cbv zeta. unfold outcome at 1. cbn [fst].
rewrite outcome_bind, lift_run, Hc. apply shows_single.
Qed.

End Display.

Ltac dict_simpl :=
  repeat first
    [ rewrite dict_get_set_same
    | rewrite dict_get_del_same
    | rewrite dict_get_set_other by (reflexivity || assumption)
    | rewrite dict_get_del_other by (reflexivity || assumption) ].

(** ** The JSON file of [CreateCluster] *)

Lemma rename_network_dict d :
  CreateCluster.rename_network (PDict d) = Ok (PDict (network_renamed d)).
Proof.
unfold CreateCluster.rename_network, network_renamed, py_in, Py.dict_in,
  Py.dict_pop.
cbn. now destruct (Py.dict_get "neutron_management_network" d).
Qed.

Section JsonFile.
Context {World : Type} {C : Collaborators World}.

Lemma always_wait_or_log P id fmt arg :
  (forall r, P (Called (wait_for_status id) r)) ->
  (forall x, P (LogError fmt x)) ->
  always (World := World) P (wait_or_log id fmt arg).
Proof. intros Hw Hl. unfold wait_or_log. always_tac; auto. Qed.

(** Nothing after the first [if] of [CreateCluster.take_action] calls
    [create]. *)
Lemma no_create_after_create a data c :
  always (World := World) (fun e => is_create e = false)
         (bind (lift (CreateCluster.count_gt_1 c))
               (fun big : bool => if big then CreateCluster.batch a data
                                  else CreateCluster.single a data)).
Proof.
unfold CreateCluster.batch, CreateCluster.single, CreateCluster.add_cluster.
always_tac; try reflexivity; try (apply always_wait_or_log; reflexivity).
Qed.

End JsonFile.

Section JsonOverrides.
Context {World : Type} {C : Collaborators World}.

Lemma read_template_run file (w : World) :
  read_template file w =
  let read := perform (read_blob_file_contents file) w in
  (match fst read with
   | Ok (PStr b) =>
       match json_loads b with
       | inl template => Ok template
       | inr e => Raise (CommandError (template_error file e))
       end
   | Ok _ => Raise TypeError
   | Raise e => Raise e
   end, snd read, [Called (read_blob_file_contents file) (fst read)]).
Proof.
unfold read_template, bind, do_call.
destruct (perform (read_blob_file_contents file) w) as [[blob|e] w1];
  cbn; [|reflexivity].
destruct blob; try reflexivity.
destruct (json_loads s); reflexivity.
Qed.

Lemma create_json a file :
  CreateCluster.json a = Some file -> file <> "" ->
  CreateCluster.create a = bind (read_template file) (after_template a).
Proof.
intros Hj Hf. unfold CreateCluster.create.
rewrite Hj, (truthy_some _ Hf). reflexivity.
Qed.

Lemma rename_network_other t :
  (forall d, t <> PDict d) ->
  CreateCluster.rename_network t = Ok t \/
  exists e, CreateCluster.rename_network t = Raise e.
Proof.
intros Ht. unfold CreateCluster.rename_network.
destruct t as [| | |s|l|d]; cbn; eauto.
- destruct (Py.contains _ s); eauto.
- destruct (Py.list_mem _ l); eauto.
- now destruct (Ht d).
Qed.

(** A document that is not an object never reaches the create call. *)
Lemma after_template_other a t (w : World) :
  (forall d, t <> PDict d) -> trace (after_template a t w) = [].
Proof.
intros Ht. unfold after_template, bind, lift.
destruct (rename_network_other t Ht) as [-> | [e ->]]; [|reflexivity].
destruct (CreateCluster.template_count t (CreateCluster.count_value a));
  [|reflexivity].
destruct t; try reflexivity. now destruct (Ht d).
Qed.

Lemma after_template_dict a d (w : World) :
  trace (after_template a (PDict d) w) =
  [Called (clusters_create (network_renamed d))
          (fst (perform (clusters_create (network_renamed d)) w))].
Proof.
unfold after_template, bind, lift. rewrite rename_network_dict.
unfold CreateCluster.template_count, py_in, Py.subscript, Py.dict_in.
destruct (Py.dict_get "count" (network_renamed d)); cbn;
  unfold do_call;
  destruct (perform (clusters_create (network_renamed d)) w) as [[r|e] w2];
  cbn; try reflexivity; destruct (Py.to_dict r); reflexivity.
Qed.

(** With [--json], the calls of the first [if]: the file is read, and when
    it holds a JSON object the create call follows with that object,
    renamed, as its keyword arguments. *)
Lemma create_with_json a file (w : World) :
  CreateCluster.json a = Some file -> file <> "" ->
  let read := perform (read_blob_file_contents file) w in
  (exists blob d,
      fst read = Ok (PStr blob) /\ json_loads blob = inl (PDict d) /\
      trace (CreateCluster.create a w) =
      [Called (read_blob_file_contents file) (fst read);
       Called (clusters_create (network_renamed d))
              (fst (perform (clusters_create (network_renamed d)) (snd read)))])
  \/
  ((forall blob d, fst read = Ok (PStr blob) -> json_loads blob <> inl (PDict d))
   /\ trace (CreateCluster.create a w) =
      [Called (read_blob_file_contents file) (fst read)]).
Proof.
intros Hj Hf. cbv zeta. rewrite (create_json _ _ Hj Hf).
rewrite trace_bind, read_template_run. cbv zeta.
cbn [trace outcome final fst snd].
destruct (perform (read_blob_file_contents file) w) as [[blob|e] w1] eqn:E;
  cbn [fst snd app].
2:{ right. split; [intros; discriminate | reflexivity]. }
destruct blob as [| | |blob| |];
  try (right; split; [intros; discriminate | reflexivity]).
destruct (json_loads blob) as [template|e] eqn:J.
2:{ right. split; [|reflexivity]. intros b d B. inversion B; subst. congruence. }
destruct template as [| |n|s|l|d].
6:{ left. exists blob, d. split; [reflexivity|]. split; [exact J|].
    now rewrite after_template_dict. }
all: right; split;
  [ intros blob' d' B; inversion B; subst; congruence
  | rewrite after_template_other by discriminate; reflexivity ].
Qed.

End JsonOverrides.

Lemma filter_none {A} (p : A -> bool) l :
  Forall (fun x => p x = false) l -> filter p l = [].
Proof.
induction 1 as [|x l Hx _ IH]; cbn; [reflexivity|]. now rewrite Hx.
Qed.

Section JsonPayload.
Context {World : Type} {C : Collaborators World}.

Lemma create_calls_of_take_action a (w : World) :
  filter is_create (trace (CreateCluster.take_action a w)) =
  filter is_create (trace (CreateCluster.create a w)).
Proof.
unfold CreateCluster.take_action. rewrite trace_bind, filter_app.
destruct (outcome (CreateCluster.create a w)) as [[data c]|e];
  cbv beta iota.
- rewrite (filter_none _ _ (no_create_after_create a data c _)).
  apply app_nil_r.
- apply app_nil_r.
Qed.

Lemma after_template_any_flags a a' t (w : World) :
  trace (after_template a t w) = trace (after_template a' t w).
Proof.
destruct t as [| | | | |d];
  try (rewrite !after_template_other by discriminate; reflexivity).
now rewrite !after_template_dict.
Qed.

(** C5.  With [--json], (1) the keyword arguments of any create call the
    handler makes are the object parsed from the file, with
    ['neutron_management_network'] renamed to ['net_id']; (2) when the
    file holds a JSON object the call is made, with these arguments; (3)
    another command line naming the same file makes the same create calls,
    whatever its other flags; (4) the renaming leaves a document without
    the key as it is, and otherwise moves the key's value to ['net_id'],
    the other keys keeping their values. *)
Theorem json_file_overrides_flags a file (w : World) :
  CreateCluster.json a = Some file -> file <> "" ->
  let read := perform (read_blob_file_contents file) w in
  (forall kw r,
      In (Called (clusters_create kw) r) (trace (CreateCluster.take_action a w)) ->
      exists blob d,
        fst read = Ok (PStr blob) /\ json_loads blob = inl (PDict d) /\
        kw = network_renamed d) /\
  (forall blob d,
      fst read = Ok (PStr blob) -> json_loads blob = inl (PDict d) ->
      exists r,
        In (Called (clusters_create (network_renamed d)) r)
           (trace (CreateCluster.take_action a w))) /\
  (forall a',
      CreateCluster.json a' = Some file ->
      filter is_create (trace (CreateCluster.take_action a' w)) =
      filter is_create (trace (CreateCluster.take_action a w))) /\
  (forall d,
      Py.dict_get "neutron_management_network" d = None ->
      network_renamed d = d) /\
  (forall d v,
      Py.dict_get "neutron_management_network" d = Some v ->
      Py.dict_get "net_id" (network_renamed d) = Some v /\
      Py.dict_get "neutron_management_network" (network_renamed d) = None /\
      forall k, (k =? "net_id")%string = false ->
                (k =? "neutron_management_network")%string = false ->
                Py.dict_get k (network_renamed d) = Py.dict_get k d).
Proof.
intros Hj Hf. cbv zeta. repeat apply conj.
- intros kw r Hin.
  assert (In (Called (clusters_create kw) r)
             (filter is_create (trace (CreateCluster.take_action a w)))) as Hc
      by (apply (proj2 (filter_In _ _ _)); split; [exact Hin | reflexivity]).
  rewrite create_calls_of_take_action in Hc. apply filter_In in Hc.
  destruct Hc as [Hc _].
  destruct (create_with_json a file w Hj Hf) as [(blob & d & Hb & Hd & Ht) | [_ Ht]];
    rewrite Ht in Hc; cbn in Hc.
  + destruct Hc as [Hc | [Hc | []]]; [discriminate|].
    inversion Hc; subst. now exists blob, d.
  + destruct Hc as [Hc | []]. discriminate.
- intros blob d Hb Hd.
  eexists.
  assert (In (Called (clusters_create (network_renamed d))
                     (fst (perform (clusters_create (network_renamed d))
                                   (snd (perform (read_blob_file_contents file) w)))))
             (filter is_create (trace (CreateCluster.take_action a w)))) as Hc.
  { rewrite create_calls_of_take_action.
    destruct (create_with_json a file w Hj Hf)
      as [(blob' & d' & Hb' & Hd' & Ht) | [Hn _]].
    - rewrite Hb in Hb'. inversion Hb'; subst blob'.
      rewrite Hd in Hd'. inversion Hd'; subst d'.
      rewrite Ht. cbn. left. reflexivity.
    - now destruct (Hn blob d Hb). }
  apply filter_In in Hc. exact (proj1 Hc).
- intros a' Hj'. rewrite !create_calls_of_take_action.
  rewrite (create_json _ _ Hj Hf), (create_json _ _ Hj' Hf).
  rewrite !trace_bind.
  destruct (outcome (read_template file w)); [|reflexivity].
  now rewrite (after_template_any_flags a' a).
- intros d Hd. unfold network_renamed. now rewrite Hd.
- intros d v Hd. unfold network_renamed. rewrite Hd.
  repeat split; intros; dict_simpl; reflexivity.
Qed.

End JsonPayload.

Lemma json_file_overrides_flags_witness :
  exists r,
    In (Called (clusters_create
                  [("name", PStr "from-json"); ("plugin_name", PStr "vanilla");
                   ("hadoop_version", PStr "2.7.1"); ("net_id", PStr "net-7")])
               r)
       (trace (CreateCluster.take_action
                 (C := Script.demo)
                 (Script.create_args None (Some "cluster.json") false)
                 [Ok (Script.cluster_record "c-1" "from-json")])).
Proof.
destruct (json_file_overrides_flags
            (C := Script.demo)
            (Script.create_args None (Some "cluster.json") false)
            "cluster.json"
            [Ok (Script.cluster_record "c-1" "from-json")]
            eq_refl ltac:(discriminate)) as (_ & H2 & _).
apply (H2 "TEMPLATE" Script.template_fields); reflexivity.
Defined.

(** ** Waiting for a batch of clusters *)

Section BatchWait.
Context {World : Type} {C : Collaborators World}.

Lemma in_trace_bind {A B} (m : M World A) (k : A -> M World B) w e :
  In e (trace (bind m k w)) ->
  In e (trace (m w)) \/
  exists a, outcome (m w) = Ok a /\ In e (trace (k a (final (m w)))).
Proof.
rewrite trace_bind. intros H. apply in_app_or in H. destruct H as [H|H].
- now left.
- destruct (outcome (m w)) as [a|x]; [|contradiction]. right. now exists a.
Qed.

Lemma always_in {A} P (m : M World A) w e :
  always P m -> In e (trace (m w)) -> P e.
Proof. intros Hm. apply (proj1 (Forall_forall _ _) (Hm w)). Qed.

Lemma create_never_waits_or_logs a :
  always (World := World) (fun e => is_wait e = false /\ is_log e = false)
         (CreateCluster.create a).
Proof.
unfold CreateCluster.create, read_template, _get_plugin_version.
always_tac; split; reflexivity.
Qed.

Lemma wait_for_cluster_run data cluster (w : World) :
  Py.subscript data "id" = Raise (KeyError "id") ->
  wait_for_cluster data cluster w =
  match Py.getattr cluster "id" with
  | Raise e => (Raise e, w, [])
  | Ok id =>
      let p := perform (wait_for_status id) w in
      (match fst p with
       | Ok v => if Py.truthy v then Ok tt else Raise (KeyError "id")
       | Raise e => Raise e
       end, snd p, [Called (wait_for_status id) (fst p)])
  end.
Proof.
intros Hd. unfold wait_for_cluster, wait_or_log, bind, lift, do_call.
rewrite Hd.
destruct (Py.getattr cluster "id") as [id|e]; [|reflexivity].
destruct (perform (wait_for_status id) w) as [[v|e] w1]; [|reflexivity].
cbn. destruct (Py.truthy v); reflexivity.
Qed.

Lemma wait_loop_raises data cs (w : World) :
  Py.subscript data "id" = Raise (KeyError "id") ->
  let run := for_each (wait_for_cluster data) cs w in
  Forall (fun e => is_log e = false) (trace run) /\
  ((exists e, In e (trace run) /\ failed_wait e) ->
   outcome run = Raise (KeyError "id")).
Proof.
intros Hd. cbv zeta. revert w.
induction cs as [|x r IH]; intros w.
- split; [constructor|]. intros (e & [] & _).
- cbn [for_each]. unfold bind.
  rewrite (wait_for_cluster_run _ _ _ Hd).
  destruct (Py.getattr x "id") as [id|e].
  2:{ split; [constructor|]. intros (e' & [] & _). }
  cbv zeta.
  destruct (perform (wait_for_status id) w) as [[v|e] w1]; cbn [fst snd].
  2:{ split; [repeat constructor|].
      intros (e' & [He|[]] & (id' & v' & Hv & _)). subst e'. discriminate. }
  destruct (Py.truthy v) eqn:T.
  + destruct (IH w1) as [IHl IHr].
    destruct (for_each (wait_for_cluster data) r w1) as [[o w2] t2].
    cbn in *. split; [constructor; [reflexivity | exact IHl]|].
    intros (e' & [He|He] & Hf).
    * subst e'. destruct Hf as (id' & v' & Hv & Hv'). inversion Hv; subst.
      congruence.
    * apply IHr. now exists e'.
  + split; [repeat constructor|]. reflexivity.
Qed.

End BatchWait.

Section BatchWaitBug.
Context {World : Type} {C : Collaborators World}.

Lemma batch_unfold a data :
  CreateCluster.wait a = true ->
  CreateCluster.batch (World := World) a data =
  (ids <- lift (let? l := Py.subscript data "clusters" in Py.iter l) ;;
   cs <- mapM (fun id => do_call (get_resource clusters id)) ids ;;
   for_each (wait_for_cluster data) cs ;;;
   m <- foldM CreateCluster.add_cluster [] cs ;;
   ret (dict2columns m)).
Proof. intros Hw. unfold CreateCluster.batch. now rewrite Hw. Qed.

Lemma lookups_never_wait (ids : list pyval) :
  always (World := World) (fun e => is_wait e = false /\ is_log e = false)
         (mapM (fun id => do_call (get_resource clusters id)) ids).
Proof. always_tac; split; reflexivity. Qed.

Lemma mapping_never_waits cs :
  always (World := World) (fun e => is_wait e = false /\ is_log e = false)
         (m <- foldM CreateCluster.add_cluster [] cs ;; ret (dict2columns m)).
Proof.
unfold CreateCluster.add_cluster. always_tac; split; reflexivity.
Qed.

Lemma failed_wait_is_wait e : failed_wait e -> is_wait e = true.
Proof. intros (id & v & -> & _). reflexivity. Qed.

(** C8 does not hold; what the code does instead.  In a batch creation
    with [--wait], when the create response has no ['id'] key (it carries
    the ids under ['clusters']) and a wait comes back false, evaluating
    the argument [data['id']] of the log call raises KeyError: the handler
    ends with that exception and nothing is logged. *)
Theorem failed_wait_in_batch_raises_KeyError
        a (w w1 : World) data c t1 :
  CreateCluster.create a w = (Ok (data, c), w1, t1) ->
  CreateCluster.count_gt_1 c = Ok true ->
  CreateCluster.wait a = true ->
  Py.subscript data "id" = Raise (KeyError "id") ->
  (exists e, In e (trace (CreateCluster.take_action a w)) /\ failed_wait e) ->
  outcome (CreateCluster.take_action a w) = Raise (KeyError "id") /\
  filter is_log (trace (CreateCluster.take_action a w)) = [].
Proof.
intros Ec Hc Hw Hd (e & Hin & Hf).
rewrite (take_action_after_create _ _ _ _ _ _ Ec) in *.
cbv zeta in *. unfold outcome at 1, trace at 1. unfold trace at 1 in Hin.
cbn [fst snd] in *.
pose proof (Forall_forall
              (fun e => is_wait e = false /\ is_log e = false) t1) as Ft1.
assert (Forall (fun e => is_wait e = false /\ is_log e = false) t1) as Ht1.
{ pose proof (create_never_waits_or_logs a w) as F. now rewrite Ec in F. }
assert (forall w', lift (World := World) (CreateCluster.count_gt_1 c) w'
                   = (Ok true, w', [])) as Hl
    by (intros; unfold lift; now rewrite Hc).
rewrite outcome_bind, trace_bind in *. rewrite Hl in *.
cbn [outcome final trace fst snd app] in *.
rewrite (batch_unfold _ _ Hw) in *.
apply in_app_or in Hin. destruct Hin as [Hin|Hin].
{ apply (proj1 Ft1 Ht1) in Hin. apply failed_wait_is_wait in Hf.
  destruct Hin; congruence. }
rewrite filter_app.
rewrite (filter_none is_log t1)
  by (eapply Forall_impl; [|exact Ht1]; now intros ? []).
cbn [app].
apply in_trace_bind in Hin. destruct Hin as [[]|(ids & Hids & Hin)].
apply in_trace_bind in Hin. destruct Hin as [Hin|(cs & Hcs & Hin)].
{ apply (always_in _ _ _ _ (lookups_never_wait ids)) in Hin.
  apply failed_wait_is_wait in Hf. destruct Hin; congruence. }
apply in_trace_bind in Hin. destruct Hin as [Hin|([] & _ & Hin)].
2:{ apply (always_in _ _ _ _ (mapping_never_waits cs)) in Hin.
    apply failed_wait_is_wait in Hf. destruct Hin; congruence. }
destruct (wait_loop_raises data cs
            (final (mapM (fun id => do_call (get_resource clusters id)) ids
                         (final (lift (let? l := Py.subscript data "clusters"
                                       in Py.iter l) w1)))) Hd)
  as [Hnl Hr].
cbv zeta in Hnl, Hr.
assert (outcome
          (for_each (wait_for_cluster data) cs
             (final (mapM (fun id => do_call (get_resource clusters id)) ids
                          (final (lift (let? l := Py.subscript data "clusters"
                                        in Py.iter l) w1)))))
        = Raise (KeyError "id")) as Ho by (apply Hr; now exists e).
split.
- rewrite outcome_bind, Hids, outcome_bind, Hcs, outcome_bind, Ho.
  reflexivity.
- rewrite trace_bind, Hids. cbn [trace lift snd app].
  rewrite trace_bind, Hcs, filter_app.
  rewrite (filter_none is_log (trace (mapM _ ids _))).
  2:{ eapply Forall_impl; [|apply (lookups_never_wait ids)]. now intros ? []. }
  cbn [app]. rewrite trace_bind, Ho, app_nil_r.
  apply filter_none. exact Hnl.
Qed.

End BatchWaitBug.

Lemma failed_wait_in_batch_witness :
  let run :=
    CreateCluster.take_action
      (C := Script.demo)
      (Script.create_args (Some 2) None true)
      [Ok Script.template_resource; Ok (PStr "img-1");
       Ok (PDict [("clusters", PList [PStr "id1"; PStr "id2"])]);
       Ok (Script.cluster_record "id1" "c-1");
       Ok (Script.cluster_record "id2" "c-2");
       Ok (PBool false)] in
  outcome run = Raise (KeyError "id") /\ filter is_log (trace run) = [].
Proof.
cbv zeta.
eapply failed_wait_in_batch_raises_KeyError
  with (data := PDict [("clusters", PList [PStr "id1"; PStr "id2"])]);
  try reflexivity.
exists (Called (wait_for_status (PStr "id1")) (Ok (PBool false))). split.
- cbn. repeat (first [left; reflexivity | right]).
- exists (PStr "id1"), (PBool false). split; reflexivity.
Defined.

(** ** Failed waits *)

Section FailedWaits.
Context {World : Type} {C : Collaborators World}.

(** [DeleteCluster]: a wait that comes back false is logged and the loop
    goes on. *)
Lemma delete_wait_failure_is_logged id v (w w1 : World) :
  perform (wait_for_delete id) w = (Ok v, w1) ->
  Py.truthy v = false ->
  DeleteCluster.wait_one id w =
  (Ok tt, w1,
   [Called (wait_for_delete id) (Ok v);
    LogError DeleteCluster.deleting_error id]).
Proof.
intros E T. unfold DeleteCluster.wait_one, bind, do_call, log_error.
rewrite E, T. reflexivity.
Qed.

(** [ScaleCluster], and [CreateCluster] for one cluster: the argument of
    the log call has a value ([cluster.id]; [data['id']], read a first time
    for the wait itself), the failure is logged and the handler goes on. *)
Lemma status_wait_failure_is_logged id fmt x v (w w1 : World) :
  perform (wait_for_status id) w = (Ok v, w1) ->
  Py.truthy v = false ->
  wait_or_log id fmt (Ok x) w =
  (Ok tt, w1, [Called (wait_for_status id) (Ok v); LogError fmt x]).
Proof.
intros E T. unfold wait_or_log, bind, do_call, log_error, lift.
rewrite E, T. reflexivity.
Qed.

End FailedWaits.

(** C2 fails in the batch branch of [CreateCluster], at this input:
    [--json batch.json --wait], the file asking for two clusters, the
    second of which does not reach its status.  The wait for the first
    cluster succeeds; the failed wait for the second is not logged: the
    handler raises KeyError on [data['id']]. *)
Theorem batch_wait_failure_is_escalated :
  CreateCluster.take_action
    (C := Script.demo)
    (Script.create_args None (Some "batch.json") true)
    [Ok (PDict [("clusters", PList [PStr "id1"; PStr "id2"])]);
     Ok (Script.cluster_record "id1" "from-json-1");
     Ok (Script.cluster_record "id2" "from-json-2");
     Ok (PBool true);
     Ok (PBool false)]
  = (Raise (KeyError "id"), [],
     [Called (read_blob_file_contents "batch.json") (Ok (PStr "BATCH"));
      Called (clusters_create [("name", PStr "from-json"); ("count", PInt 2)])
             (Ok (PDict [("clusters", PList [PStr "id1"; PStr "id2"])]));
      Called (get_resource clusters (PStr "id1"))
             (Ok (Script.cluster_record "id1" "from-json-1"));
      Called (get_resource clusters (PStr "id2"))
             (Ok (Script.cluster_record "id2" "from-json-2"));
      Called (wait_for_status (PStr "id1")) (Ok (PBool true));
      Called (wait_for_status (PStr "id2")) (Ok (PBool false))]).
Proof. reflexivity. Qed.

(** ** The flags of [UpdateCluster] *)

Lemma parse_exclusive seen fs a0 a :
  UpdateCluster.parse_flags seen fs a0 = Some a ->
  forall f g, UpdateCluster.conflict f = Some g ->
              given f fs = true ->
              given g seen = false /\ given g fs = false.
Proof.
revert seen a0. induction fs as [|x r IH]; intros seen a0 Hp f g Hc Hf.
- discriminate.
- cbn [UpdateCluster.parse_flags] in Hp.
  assert (UpdateCluster.parse_flags (x :: seen) r (UpdateCluster.store x a0)
          = Some a /\
          forall g', UpdateCluster.conflict x = Some g' ->
                     given g' seen = false) as [Hr Hx].
  { destruct (UpdateCluster.conflict x) as [g'|] eqn:Cx.
    - unfold given.
      destruct (existsb (UpdateCluster.flag_eqb g') seen) eqn:S;
        [discriminate|].
      split; [exact Hp|]. intros g'' E. now inversion E; subst.
    - split; [exact Hp | discriminate]. }
  unfold given in *. cbn [existsb] in *.
  apply orb_true_iff in Hf. destruct Hf as [Hf|Hf].
  + (* [f] is [x] *)
    assert (UpdateCluster.conflict x = Some g) as Cx
        by (destruct f, x; try discriminate; exact Hc).
    split; [now apply Hx|].
    apply orb_false_iff. split.
    * destruct g, x; try reflexivity; discriminate.
    * destruct (existsb (UpdateCluster.flag_eqb g) r) eqn:G; [|reflexivity].
      assert (UpdateCluster.conflict g = Some x) as Cg
          by (destruct x, g; try discriminate; reflexivity).
      destruct (IH _ _ Hr g x Cg G) as [S _]. cbn in S.
      destruct x; discriminate.
  + destruct (IH _ _ Hr f g Hc Hf) as [S G]. cbn [existsb] in S.
    apply orb_false_iff in S. destruct S as [S1 S2].
    split; [exact S2|]. apply orb_false_iff. now split.
Qed.

Lemma parse_name seen fs a0 a :
  UpdateCluster.parse_flags seen fs a0 = Some a ->
  UpdateCluster.cluster a = UpdateCluster.cluster a0 /\
  UpdateCluster.name a = last_name fs (UpdateCluster.name a0) /\
  UpdateCluster.description a
  = last_description fs (UpdateCluster.description a0).
Proof.
revert seen a0. induction fs as [|x r IH]; intros seen a0 Hp.
- inversion Hp. now subst.
- cbn [UpdateCluster.parse_flags] in Hp.
  assert (UpdateCluster.parse_flags (x :: seen) r (UpdateCluster.store x a0)
          = Some a) as Hr.
  { destruct (UpdateCluster.conflict x);
      [destruct (existsb _ seen); [discriminate|]|]; exact Hp. }
  destruct (IH _ _ Hr) as (Hc & Hn & Hd).
  rewrite Hc, Hn, Hd. destruct x; repeat split; reflexivity.
Qed.

Lemma parse_step seen x r a0 a :
  UpdateCluster.parse_flags seen (x :: r) a0 = Some a ->
  UpdateCluster.parse_flags (x :: seen) r (UpdateCluster.store x a0) = Some a.
Proof.
cbn [UpdateCluster.parse_flags].
destruct (UpdateCluster.conflict x);
  [destruct (existsb _ seen); [discriminate|]|]; auto.
Qed.

Lemma parse_switches seen fs a0 a :
  UpdateCluster.parse_flags seen fs a0 = Some a ->
  UpdateCluster.is_public a
  = switch (given UpdateCluster.f_public fs) (given UpdateCluster.f_private fs)
           (UpdateCluster.is_public a0) /\
  UpdateCluster.is_protected a
  = switch (given UpdateCluster.f_protected fs)
           (given UpdateCluster.f_unprotected fs)
           (UpdateCluster.is_protected a0).
Proof.
revert seen a0. induction fs as [|x r IH]; intros seen a0 Hp.
- inversion Hp. now subst.
- pose proof (parse_step _ _ _ _ _ Hp) as Hr.
  destruct (IH _ _ Hr) as [Hpub Hpro]. rewrite Hpub, Hpro.
  pose proof (fun f g Hc Hf => proj1 (parse_exclusive _ _ _ _ Hr f g Hc Hf))
    as Hex.
  unfold given in *. unfold switch.
  destruct x; cbn [existsb UpdateCluster.flag_eqb UpdateCluster.store
                   UpdateCluster.is_public UpdateCluster.is_protected orb];
    split; try reflexivity.
  + (* --public *)
    destruct (existsb (UpdateCluster.flag_eqb UpdateCluster.f_public) r);
      [reflexivity|].
    destruct (existsb (UpdateCluster.flag_eqb UpdateCluster.f_private) r) eqn:G;
      [|reflexivity].
    now specialize (Hex UpdateCluster.f_private UpdateCluster.f_public
                        eq_refl G).
  + (* --private *)
    destruct (existsb (UpdateCluster.flag_eqb UpdateCluster.f_public) r);
      [reflexivity|].
    destruct (existsb (UpdateCluster.flag_eqb UpdateCluster.f_private) r);
      reflexivity.
  + (* --protected *)
    destruct (existsb (UpdateCluster.flag_eqb UpdateCluster.f_protected) r);
      [reflexivity|].
    destruct (existsb (UpdateCluster.flag_eqb UpdateCluster.f_unprotected) r)
             eqn:G; [|reflexivity].
    now specialize (Hex UpdateCluster.f_unprotected UpdateCluster.f_protected
                        eq_refl G).
  + (* --unprotected *)
    destruct (existsb (UpdateCluster.flag_eqb UpdateCluster.f_protected) r);
      [reflexivity|].
    destruct (existsb (UpdateCluster.flag_eqb UpdateCluster.f_unprotected) r);
      reflexivity.
Qed.

Lemma last_name_absent fs d :
  given (UpdateCluster.f_name "") fs = false -> last_name fs d = d.
Proof.
unfold given, last_name. revert d.
induction fs as [|x r IH]; intros d Hg; [reflexivity|].
cbn in *. apply orb_false_iff in Hg. destruct Hg as [Hx Hr].
destruct x; try discriminate; now apply IH.
Qed.

Lemma last_description_absent fs d :
  given (UpdateCluster.f_description "") fs = false ->
  last_description fs d = d.
Proof.
unfold given, last_description. revert d.
induction fs as [|x r IH]; intros d Hg; [reflexivity|].
cbn in *. apply orb_false_iff in Hg. destruct Hg as [Hx Hr].
destruct x; try discriminate; now apply IH.
Qed.

Section UpdateFields.
Context {World : Type} {C : Collaborators World}.

Lemma update_trace a (w : World) :
  let lookup := perform (get_resource_id clusters
                           (PStr (UpdateCluster.cluster a))) w in
  trace (UpdateCluster.take_action a w) =
  Called (get_resource_id clusters (PStr (UpdateCluster.cluster a)))
         (fst lookup)
  :: match fst lookup with
     | Ok id =>
         [Called (clusters_update id (UpdateCluster.update_kwargs a))
                 (fst (perform (clusters_update id
                                  (UpdateCluster.update_kwargs a))
                               (snd lookup)))]
     | Raise _ => []
     end.
Proof.
cbv zeta. unfold UpdateCluster.take_action, bind, do_call, lift.
destruct (perform (get_resource_id clusters _) w) as [[id|e] w1];
  [|reflexivity].
cbn [fst snd].
destruct (perform (clusters_update id _) w1) as [[r|e] w2]; [|reflexivity].
destruct (Py.getattr r "cluster") as [data|e]; [|reflexivity].
destruct (show_cluster data); reflexivity.
Qed.

(** C10.  For a command line the parser accepts: (1) every update call
    the handler makes has the four keyword arguments [name],
    [description], [is_public], [is_protected], in this order, with the
    values of the namespace; (2) the call is made as soon as the cluster is
    resolved; (3) [name] and [description] are the value of the last
    occurrence of their flag and [None] without one; (4) [is_public] is
    [True] with [--public], [False] with [--private], [None] with
    neither, and likewise [is_protected]; (5) the parser accepts neither
    [--public] with [--private] nor [--protected] with
    [--unprotected]. *)
Theorem update_passes_all_four_fields c fs a (w : World) :
  UpdateCluster.get_parser c fs = Some a ->
  (forall id kw r,
      In (Called (clusters_update id kw) r)
         (trace (UpdateCluster.take_action a w)) ->
      kw = [("name", Py.of_opt (UpdateCluster.name a));
            ("description", Py.of_opt (UpdateCluster.description a));
            ("is_public", UpdateCluster.of_optb (UpdateCluster.is_public a));
            ("is_protected",
             UpdateCluster.of_optb (UpdateCluster.is_protected a))]) /\
  (forall id w1,
      perform (get_resource_id clusters (PStr c)) w = (Ok id, w1) ->
      exists r, In (Called (clusters_update id (UpdateCluster.update_kwargs a)) r)
                   (trace (UpdateCluster.take_action a w))) /\
  UpdateCluster.name a = last_name fs None /\
  UpdateCluster.description a = last_description fs None /\
  (given (UpdateCluster.f_name "") fs = false ->
   Py.of_opt (UpdateCluster.name a) = PNone) /\
  (given (UpdateCluster.f_description "") fs = false ->
   Py.of_opt (UpdateCluster.description a) = PNone) /\
  UpdateCluster.is_public a
  = switch (given UpdateCluster.f_public fs) (given UpdateCluster.f_private fs)
           None /\
  UpdateCluster.is_protected a
  = switch (given UpdateCluster.f_protected fs)
           (given UpdateCluster.f_unprotected fs) None /\
  given UpdateCluster.f_public fs && given UpdateCluster.f_private fs = false /\
  given UpdateCluster.f_protected fs && given UpdateCluster.f_unprotected fs
  = false.
Proof.
intros Hp. unfold UpdateCluster.get_parser in Hp.
destruct (parse_name _ _ _ _ Hp) as (Hc & Hn & Hd).
destruct (parse_switches _ _ _ _ Hp) as (Hpub & Hpro).
cbn in Hc, Hn, Hd, Hpub, Hpro.
repeat apply conj.
- intros id kw r Hin. rewrite update_trace in Hin. cbv zeta in Hin.
  destruct Hin as [Hin|Hin]; [discriminate|].
  destruct (fst (perform (get_resource_id clusters _) w)); [|contradiction].
  destruct Hin as [Hin|[]]. now inversion Hin.
- intros id w1 E. rewrite update_trace. cbv zeta. rewrite Hc, E. cbn [fst snd].
  eexists. right. left. reflexivity.
- exact Hn.
- exact Hd.
- intros G. now rewrite Hn, last_name_absent.
- intros G. now rewrite Hd, last_description_absent.
- exact Hpub.
- exact Hpro.
- destruct (given UpdateCluster.f_public fs) eqn:G; [|reflexivity].
  exact (proj2 (parse_exclusive _ _ _ _ Hp UpdateCluster.f_public
                                UpdateCluster.f_private eq_refl G)).
- destruct (given UpdateCluster.f_protected fs) eqn:G; [|reflexivity].
  exact (proj2 (parse_exclusive _ _ _ _ Hp UpdateCluster.f_protected
                                UpdateCluster.f_unprotected eq_refl G)).
Qed.

End UpdateFields.

Lemma update_passes_all_four_fields_witness :
  exists r,
    In (Called (clusters_update
                  (PStr "c-1")
                  [("name", PNone); ("description", PStr "new");
                   ("is_public", PBool false); ("is_protected", PNone)]) r)
       (trace (UpdateCluster.take_action
                 (C := Script.demo)
                 {| UpdateCluster.cluster := "c";
                    UpdateCluster.name := None;
                    UpdateCluster.description := Some "new";
                    UpdateCluster.is_public := Some false;
                    UpdateCluster.is_protected := None |}
                 [Ok (PStr "c-1");
                  Ok (PDict [("cluster", Script.cluster_record "c-1" "c")])])).
Proof.
destruct (update_passes_all_four_fields
            (C := Script.demo) "c"
            [UpdateCluster.f_description "old"; UpdateCluster.f_private;
             UpdateCluster.f_description "new"]
            _
            [Ok (PStr "c-1");
             Ok (PDict [("cluster", Script.cluster_record "c-1" "c")])]
            eq_refl) as (_ & H & _).
exact (H (PStr "c-1") _ eq_refl).
Defined.

(** ** Lookups before the acting call *)

Section CreateWithFlags.
Context {World : Type} {C : Collaborators World}.

(** Without [--json]: either the branch stops before the create call, or
    the template and the image have been resolved and the create call is
    made with what the lookups returned. *)
Lemma create_with_flags a (w : World) :
  Py.truthy_opt (CreateCluster.json a) = false ->
  let run := CreateCluster.create a w in
  (filter is_create (trace run) = [] /\ exists e, outcome run = Raise e)
  \/
  exists ct img p v i net calls r,
    Py.getattr ct "plugin_name" = Ok p /\
    Py.getattr ct "hadoop_version" = Ok v /\
    Py.getattr ct "id" = Ok i /\
    filter is_create calls = [] /\
    trace run =
    (Called (get_resource cluster_templates
                          (Py.of_opt (CreateCluster.cluster_template a)))
            (Ok ct)
       :: Called (get_resource_id images (Py.of_opt (CreateCluster.image a)))
                 (Ok img)
       :: calls
       ++ [Called (clusters_create (CreateCluster.create_kwargs a p v i img net))
                  r])%list.
Proof.
intros Hj. cbv zeta. unfold CreateCluster.create. rewrite Hj.
destruct (negb (Py.truthy_opt (CreateCluster.name a))
          || negb (Py.truthy_opt (CreateCluster.cluster_template a))
          || negb (Py.truthy_opt (CreateCluster.image a))).
{ left. split; [reflexivity | eexists; reflexivity]. }
unfold _get_plugin_version, bind, do_call, lift, ret.
destruct (perform (get_resource cluster_templates _) w) as [[ct|e] w1];
  [|left; split; [reflexivity | eexists; reflexivity]].
destruct (Py.getattr ct "plugin_name") as [p|e] eqn:Hp;
  [|left; split; [reflexivity | eexists; reflexivity]].
destruct (Py.getattr ct "hadoop_version") as [v|e] eqn:Hv;
  [|left; split; [reflexivity | eexists; reflexivity]].
destruct (Py.getattr ct "id") as [i|e] eqn:Hi;
  [|left; split; [reflexivity | eexists; reflexivity]].
cbn [fst snd app].
destruct (perform (get_resource_id images _) w1) as [[img|e] w2];
  [|left; split; [reflexivity | eexists; reflexivity]].
destruct (Py.truthy_opt (CreateCluster.neutron_network a)).
- destruct (perform (find_attr "networks" _) w2) as [[n|e] w3];
    [|left; split; [reflexivity | eexists; reflexivity]].
  destruct (Py.subscript n "id") as [net|e];
    [|left; split; [reflexivity | eexists; reflexivity]].
  right.
  exists ct, img, p, v, i, net,
    [Called (find_attr "networks" (Py.of_opt (CreateCluster.neutron_network a)))
            (Ok n)].
  destruct (perform (clusters_create _) w3) as [[r|e] w4].
  + exists (Ok r). repeat split; try assumption.
    destruct (Py.to_dict r); reflexivity.
  + exists (Raise e). repeat split; assumption.
- right. exists ct, img, p, v, i, PNone, [].
  destruct (perform (clusters_create _) w2) as [[r|e] w3].
  + exists (Ok r). repeat split; try assumption.
    destruct (Py.to_dict r); reflexivity.
  + exists (Raise e). repeat split; assumption.
Qed.

End CreateWithFlags.

Section DeleteLoop.
Context {World : Type} {C : Collaborators World}.

Lemma delete_one_run c (w : World) :
  DeleteCluster.delete_one c w =
  let l := perform (get_resource_id clusters (PStr c)) w in
  match fst l with
  | Ok id =>
      let d := perform (clusters_delete id) (snd l) in
      (match fst d with Ok _ => Ok id | Raise e => Raise e end, snd d,
       [Called (get_resource_id clusters (PStr c)) (Ok id);
        Called (clusters_delete id) (fst d)])
  | Raise e =>
      (Raise e, snd l, [Called (get_resource_id clusters (PStr c)) (Raise e)])
  end.
Proof.
unfold DeleteCluster.delete_one, bind, do_call, ret. cbv zeta.
destruct (perform (get_resource_id clusters (PStr c)) w) as [[id|e] w1];
  [|reflexivity].
cbn [fst snd].
destruct (perform (clusters_delete id) w1) as [[r|e] w2]; reflexivity.
Qed.

Lemma mapM_cons {A B} (f : A -> M World B) x r :
  mapM f (x :: r) = (y <- f x ;; ys <- mapM f r ;; ret (y :: ys)).
Proof. reflexivity. Qed.

Lemma deletes_complete cs (w w' : World) ids t :
  mapM DeleteCluster.delete_one cs w = (Ok ids, w', t) ->
  resolved_then_deleted cs t /\ length ids = length cs.
Proof.
revert w ids t. induction cs as [|c cs IH]; intros w ids t E.
- inversion E. split; [constructor | reflexivity].
- rewrite mapM_cons in E.
  apply bind_inv in E. destruct E as (id & w1 & t1 & t2 & E1 & E2 & ->).
  apply bind_inv in E2. destruct E2 as (ys & w2 & t3 & t4 & E3 & E4 & ->).
  inversion E4; subst. clear E4.
  destruct (IH _ _ _ E3) as [Hr Hl].
  rewrite delete_one_run in E1. cbv zeta in E1.
  destruct (fst (perform (get_resource_id clusters (PStr c)) w)) as [id'|e];
    [|discriminate].
  destruct (fst (perform (clusters_delete id') _)) as [r|e] eqn:D;
    inversion E1; subst.
  split; [|cbn; now rewrite Hl].
  rewrite app_nil_r. cbn. now constructor.
Qed.

Lemma adjacent_app_r e1 e2 t t' : adjacent e1 e2 t -> adjacent e1 e2 (t ++ t').
Proof.
intros (pre & post & ->). exists pre, (post ++ t')%list.
now rewrite <- app_assoc.
Qed.

Lemma adjacent_app_l e1 e2 t t' : adjacent e1 e2 t -> adjacent e1 e2 (t' ++ t).
Proof.
intros (pre & post & ->). exists (t' ++ pre)%list, post.
now rewrite <- app_assoc.
Qed.

Lemma deletes_adjacent cs (w : World) id r :
  In (Called (clusters_delete id) r)
     (trace (mapM DeleteCluster.delete_one cs w)) ->
  exists c,
    In c cs /\
    adjacent (Called (get_resource_id clusters (PStr c)) (Ok id))
             (Called (clusters_delete id) r)
             (trace (mapM DeleteCluster.delete_one cs w)).
Proof.
revert w. induction cs as [|c cs IH]; intros w Hin; [destruct Hin|].
rewrite mapM_cons in *. rewrite trace_bind in *.
apply in_app_or in Hin. destruct Hin as [Hin|Hin].
- exists c. split; [now left|]. apply adjacent_app_r.
  rewrite delete_one_run in *. cbv zeta in *.
  destruct (fst (perform (get_resource_id clusters (PStr c)) w)) as [id'|e];
    cbn [trace snd] in *.
  + destruct Hin as [Hin|[Hin|[]]]; [discriminate|].
    inversion Hin; subst. now exists [], [].
  + destruct Hin as [Hin|[]]. discriminate.
- destruct (outcome (DeleteCluster.delete_one c w)) as [y|e]; [|destruct Hin].
  rewrite trace_bind in *. apply in_app_or in Hin. destruct Hin as [Hin|Hin].
  + destruct (IH _ Hin) as (c' & Hc & Ha).
    exists c'. split; [now right|].
    apply adjacent_app_l, adjacent_app_r. exact Ha.
  + destruct (outcome (mapM _ cs _)); destruct Hin.
Qed.



Lemma waits_never_delete ids :
  always (World := World)
         (fun e => is_delete e = false /\ (is_wait e = true \/ is_log e = true))
         (for_each DeleteCluster.wait_one ids).
Proof.
unfold DeleteCluster.wait_one. always_tac; split; auto.
Qed.

End DeleteLoop.

(** ** Counting the calls of a kind *)

Section Counting.
Context {World : Type} {C : Collaborators World}.

Lemma never_count {A} p (m : M World A) w :
  never p m -> count p (trace (m w)) = 0%nat.
Proof. intros Hn. unfold count. now rewrite (filter_none _ _ (Hn w)). Qed.







End Counting.

(** A handler that makes no call of a kind. *)
Ltac never_tac := unfold never; always_tac; try reflexivity.


Section ActingCalls.
Context {World : Type} {C : Collaborators World}.









End ActingCalls.

Section OneActingCall.
Context {World : Type} {C : Collaborators World}.



Lemma delete_trace a (w : World) :
  exists waits,
    trace (DeleteCluster.take_action a w) =
    (trace (mapM DeleteCluster.delete_one (DeleteCluster.cluster a) w)
       ++ waits)%list /\
    Forall (fun e => is_delete e = false /\
                     (is_wait e = true \/ is_log e = true)) waits.
Proof.
unfold DeleteCluster.take_action. rewrite trace_bind.
eexists. split; [reflexivity|].
destruct (outcome (mapM _ _ w)) as [cs|e]; [|constructor].
rewrite trace_bind. apply Forall_app. split.
- destruct (DeleteCluster.wait a).
  + apply waits_never_delete.
  + constructor.
- destruct (outcome _); constructor.
Qed.



End OneActingCall.



Section LookupsFirst.
Context {World : Type} {C : Collaborators World}.

(** The id of every scale call is the [id] attribute of the cluster the
    handler works on. *)
Lemma scale_uses_cluster_id a cluster :
  always (World := World)
         (fun e => forall id obj r,
              e = Called (clusters_scale id obj) r ->
              Py.getattr cluster "id" = Ok id)
         (data <- ScaleCluster.scale a cluster ;;
          data <-
            (if ScaleCluster.wait a then
               id <- lift (Py.subscript data "id") ;;
               wait_or_log id ScaleCluster.scaling_error
                           (Py.getattr cluster "id") ;;;
               id <- lift (Py.getattr cluster "id") ;;
               r <- do_call (clusters_get id) ;;
               lift (Py.to_dict r)
             else ret data) ;;
          lift (show_cluster data)).
Proof.
unfold ScaleCluster.scale, ScaleCluster.place, wait_or_log.
always_tac; intros; try discriminate;
  match goal with
  | H : Called _ _ = Called _ _ |- _ => inversion H; subst; assumption
  end.
Qed.

Lemma scale_resolves_first a (w : World) id obj r :
  In (Called (clusters_scale id obj) r) (trace (ScaleCluster.take_action a w)) ->
  exists cluster rest,
    trace (ScaleCluster.take_action a w) =
    Called (get_resource clusters (PStr (ScaleCluster.cluster a))) (Ok cluster)
           :: rest /\
    Py.getattr cluster "id" = Ok id.
Proof.
unfold ScaleCluster.take_action. rewrite trace_bind, do_call_run.
cbn [trace outcome final fst snd app].
destruct (perform (get_resource clusters _) w) as [[cluster|e] w1];
  cbn [fst snd]; intros [Hin|Hin]; try discriminate; try contradiction.
exists cluster. eexists. split; [reflexivity|].
exact (always_in _ _ _ _ (scale_uses_cluster_id a cluster) Hin id obj r eq_refl).
Qed.

Lemma update_resolves_first a (w : World) id kw r :
  In (Called (clusters_update id kw) r) (trace (UpdateCluster.take_action a w)) ->
  exists rest,
    trace (UpdateCluster.take_action a w) =
    Called (get_resource_id clusters (PStr (UpdateCluster.cluster a))) (Ok id)
           :: rest.
Proof.
rewrite update_trace. cbv zeta.
destruct (fst (perform (get_resource_id clusters _) w)) as [id'|e];
  intros [Hin|Hin]; try discriminate; try contradiction.
destruct Hin as [Hin|[]]. inversion Hin; subst. eexists. reflexivity.
Qed.

Lemma create_resolves_first a (w : World) kw r :
  Py.truthy_opt (CreateCluster.json a) = false ->
  In (Called (clusters_create kw) r) (trace (CreateCluster.take_action a w)) ->
  exists ct img p v i net calls rest,
    trace (CreateCluster.take_action a w) =
    (Called (get_resource cluster_templates
                          (Py.of_opt (CreateCluster.cluster_template a)))
            (Ok ct)
       :: Called (get_resource_id images (Py.of_opt (CreateCluster.image a)))
                 (Ok img)
       :: calls ++ Called (clusters_create kw) r :: rest)%list /\
    Py.getattr ct "plugin_name" = Ok p /\
    Py.getattr ct "hadoop_version" = Ok v /\
    Py.getattr ct "id" = Ok i /\
    kw = CreateCluster.create_kwargs a p v i img net /\
    Py.dict_get "plugin_name" kw = Some p /\
    Py.dict_get "hadoop_version" kw = Some v /\
    Py.dict_get "cluster_template_id" kw = Some i /\
    Py.dict_get "default_image_id" kw = Some img.
Proof.
intros Hj Hin.
assert (In (Called (clusters_create kw) r)
           (filter is_create (trace (CreateCluster.create a w)))) as Hc.
{ rewrite <- create_calls_of_take_action.
  apply (proj2 (filter_In _ _ _)). now split. }
unfold CreateCluster.take_action. rewrite trace_bind.
destruct (create_with_flags a w Hj)
  as [[Hn _] | (ct & img & p & v & i & net & calls & r' & Hp & Hv & Hi & Hcalls & Ht)];
  cbv zeta in *.
- rewrite Hn in Hc. destruct Hc.
- rewrite Ht in Hc |- *. cbn [filter is_create] in Hc.
  rewrite filter_app, Hcalls in Hc. cbn in Hc.
  destruct Hc as [Hc|[]]. inversion Hc; subst.
  exists ct, img, p, v, i, net, calls. eexists.
  split; [|now repeat split].
  cbn [app]. rewrite <- app_assoc. reflexivity.
Qed.

End LookupsFirst.

Section NamesToIds.
Context {World : Type} {C : Collaborators World}.

Lemma delete_resolves_first a (w : World) id r :
  In (Called (clusters_delete id) r) (trace (DeleteCluster.take_action a w)) ->
  exists c,
    In c (DeleteCluster.cluster a) /\
    adjacent (Called (get_resource_id clusters (PStr c)) (Ok id))
             (Called (clusters_delete id) r)
             (trace (DeleteCluster.take_action a w)).
Proof.
destruct (delete_trace a w) as (waits & -> & Hw). intros Hin.
apply in_app_or in Hin. destruct Hin as [Hin|Hin].
- destruct (deletes_adjacent _ _ _ _ Hin) as (c & Hc & Ha).
  exists c. split; [exact Hc|]. now apply adjacent_app_r.
- apply (proj1 (Forall_forall _ _) Hw) in Hin. destruct Hin. discriminate.
Qed.

Lemma delete_resolves_all a (w : World) v :
  outcome (DeleteCluster.take_action a w) = Ok v ->
  exists t waits,
    trace (DeleteCluster.take_action a w) = (t ++ waits)%list /\
    resolved_then_deleted (DeleteCluster.cluster a) t /\
    Forall (fun e => is_wait e = true \/ is_log e = true) waits.
Proof.
intros Hv. destruct (delete_trace a w) as (waits & Ht & Hw).
unfold DeleteCluster.take_action in Hv. rewrite outcome_bind in Hv.
destruct (mapM DeleteCluster.delete_one (DeleteCluster.cluster a) w)
  as [[[ids|e] w1] t] eqn:E; [|discriminate].
exists t, waits. split; [exact Ht|]. split.
- exact (proj1 (deletes_complete _ _ _ _ _ E)).
- eapply Forall_impl; [|exact Hw]. now intros ? [].
Qed.

(** C6.  [DeleteCluster]: every delete call comes right after the
    [get_resource_id] lookup of one of the arguments and has the id that
    lookup returned; in a run that returns, the calls are, for each
    argument in order, its lookup and then its delete, followed by the
    waits.  [CreateCluster] without [--json]: a create call comes after the
    lookups of the cluster template and of the image, and is given the
    template's [plugin_name], [hadoop_version] and [id] and the image id,
    as its keyword arguments [plugin_name], [hadoop_version],
    [cluster_template_id] and [default_image_id].
    [UpdateCluster], [ScaleCluster]: an update or scale call comes after
    the lookup of the cluster argument, which opens the run, and has the
    id the lookup gave. *)
Theorem names_are_resolved_before_acting :
  (forall a (w : World) id r,
      In (Called (clusters_delete id) r)
         (trace (DeleteCluster.take_action a w)) ->
      exists c,
        In c (DeleteCluster.cluster a) /\
        adjacent (Called (get_resource_id clusters (PStr c)) (Ok id))
                 (Called (clusters_delete id) r)
                 (trace (DeleteCluster.take_action a w))) /\
  (forall a (w : World) v,
      outcome (DeleteCluster.take_action a w) = Ok v ->
      exists t waits,
        trace (DeleteCluster.take_action a w) = (t ++ waits)%list /\
        resolved_then_deleted (DeleteCluster.cluster a) t /\
        Forall (fun e => is_wait e = true \/ is_log e = true) waits) /\
  (forall a (w : World) kw r,
      Py.truthy_opt (CreateCluster.json a) = false ->
      In (Called (clusters_create kw) r)
         (trace (CreateCluster.take_action a w)) ->
      exists ct img p v i net calls rest,
        trace (CreateCluster.take_action a w) =
        (Called (get_resource cluster_templates
                              (Py.of_opt (CreateCluster.cluster_template a)))
                (Ok ct)
           :: Called (get_resource_id images
                                      (Py.of_opt (CreateCluster.image a)))
                     (Ok img)
           :: calls ++ Called (clusters_create kw) r :: rest)%list /\
        Py.getattr ct "plugin_name" = Ok p /\
        Py.getattr ct "hadoop_version" = Ok v /\
        Py.getattr ct "id" = Ok i /\
        kw = CreateCluster.create_kwargs a p v i img net /\
        Py.dict_get "plugin_name" kw = Some p /\
        Py.dict_get "hadoop_version" kw = Some v /\
        Py.dict_get "cluster_template_id" kw = Some i /\
        Py.dict_get "default_image_id" kw = Some img) /\
  (forall a (w : World) id kw r,
      In (Called (clusters_update id kw) r)
         (trace (UpdateCluster.take_action a w)) ->
      exists rest,
        trace (UpdateCluster.take_action a w) =
        Called (get_resource_id clusters (PStr (UpdateCluster.cluster a)))
               (Ok id) :: rest) /\
  (forall a (w : World) id obj r,
      In (Called (clusters_scale id obj) r)
         (trace (ScaleCluster.take_action a w)) ->
      exists cluster rest,
        trace (ScaleCluster.take_action a w) =
        Called (get_resource clusters (PStr (ScaleCluster.cluster a)))
               (Ok cluster) :: rest /\
        Py.getattr cluster "id" = Ok id).
Proof.
repeat apply conj.
- exact delete_resolves_first.
- exact delete_resolves_all.
- exact create_resolves_first.
- exact update_resolves_first.
- exact scale_resolves_first.
Qed.

End NamesToIds.

Lemma names_are_resolved_witness :
  (exists t waits,
      trace (DeleteCluster.take_action
               (C := Script.demo)
               {| DeleteCluster.cluster := ["a"; "b"];
                  DeleteCluster.wait := true |}
               [Ok (PStr "id-a"); Ok PNone; Ok (PStr "id-b"); Ok PNone;
                Ok (PBool true); Ok (PBool false)])
      = (t ++ waits)%list /\
      resolved_then_deleted ["a"; "b"] t /\
      Forall (fun e => is_wait e = true \/ is_log e = true) waits) /\
  (exists kw r calls rest,
      trace (CreateCluster.take_action
               (C := Script.demo)
               (Script.create_args None None false)
               [Ok Script.template_resource; Ok (PStr "img-1");
                Ok (Script.cluster_record "c-1" "c")])
      = (Called (get_resource cluster_templates (PStr "tmpl"))
                (Ok Script.template_resource)
           :: Called (get_resource_id images (PStr "img")) (Ok (PStr "img-1"))
           :: calls ++ Called (clusters_create kw) r :: rest)%list /\
      Py.dict_get "plugin_name" kw = Some (PStr "vanilla") /\
      Py.dict_get "hadoop_version" kw = Some (PStr "2.7.1") /\
      Py.dict_get "cluster_template_id" kw = Some (PStr "t-1") /\
      Py.dict_get "default_image_id" kw = Some (PStr "img-1")) /\
  (exists rest,
      trace (UpdateCluster.take_action
               (C := Script.demo)
               {| UpdateCluster.cluster := "c";
                  UpdateCluster.name := Some "d";
                  UpdateCluster.description := None;
                  UpdateCluster.is_public := None;
                  UpdateCluster.is_protected := None |}
               [Ok (PStr "c-1");
                Ok (PDict [("cluster", Script.cluster_record "c-1" "d")])])
      = Called (get_resource_id clusters (PStr "c")) (Ok (PStr "c-1")) :: rest) /\
  (exists cluster rest,
      trace (ScaleCluster.take_action
               (C := Script.demo)
               {| ScaleCluster.cluster := "c";
                  ScaleCluster.node_groups := Some ["worker:5"];
                  ScaleCluster.json := None;
                  ScaleCluster.wait := false |}
               [Ok (Script.cluster_record "c-1" "c");
                Ok (PDict [("name", PStr "worker"); ("id", PStr "ng-2")]);
                Ok (PDict [("cluster", Script.cluster_record "c-1" "c")])])
      = Called (get_resource clusters (PStr "c")) (Ok cluster) :: rest /\
      Py.getattr cluster "id" = Ok (PStr "c-1")).
Proof.
destruct (@names_are_resolved_before_acting Script.world Script.demo)
  as (_ & Hd & Hc & Hu & Hs).
split; [|split; [|split]].
- apply (Hd {| DeleteCluster.cluster := ["a"; "b"];
               DeleteCluster.wait := true |} _ PNone).
  reflexivity.
- destruct (Hc (Script.create_args None None false)
               [Ok Script.template_resource; Ok (PStr "img-1");
                Ok (Script.cluster_record "c-1" "c")]
               (CreateCluster.create_kwargs
                  (Script.create_args None None false)
                  (PStr "vanilla") (PStr "2.7.1") (PStr "t-1") (PStr "img-1")
                  PNone)
               (Ok (Script.cluster_record "c-1" "c"))
               eq_refl)
    as (ct & img & p & v & i & net & calls & rest
        & Ht & Hp & Hv & Hi & _ & Kp & Kv & Ki & Kimg).
  { cbn. do 2 right. left. reflexivity. }
  assert (ct = Script.template_resource /\ img = PStr "img-1") as [-> ->].
  { cbn in Ht. injection Ht as Hct Himg _. now subst. }
  cbn in Hp, Hv, Hi. injection Hp as <-. injection Hv as <-. injection Hi as <-.
  eexists. exists (Ok (Script.cluster_record "c-1" "c")), calls, rest.
  split; [exact Ht|]. repeat split; assumption.
- apply (Hu {| UpdateCluster.cluster := "c";
               UpdateCluster.name := Some "d";
               UpdateCluster.description := None;
               UpdateCluster.is_public := None;
               UpdateCluster.is_protected := None |}
            [Ok (PStr "c-1");
             Ok (PDict [("cluster", Script.cluster_record "c-1" "d")])]
            (PStr "c-1")
            (UpdateCluster.update_kwargs
               {| UpdateCluster.cluster := "c";
                  UpdateCluster.name := Some "d";
                  UpdateCluster.description := None;
                  UpdateCluster.is_public := None;
                  UpdateCluster.is_protected := None |})
            (Ok (PDict [("cluster", Script.cluster_record "c-1" "d")]))).
  cbn. right. left. reflexivity.
- apply (Hs {| ScaleCluster.cluster := "c";
               ScaleCluster.node_groups := Some ["worker:5"];
               ScaleCluster.json := None;
               ScaleCluster.wait := false |}
            [Ok (Script.cluster_record "c-1" "c");
             Ok (PDict [("name", PStr "worker"); ("id", PStr "ng-2")]);
             Ok (PDict [("cluster", Script.cluster_record "c-1" "c")])]
            (PStr "c-1")
            (PDict [("resize_node_groups",
                     PList [PDict [("name", PStr "worker");
                                   ("count", PInt 5)]])])
            (Ok (PDict [("cluster", Script.cluster_record "c-1" "c")]))).
  cbn. do 2 right. left. reflexivity.
Defined.

(** ** The display of a batch *)

Lemma py_eq_refl_hashable n : Py.hashable n = true -> Py.py_eq n n = true.
Proof.
destruct n; cbn; try discriminate; intros _.
- reflexivity.
- now destruct b.
- apply Z.eqb_refl.
- apply String.eqb_refl.
Qed.

Lemma map_get_set_same n i m :
  Py.py_eq n n = true -> Py.map_get n (Py.map_set n i m) = Some i.
Proof.
intros Hn. induction m as [|[k v] r IH]; cbn.
- now rewrite Hn.
- destruct (Py.py_eq n k) eqn:E; cbn; now rewrite E.
Qed.

Lemma map_get_set_keeps n k v m :
  Py.map_get n m <> None -> Py.map_get n (Py.map_set k v m) <> None.
Proof.
induction m as [|[k' v'] r IH]; cbn; [congruence|].
destruct (Py.py_eq k k') eqn:E; cbn; destruct (Py.py_eq n k'); auto;
  discriminate.
Qed.

Lemma map_set_fresh k v m :
  Forall (fun kv => Py.py_eq k (fst kv) = false) m ->
  Py.map_set k v m = (m ++ [(k, v)])%list.
Proof.
induction 1 as [|[k' v'] r Hk _ IH]; cbn; [reflexivity|].
cbn in Hk. now rewrite Hk, IH.
Qed.

Lemma name_id_map_keeps n m cs m' :
  name_id_map m cs = Ok m' ->
  Py.map_get n m <> None -> Py.map_get n m' <> None.
Proof.
revert m. induction cs as [|c r IH]; intros m E Hn; cbn in E.
- inversion E. now subst.
- unfold store_cluster in E at 1.
  destruct (Py.getattr c "id") as [i|]; [|discriminate].
  destruct (Py.getattr c "name") as [k|]; [|discriminate].
  cbn in E. destruct (Py.hashable k); [|discriminate]. cbn in E.
  apply (IH _ E). now apply map_get_set_keeps.
Qed.

(** Every cluster's name is a key of the mapping. *)
Lemma name_id_map_keys m cs m' :
  name_id_map m cs = Ok m' ->
  forall c, In c cs ->
            exists n, Py.getattr c "name" = Ok n /\ Py.map_get n m' <> None.
Proof.
revert m. induction cs as [|c r IH]; intros m E c' Hc; [destruct Hc|].
cbn in E. unfold store_cluster in E at 1.
destruct (Py.getattr c "id") as [i|] eqn:Hi; [|discriminate].
destruct (Py.getattr c "name") as [k|] eqn:Hk; [|discriminate].
cbn in E. destruct (Py.hashable k) eqn:Hh; [|discriminate]. cbn in E.
destruct Hc as [<-|Hc].
- exists k. split; [exact Hk|].
  apply (name_id_map_keeps _ _ _ _ E).
  rewrite map_get_set_same by now apply py_eq_refl_hashable. discriminate.
- now apply (IH _ E).
Qed.

(** With names that differ from one another and from the keys already
    there, each cluster adds its entry at the end. *)
Lemma name_id_map_distinct m cs m' ns :
  name_id_map m cs = Ok m' ->
  rmap (fun c => Py.getattr c "name") cs = Ok ns ->
  distinct ns ->
  Forall (fun n => Forall (fun kv => Py.py_eq n (fst kv) = false) m) ns ->
  exists is_,
    rmap (fun c => Py.getattr c "id") cs = Ok is_ /\
    m' = (m ++ combine ns is_)%list.
Proof.
revert m ns. induction cs as [|c r IH]; intros m ns E Hns Hd Hm; cbn in *.
- inversion E; inversion Hns; subst. exists []. split; [reflexivity|].
  now rewrite app_nil_r.
- unfold store_cluster in E at 1.
  destruct (Py.getattr c "id") as [i|] eqn:Hi; [|discriminate].
  destruct (Py.getattr c "name") as [k|] eqn:Hk; [|discriminate].
  cbn in E, Hns. destruct (Py.hashable k); [|discriminate]. cbn in E.
  destruct (rmap (fun c => Py.getattr c "name") r) as [ns'|] eqn:Hr;
    [|discriminate].
  cbn in Hns. inversion Hns; subst ns. clear Hns.
  destruct Hd as [Hk' Hd]. inversion Hm as [|? ? Hmk Hmr]; subst.
  rewrite (map_set_fresh _ _ _ Hmk) in E.
  destruct (IH _ ns' E eq_refl Hd) as (is_ & His & ->).
  + apply Forall_forall. intros n Hn. apply Forall_app. split.
    * exact (proj1 (Forall_forall _ _) Hmr n Hn).
    * constructor; [|constructor]. cbn.
      exact (proj1 (Forall_forall _ _) Hk' n Hn).
  + exists (i :: is_). rewrite His. split; [reflexivity|].
    cbn. now rewrite <- app_assoc.
Qed.

(** On hashable values [==] is an equivalence. *)
Lemma py_eq_hashable_trans a b c :
  Py.hashable a = true -> Py.hashable b = true -> Py.hashable c = true ->
  Py.py_eq a b = true -> Py.py_eq c a = Py.py_eq c b.
Proof.
destruct a, b, c; cbn [Py.py_eq Py.hashable];
  try discriminate; try reflexivity; intros _ _ _ H;
  repeat match goal with
         | x : bool |- _ => destruct x
         end;
  cbn [Py.bool_int Bool.eqb] in *; try discriminate; try reflexivity;
  try (apply Z.eqb_eq in H); try (apply String.eqb_eq in H);
  subst; try reflexivity;
  repeat match goal with
         | |- context [Z.eqb ?x ?y] => destruct (Z.eqb_spec x y)
         end;
  try reflexivity; try lia.
Qed.

Lemma py_eq_hashable_sym a b :
  Py.hashable a = true -> Py.hashable b = true ->
  Py.py_eq a b = Py.py_eq b a.
Proof.
destruct a, b; cbn; try discriminate; try reflexivity; intros _ _.
- now destruct b, b0.
- apply Z.eqb_sym.
- apply Z.eqb_sym.
- apply Z.eqb_sym.
- apply String.eqb_sym.
Qed.

Lemma map_get_set n k v m :
  Py.hashable n = true -> Py.hashable k = true ->
  Forall (fun kv => Py.hashable (fst kv) = true) m ->
  Py.map_get n (Py.map_set k v m) =
  if Py.py_eq n k then Some v else Py.map_get n m.
Proof.
intros Hn Hk. induction 1 as [|[k' v'] r Hk' _ IH]; cbn; [reflexivity|].
cbn in Hk'. destruct (Py.py_eq k k') eqn:E; cbn.
- rewrite <- (py_eq_hashable_trans k k' n Hk Hk' Hn E).
  now destruct (Py.py_eq n k).
- rewrite IH. destruct (Py.py_eq n k') eqn:E'; [|reflexivity].
  destruct (Py.py_eq n k) eqn:E''; [|reflexivity].
  pose proof (py_eq_hashable_trans n k' k Hn Hk' Hk E') as T.
  rewrite (py_eq_hashable_sym k n Hk Hn) in T. congruence.
Qed.

Lemma map_set_hashable k v m :
  Py.hashable k = true ->
  Forall (fun kv => Py.hashable (fst kv) = true) m ->
  Forall (fun kv => Py.hashable (fst kv) = true) (Py.map_set k v m).
Proof.
intros Hk. induction 1 as [|[k' v'] r Hk' Hr IH]; cbn.
- now repeat constructor.
- destruct (Py.py_eq k k'); constructor; auto.
Qed.

Lemma map_set_length k v m :
  (length (Py.map_set k v m) <= S (length m))%nat.
Proof.
induction m as [|[k' v'] r IH]; cbn; [lia|].
destruct (Py.py_eq k k'); cbn; lia.
Qed.

(** The mapping of a batch: under a name, the id of the last cluster with
    that name; never more entries than clusters. *)
Lemma name_id_map_last m cs m' :
  name_id_map m cs = Ok m' ->
  Forall (fun kv => Py.hashable (fst kv) = true) m ->
  exists ns is_,
    rmap (fun c => Py.getattr c "name") cs = Ok ns /\
    rmap (fun c => Py.getattr c "id") cs = Ok is_ /\
    (forall n, Py.hashable n = true ->
               Py.map_get n m' =
               fold_left (fun acc p => if Py.py_eq n (fst p)
                                       then Some (snd p) else acc)
                         (combine ns is_) (Py.map_get n m)) /\
    (length m' <= length m + length cs)%nat.
Proof.
revert m. induction cs as [|c r IH]; intros m E Hm; cbn in E.
- inversion E; subst. exists [], []. repeat split; cbn; auto. lia.
- unfold store_cluster in E at 1.
  destruct (Py.getattr c "id") as [i|] eqn:Hi; [|discriminate].
  destruct (Py.getattr c "name") as [k|] eqn:Hk; [|discriminate].
  cbn in E. destruct (Py.hashable k) eqn:Hh; [|discriminate]. cbn in E.
  destruct (IH _ E (map_set_hashable k i m Hh Hm))
    as (ns & is_ & Hns & His & Hget & Hlen).
  exists (k :: ns), (i :: is_). cbn [rmap]. rewrite Hk, Hi, Hns, His.
  split; [reflexivity|]. split; [reflexivity|]. split.
  + intros n Hn. rewrite (Hget n Hn). cbn [combine fold_left fst snd].
    now rewrite (map_get_set n k i m Hn Hh Hm).
  + pose proof (map_set_length k i m). cbn [length]. lia.
Qed.

Lemma count_after_renaming d :
  Py.dict_get "count" (network_renamed d) = Py.dict_get "count" d.
Proof.
unfold network_renamed.
destruct (Py.dict_get "neutron_management_network" d); [|reflexivity].
now dict_simpl.
Qed.

Section Batch.
Context {World : Type} {C : Collaborators World}.

Lemma foldM_add_cluster cs m (w : World) :
  foldM CreateCluster.add_cluster m cs w = (name_id_map m cs, w, []).
Proof.
revert m. induction cs as [|c r IH]; intros m; [reflexivity|].
cbn [foldM name_id_map]. unfold bind.
unfold CreateCluster.add_cluster at 1, store_cluster at 1, bind, lift.
destruct (Py.getattr c "id") as [i|]; [|reflexivity].
destruct (Py.getattr c "name") as [n|]; [|reflexivity].
cbn. destruct (Py.hashable n); [|reflexivity].
cbn. now rewrite IH.
Qed.

Lemma mapM_lookups ids (w w' : World) cs t :
  mapM (fun id => do_call (get_resource clusters id)) ids w = (Ok cs, w', t) ->
  t = lookups ids cs /\ length cs = length ids.
Proof.
revert w cs t. induction ids as [|id r IH]; intros w cs t E.
- inversion E. now subst.
- rewrite mapM_cons in E.
  apply bind_inv in E. destruct E as (c & w1 & t1 & t2 & E1 & E2 & ->).
  apply bind_inv in E2. destruct E2 as (ys & w2 & t3 & t4 & E3 & E4 & ->).
  inversion E4; subst. clear E4.
  destruct (IH _ _ _ E3) as [-> Hl].
  rewrite do_call_run in E1. inversion E1 as [[Hc Hw Ht]].
  rewrite Hc. split; [|cbn; now rewrite Hl].
  rewrite app_nil_r. reflexivity.
Qed.

(** A batch that returns: the ids of the response, one lookup for each,
    then the waits, and the mapping of the clusters found. *)
Lemma batch_returns a data (w1 w2 : World) v t2 :
  CreateCluster.batch a data w1 = (Ok v, w2, t2) ->
  exists ids cs m waits,
    (let? l := Py.subscript data "clusters" in Py.iter l) = Ok ids /\
    length cs = length ids /\
    t2 = (lookups ids cs ++ waits)%list /\
    Forall (fun e => is_wait e = true \/ is_log e = true) waits /\
    name_id_map [] cs = Ok m /\
    v = dict2columns m.
Proof.
intros E. unfold CreateCluster.batch in E.
apply bind_inv in E. destruct E as (ids & w3 & t3 & t4 & E1 & E & ->).
inversion E1; subst. clear E1.
apply bind_inv in E. destruct E as (cs & w4 & t5 & t6 & E2 & E & ->).
destruct (mapM_lookups _ _ _ _ _ E2) as [-> Hl].
apply bind_inv in E. destruct E as ([] & w5 & t7 & t8 & E3 & E & ->).
apply bind_inv in E. destruct E as (m & w6 & t9 & t10 & E4 & E5 & ->).
rewrite foldM_add_cluster in E4. inversion E4; subst. clear E4.
inversion E5; subst. clear E5.
exists ids, cs, m, t7. repeat split; auto.
- cbn. now rewrite app_nil_r.
- assert (always (fun e => is_wait e = true \/ is_log e = true)
                 (if CreateCluster.wait a
                  then for_each (fun cluster =>
                                   id <- lift (Py.getattr cluster "id") ;;
                                   wait_or_log id CreateCluster.creation_error
                                               (Py.subscript data "id")) cs
                  else ret tt)) as Hw
      by (unfold wait_or_log; always_tac; auto).
  specialize (Hw w4). now rewrite E3 in Hw.
Qed.

(** The value of [parsed_args.count] after the first [if]. *)
Lemma effective_count a (w w1 : World) data c t1 :
  CreateCluster.create a w = (Ok (data, c), w1, t1) ->
  (Py.truthy_opt (CreateCluster.json a) = false ->
   c = CreateCluster.count_value a) /\
  (forall file,
      CreateCluster.json a = Some file -> file <> "" ->
      exists blob d,
        fst (perform (read_blob_file_contents file) w) = Ok (PStr blob) /\
        json_loads blob = inl (PDict d) /\
        c = match Py.dict_get "count" d with
            | Some n => n
            | None => CreateCluster.count_value a
            end).
Proof.
intros E. split.
- intros Hj. unfold CreateCluster.create in E. rewrite Hj in E.
  destruct (negb _ || negb _ || negb _); [discriminate|].
  apply bind_inv in E. destruct E as ([[p v] i] & ? & ? & ? & _ & E & _).
  apply bind_inv in E. destruct E as (img & ? & ? & ? & _ & E & _).
  apply bind_inv in E. destruct E as (net & ? & ? & ? & _ & E & _).
  apply bind_inv in E. destruct E as (r & ? & ? & ? & _ & E & _).
  apply bind_inv in E. destruct E as (d & ? & ? & ? & _ & E & _).
  now inversion E.
- intros file Hj Hf. rewrite (create_json _ _ Hj Hf) in E.
  apply bind_inv in E. destruct E as (t & w2 & t2 & t3 & E1 & E2 & _).
  rewrite read_template_run in E1. cbv zeta in E1.
  destruct (fst (perform (read_blob_file_contents file) w)) as [[| | |blob| |]|];
    try discriminate.
  destruct (json_loads blob) as [t'|] eqn:J; [|discriminate].
  inversion E1; subst t'. clear E1.
  exists blob.
  destruct t as [| | | | |d].
  6:{ exists d. split; [reflexivity|]. split; [exact J|].
      unfold after_template in E2.
      apply bind_inv in E2. destruct E2 as (t' & ? & ? & ? & Er & E2 & _).
      rewrite lift_run, rename_network_dict in Er. inversion Er; subst t'.
      apply bind_inv in E2. destruct E2 as (c' & ? & ? & ? & Ec & E2 & _).
      apply bind_inv in E2. destruct E2 as (kw & ? & ? & ? & _ & E2 & _).
      apply bind_inv in E2. destruct E2 as (r & ? & ? & ? & _ & E2 & _).
      apply bind_inv in E2. destruct E2 as (d' & ? & ? & ? & _ & E2 & _).
      inversion E2; subst. clear E2.
      rewrite lift_run in Ec. inversion Ec as [[Hc Hw]]. clear Ec.
      unfold CreateCluster.template_count, py_in, Py.dict_in, Py.subscript
        in Hc.
      rewrite count_after_renaming in Hc. cbn in Hc.
      destruct (Py.dict_get "count" d); now inversion Hc. }
  all: exfalso;
    pose proof (after_template_other a) as Ho;
    unfold after_template in *;
    apply bind_inv in E2; destruct E2 as (t' & ? & ? & ? & Er & E2 & _);
    rewrite lift_run in Er; inversion Er as [[Hr Hw]]; clear Er;
    apply bind_inv in E2; destruct E2 as (c' & ? & ? & ? & _ & E2 & _);
    apply bind_inv in E2; destruct E2 as (kw & ? & ? & ? & Ek & _ & _);
    rewrite lift_run in Ek; inversion Ek as [[Hk Hw']]; clear Ek;
    match type of Hr with
    | CreateCluster.rename_network ?t = _ =>
        destruct (rename_network_other t ltac:(discriminate)) as [R|[e R]];
        rewrite R in Hr; inversion Hr; subst; discriminate
    end.
Qed.

End Batch.

Lemma rmap_length {A B} (f : A -> result B) l l' :
  rmap f l = Ok l' -> length l' = length l.
Proof.
revert l'. induction l as [|x r IH]; intros l' E; cbn in E.
- now inversion E.
- destruct (f x); [|discriminate]. cbn in E.
  destruct (rmap f r) as [ys|]; [|discriminate]. inversion E; subst.
  cbn. f_equal. now apply IH.
Qed.

Lemma count_gt_1_int n : CreateCluster.count_gt_1 (PInt n) = Ok (1 <? n).
Proof.
unfold CreateCluster.count_gt_1. cbn.
destruct (Z.eqb_spec n 0); [subst|]; reflexivity.
Qed.

Section CountDecides.
Context {World : Type} {C : Collaborators World}.

(** C3, as amended.  For a run of [CreateCluster] that gets through the
    create call and returns [v]; [c] is the count in effect after the
    first [if].  (1) Without [--json], [c] is the integer of [--count],
    [None] without the flag; with [--json] it is the ['count'] of the
    document when it has one, and that of [--count] otherwise.  (2) The
    test "greater than 1" is false without a count and [1 < n] for the
    integer [n].  (3) When it is true, the clusters are resolved, one
    lookup for each id of the response's ['clusters'] in order, and [v]
    displays the mapping in which each cluster, in that order, stores its
    id under its name: every cluster's name is a key, under a name is the
    id of the last cluster with that name, so there are no more entries
    than ids, and with names that differ the mapping is the list of the
    (name, id) pairs, one per id.  (4) When it is false, [v] is the field
    table of one cluster, made by [show_cluster]. *)
Theorem count_decides_batch a (w w1 : World) data c t1 v :
  CreateCluster.create a w = (Ok (data, c), w1, t1) ->
  outcome (CreateCluster.take_action a w) = Ok v ->
  ((Py.truthy_opt (CreateCluster.json a) = false ->
    c = match CreateCluster.count a with
        | Some n => PInt n
        | None => PNone
        end) /\
   (forall file,
       CreateCluster.json a = Some file -> file <> "" ->
       exists blob d,
         fst (perform (read_blob_file_contents file) w) = Ok (PStr blob) /\
         json_loads blob = inl (PDict d) /\
         c = match Py.dict_get "count" d, CreateCluster.count a with
             | Some n, _ => n
             | None, Some n => PInt n
             | None, None => PNone
             end)) /\
  (CreateCluster.count_gt_1 PNone = Ok false /\
   forall n, CreateCluster.count_gt_1 (PInt n) = Ok (1 <? n)) /\
  (CreateCluster.count_gt_1 c = Ok true ->
   exists ids cs m waits ns is_,
     (let? l := Py.subscript data "clusters" in Py.iter l) = Ok ids /\
     length cs = length ids /\
     trace (CreateCluster.take_action a w)
     = (t1 ++ lookups ids cs ++ waits)%list /\
     Forall (fun e => is_wait e = true \/ is_log e = true) waits /\
     name_id_map [] cs = Ok m /\
     v = dict2columns m /\
     rmap (fun cl => Py.getattr cl "name") cs = Ok ns /\
     rmap (fun cl => Py.getattr cl "id") cs = Ok is_ /\
     (forall cl, In cl cs ->
                 exists n, Py.getattr cl "name" = Ok n /\
                           Py.map_get n m <> None) /\
     (forall n, Py.hashable n = true ->
                Py.map_get n m = last_id n (combine ns is_)) /\
     (length m <= length ids)%nat /\
     (distinct ns -> m = combine ns is_ /\ length m = length ids)) /\
  (CreateCluster.count_gt_1 c = Ok false ->
   exists data', show_cluster data' = Ok v).
Proof.
intros E Hv. split.
{ destruct (effective_count _ _ _ _ _ _ E) as [H1 H2]. split; [exact H1|].
  intros file Hj Hf. destruct (H2 file Hj Hf) as (blob & d & Hb & Hl & ->).
  exists blob, d. split; [exact Hb|]. split; [exact Hl|].
  unfold CreateCluster.count_value.
  destruct (Py.dict_get "count" d); [reflexivity|].
  now destruct (CreateCluster.count a). }
split; [split; [reflexivity | exact count_gt_1_int]|].
split.
- intros Hc. rewrite (take_action_after_create _ _ _ _ _ _ E) in *.
  cbv zeta in *. unfold outcome at 1 in Hv. unfold trace at 1.
  cbn [fst snd] in *.
  rewrite outcome_bind, lift_run, Hc in Hv.
  rewrite trace_bind, lift_run, Hc.
  cbn [outcome final trace fst snd app] in *.
  destruct (CreateCluster.batch a data w1) as [[o w2] t2] eqn:B.
  cbn in Hv. subst o.
  destruct (batch_returns _ _ _ _ _ _ B)
    as (ids & cs & m & waits & Hids & Hl & -> & Hw & Hm & ->).
  destruct (name_id_map_last _ _ _ Hm (Forall_nil _))
    as (ns & is_ & Hns & His & Hget & Hlen).
  exists ids, cs, m, waits, ns, is_.
  split; [exact Hids|]. split; [exact Hl|]. split; [reflexivity|].
  split; [exact Hw|]. split; [exact Hm|]. split; [reflexivity|].
  split; [exact Hns|]. split; [exact His|].
  split; [exact (name_id_map_keys _ _ _ Hm)|].
  split; [exact Hget|].
  split; [cbn in Hlen; lia|].
  intros Hd.
  destruct (name_id_map_distinct _ _ _ _ Hm Hns Hd) as (is' & His' & ->).
  { apply Forall_forall. intros; constructor. }
  rewrite His in His'. injection His' as <-.
  split; [reflexivity|].
  cbn. rewrite length_combine.
  rewrite (rmap_length _ _ _ Hns), (rmap_length _ _ _ His), Hl.
  apply Nat.min_id.
- intros Hc. exact (shows_create_single _ _ _ _ _ _ _ E Hc Hv).
Qed.

End CountDecides.

Lemma count_decides_batch_witness :
  (exists ids cs m waits,
      length cs = length ids /\
      trace (CreateCluster.take_action
               (C := Script.demo)
               (Script.create_args (Some 2) None false)
               [Ok Script.template_resource; Ok (PStr "img-1");
                Ok (PDict [("clusters", PList [PStr "id1"; PStr "id2"])]);
                Ok (Script.cluster_record "id1" "c-1");
                Ok (Script.cluster_record "id2" "c-2")])
      = ([Called (get_resource cluster_templates (PStr "tmpl"))
                 (Ok Script.template_resource);
          Called (get_resource_id images (PStr "img")) (Ok (PStr "img-1"));
          Called (clusters_create
                    [("name", PStr "c"); ("plugin_name", PStr "vanilla");
                     ("hadoop_version", PStr "2.7.1");
                     ("cluster_template_id", PStr "t-1");
                     ("default_image_id", PStr "img-1");
                     ("description", PNone); ("is_transient", PBool false);
                     ("user_keypair_id", PNone); ("net_id", PNone);
                     ("count", PInt 2); ("is_public", PBool false);
                     ("is_protected", PBool false)])
                 (Ok (PDict [("clusters", PList [PStr "id1"; PStr "id2"])]))]
           ++ lookups ids cs ++ waits)%list /\
      name_id_map [] cs = Ok m /\
      m = [(PStr "c-1", PStr "id1"); (PStr "c-2", PStr "id2")] /\
      length m = length ids) /\
  (exists ids cs m waits,
      length cs = length ids /\
      trace (CreateCluster.take_action
               (C := Script.demo)
               (Script.create_args None (Some "batch.json") true)
               [Ok (PDict [("clusters", PList [PStr "id1"; PStr "id2"])]);
                Ok (Script.cluster_record "id1" "from-json-1");
                Ok (Script.cluster_record "id2" "from-json-2");
                Ok (PBool true);
                Ok (PBool true)])
      = ([Called (read_blob_file_contents "batch.json") (Ok (PStr "BATCH"));
          Called (clusters_create [("name", PStr "from-json"); ("count", PInt 2)])
                 (Ok (PDict [("clusters", PList [PStr "id1"; PStr "id2"])]))]
           ++ lookups ids cs ++ waits)%list /\
      name_id_map [] cs = Ok m /\
      dict2columns (Collaborators := Script.demo) m
      = PList [PList [PStr "from-json-1"; PStr "from-json-2"];
               PList [PStr "id1"; PStr "id2"]]).
Proof.
split.
- destruct (count_decides_batch
              (C := Script.demo)
              (Script.create_args (Some 2) None false)
              [Ok Script.template_resource; Ok (PStr "img-1");
               Ok (PDict [("clusters", PList [PStr "id1"; PStr "id2"])]);
               Ok (Script.cluster_record "id1" "c-1");
               Ok (Script.cluster_record "id2" "c-2")]
              _ _ _ _ _ eq_refl eq_refl)
    as ([Hc _] & _ & H & _).
  destruct (H eq_refl)
    as (ids & cs & m & waits & ns & is_
        & Hids & Hl & Ht & _ & Hm & _ & Hns & His & _ & _ & _ & Hd).
  exists ids, cs, m, waits.
  split; [exact Hl|]. split; [exact Ht|]. split; [exact Hm|].
  cbn in Hids. injection Hids as <-.
  assert (cs = [Script.cluster_record "id1" "c-1";
                Script.cluster_record "id2" "c-2"]) as ->.
  { destruct cs as [|c1 [|c2 [|c3 cs]]]; try discriminate Hl.
    cbn in Ht. injection Ht as <- <- _. reflexivity. }
  cbn in Hns, His. injection Hns as <-. injection His as <-.
  apply Hd. cbn. repeat constructor.
- destruct (count_decides_batch
              (C := Script.demo)
              (Script.create_args None (Some "batch.json") true)
              [Ok (PDict [("clusters", PList [PStr "id1"; PStr "id2"])]);
               Ok (Script.cluster_record "id1" "from-json-1");
               Ok (Script.cluster_record "id2" "from-json-2");
               Ok (PBool true);
               Ok (PBool true)]
              _ _ _ _ _ eq_refl eq_refl)
    as (_ & _ & H & _).
  destruct (H eq_refl)
    as (ids & cs & m & waits & ns & is_ & _ & Hl & Ht & _ & Hm & Hv & _).
  exists ids, cs, m, waits.
  split; [exact Hl|]. split; [exact Ht|]. split; [exact Hm|].
  symmetry. exact Hv.
Defined.

(** C3 as stated fails when two clusters of the batch have the same
    name: the second id replaces the first under that name, and the
    display has one entry for the two ids of the response. *)
Lemma batch_with_one_name_has_one_entry :
  CreateCluster.take_action
    (C := Script.demo)
    (Script.create_args (Some 2) None false)
    [Ok Script.template_resource; Ok (PStr "img-1");
     Ok (PDict [("clusters", PList [PStr "id1"; PStr "id2"])]);
     Ok (Script.cluster_record "id1" "same");
     Ok (Script.cluster_record "id2" "same")]
  = (Ok (dict2columns (Collaborators := Script.demo)
                      [(PStr "same", PStr "id2")]),
     [],
     [Called (get_resource cluster_templates (PStr "tmpl"))
             (Ok Script.template_resource);
      Called (get_resource_id images (PStr "img")) (Ok (PStr "img-1"));
      Called (clusters_create
                (CreateCluster.create_kwargs
                   (Script.create_args (Some 2) None false)
                   (PStr "vanilla") (PStr "2.7.1") (PStr "t-1")
                   (PStr "img-1") PNone))
             (Ok (PDict [("clusters", PList [PStr "id1"; PStr "id2"])]));
      Called (get_resource clusters (PStr "id1"))
             (Ok (Script.cluster_record "id1" "same"));
      Called (get_resource clusters (PStr "id2"))
             (Ok (Script.cluster_record "id2" "same"))]) /\
  dict2columns (Collaborators := Script.demo) [(PStr "same", PStr "id2")]
  = PList [PList [PStr "same"]; PList [PStr "id2"]] /\
  length [(PStr "same", PStr "id2")]
  <> length [PStr "id1"; PStr "id2"].
Proof. repeat split. cbn. discriminate. Qed.

(** ** The node groups of a scale request *)








Section Placement.
Context {World : Type} {C : Collaborators World}.





End Placement.

Section ScaleRequest.
Context {World : Type} {C : Collaborators World}.


Lemma after_scale_never_scales a cluster data :
  never (World := World) is_scale
        (data <-
           (if ScaleCluster.wait a then
              id <- lift (Py.subscript data "id") ;;
              wait_or_log id ScaleCluster.scaling_error
                          (Py.getattr cluster "id") ;;;
              id <- lift (Py.getattr cluster "id") ;;
              r <- do_call (clusters_get id) ;;
              lift (Py.to_dict r)
            else ret data) ;;
         lift (show_cluster data)).
Proof. never_tac. Qed.

End ScaleRequest.

Section ScaleNodeGroups.
Context {World : Type} {C : Collaborators World}.


End ScaleNodeGroups.



(** * Further properties of the handlers *)

(** ** Errors of the collaborators *)

Section Propagation.
Context {World : Type} {C : Collaborators World}.

Lemma propagates_silent {A} (m : M World A) :
  (forall w, Forall (fun e => is_log e = true) (trace (m w))) ->
  propagates m.
Proof.
intros Hm w c e Hin.
apply (proj1 (Forall_forall _ _) (Hm w)) in Hin. discriminate.
Qed.

Lemma propagates_ret {A} (a : A) : propagates (World := World) (ret a).
Proof. apply propagates_silent. intros w. constructor. Qed.

Lemma propagates_raise {A} e : propagates (@raise World A e).
Proof. apply propagates_silent. intros w. constructor. Qed.

Lemma propagates_lift {A} (r : result A) : propagates (World := World) (lift r).
Proof. apply propagates_silent. intros w. constructor. Qed.

Lemma propagates_log fmt arg :
  propagates (World := World) (log_error fmt arg).
Proof. apply propagates_silent. intros w. repeat constructor. Qed.

Lemma propagates_call c : propagates (do_call c).
Proof.
intros w c' e. rewrite do_call_run. cbn.
intros [Hin|[]]. inversion Hin as [[Hc Hr]]. rewrite Hr.
split; [reflexivity|]. now exists [].
Qed.

Lemma propagates_bind {A B} (m : M World A) (k : A -> M World B) :
  propagates m -> (forall a, propagates (k a)) -> propagates (bind m k).
Proof.
intros Hm Hk w c e. rewrite trace_bind, outcome_bind. intros Hin.
apply in_app_or in Hin. destruct Hin as [Hin|Hin].
- destruct (Hm w c e Hin) as [Ho (pre & Ht)]. rewrite Ho.
  split; [reflexivity|]. exists pre. now rewrite app_nil_r.
- destruct (outcome (m w)) as [a|x]; [|contradiction].
  destruct (Hk a _ c e Hin) as [Ho (pre & Ht)].
  split; [exact Ho|]. exists (trace (m w) ++ pre)%list.
  now rewrite Ht, app_assoc.
Qed.

Lemma propagates_mapM {A B} (f : A -> M World B) l :
  (forall x, propagates (f x)) -> propagates (mapM f l).
Proof.
intros Hf. induction l as [|x r IH]; cbn.
- apply propagates_ret.
- apply propagates_bind; [apply Hf|]. intros y.
  apply propagates_bind; [exact IH|]. intros ys. apply propagates_ret.
Qed.

Lemma propagates_for_each {A} (f : A -> M World unit) l :
  (forall x, propagates (f x)) -> propagates (for_each f l).
Proof.
intros Hf. induction l as [|x r IH]; cbn.
- apply propagates_ret.
- apply propagates_bind; [apply Hf|]. intros _. exact IH.
Qed.

Lemma propagates_foldM {A S} (f : S -> A -> M World S) l :
  (forall s x, propagates (f s x)) -> forall s, propagates (foldM f s l).
Proof.
intros Hf. induction l as [|x r IH]; intros s; cbn.
- apply propagates_ret.
- apply propagates_bind; [apply Hf|]. intros s1. apply IH.
Qed.

Lemma propagates_if {A} (b : bool) (m1 m2 : M World A) :
  propagates m1 -> propagates m2 -> propagates (if b then m1 else m2).
Proof. destruct b; auto. Qed.

End Propagation.

Ltac propagates_tac :=
  repeat first
    [ apply propagates_ret | apply propagates_raise | apply propagates_lift
    | apply propagates_log | apply propagates_call
    | apply propagates_mapM | apply propagates_for_each
    | apply propagates_foldM | apply propagates_if
    | match goal with
      | |- propagates (match ?x with _ => _ end) => destruct x
      | |- forall _, _ => intro
      end
    | apply propagates_bind ].

Section ApiErrors.
Context {World : Type} {C : Collaborators World}.

(** X1.  No handler catches the exception of a collaborator: in every run
    of every command, a call that raises is the last thing the handler
    does, and its exception is the handler's. *)
Theorem api_errors_propagate_unchanged :
  (forall a, propagates (World := World) (CreateCluster.take_action a)) /\
  (forall a, propagates (World := World) (ListClusters.take_action a)) /\
  (forall a, propagates (World := World) (ShowCluster.take_action a)) /\
  (forall a, propagates (World := World) (DeleteCluster.take_action a)) /\
  (forall a, propagates (World := World) (UpdateCluster.take_action a)) /\
  (forall a, propagates (World := World) (ScaleCluster.take_action a)).
Proof.
repeat apply conj; intros a.
- unfold CreateCluster.take_action, CreateCluster.create,
    CreateCluster.batch, CreateCluster.single, CreateCluster.add_cluster,
    read_template, _get_plugin_version, wait_or_log.
  propagates_tac.
- unfold ListClusters.take_action. propagates_tac.
- unfold ShowCluster.take_action. propagates_tac.
- unfold DeleteCluster.take_action, DeleteCluster.delete_one,
    DeleteCluster.wait_one.
  propagates_tac.
- unfold UpdateCluster.take_action. propagates_tac.
- unfold ScaleCluster.take_action, ScaleCluster.scale, ScaleCluster.place,
    read_template, wait_or_log.
  propagates_tac.
Qed.

End ApiErrors.

Lemma api_errors_propagate_witness :
  outcome (DeleteCluster.take_action
             (C := Script.demo)
             {| DeleteCluster.cluster := ["a"; "b"];
                DeleteCluster.wait := true |}
             [Ok (PStr "id-a"); Ok PNone;
              Raise (APIException "Cluster b not found")])
  = Raise (APIException "Cluster b not found").
Proof.
destruct (@api_errors_propagate_unchanged Script.world Script.demo)
  as (_ & _ & _ & H & _).
apply (H _ _ (get_resource_id clusters (PStr "b"))).
cbn. do 2 right. left. reflexivity.
Defined.

(** ** Records the reshaping cannot take *)

Section MissingFields.
Context {World : Type} {C : Collaborators World}.

(** X2.  [_format_cluster_output] needs its four fields and looks for
    them in the order [hadoop_version], [default_image_id], [node_groups],
    [anti_affinity]: the first one the record lacks is the key of the
    KeyError raised.  A list in place of the record gives TypeError, any
    other value AttributeError. *)
Theorem format_cluster_output_missing_field :
  (forall d,
      Py.dict_get "hadoop_version" d = None ->
      _format_cluster_output (PDict d) = Raise (KeyError "hadoop_version")) /\
  (forall d hv,
      Py.dict_get "hadoop_version" d = Some hv ->
      Py.dict_get "default_image_id" d = None ->
      _format_cluster_output (PDict d) = Raise (KeyError "default_image_id")) /\
  (forall d hv img,
      Py.dict_get "hadoop_version" d = Some hv ->
      Py.dict_get "default_image_id" d = Some img ->
      Py.dict_get "node_groups" d = None ->
      _format_cluster_output (PDict d) = Raise (KeyError "node_groups")) /\
  (forall d hv img ngs parts,
      Py.dict_get "hadoop_version" d = Some hv ->
      Py.dict_get "default_image_id" d = Some img ->
      Py.dict_get "node_groups" d = Some (PList ngs) ->
      name_count_pairs ngs parts ->
      Py.dict_get "anti_affinity" d = None ->
      _format_cluster_output (PDict d) = Raise (KeyError "anti_affinity")) /\
  (forall l, _format_cluster_output (PList l) = Raise TypeError) /\
  (forall v, (forall d, v <> PDict d) -> (forall l, v <> PList l) ->
             _format_cluster_output v = Raise (AttributeError "pop")).
Proof.
repeat apply conj.
- intros d H1. unfold _format_cluster_output, Py.dict_pop. now rewrite H1.
- intros d hv H1 H2. unfold _format_cluster_output, Py.dict_pop.
  rewrite H1. cbn [rbind].
  assert (Py.dict_get "default_image_id"
            (Py.dict_set "version" hv (Py.dict_del "hadoop_version" d)) = None)
    as -> by (dict_simpl; exact H2).
  reflexivity.
- intros d hv img H1 H2 H3. unfold _format_cluster_output, Py.dict_pop.
  rewrite H1. cbn [rbind].
  assert (Py.dict_get "default_image_id"
            (Py.dict_set "version" hv (Py.dict_del "hadoop_version" d))
          = Some img) as -> by (dict_simpl; exact H2).
  cbn [rbind]. unfold Py.subscript at 1.
  assert (Py.dict_get "node_groups"
            (Py.dict_set "image" img
               (Py.dict_del "default_image_id"
                  (Py.dict_set "version" hv
                     (Py.dict_del "hadoop_version" d)))) = None)
    as -> by (dict_simpl; exact H3).
  reflexivity.
- intros d hv img ngs parts H1 H2 H3 Hp H4.
  unfold _format_cluster_output, Py.dict_pop.
  rewrite H1. cbn [rbind].
  assert (Py.dict_get "default_image_id"
            (Py.dict_set "version" hv (Py.dict_del "hadoop_version" d))
          = Some img) as -> by (dict_simpl; exact H2).
  cbn [rbind]. unfold Py.subscript at 1.
  assert (Py.dict_get "node_groups"
            (Py.dict_set "image" img
               (Py.dict_del "default_image_id"
                  (Py.dict_set "version" hv
                     (Py.dict_del "hadoop_version" d)))) = Some (PList ngs))
    as -> by (dict_simpl; exact H3).
  cbn [rbind]. rewrite (format_node_groups _ _ Hp). cbn [rbind].
  unfold Py.subscript.
  assert (Py.dict_get "anti_affinity"
            (Py.dict_set "node_groups" (PStr (String.concat ", " parts))
               (Py.dict_set "image" img
                  (Py.dict_del "default_image_id"
                     (Py.dict_set "version" hv
                        (Py.dict_del "hadoop_version" d))))) = None)
    as -> by (dict_simpl; exact H4).
  reflexivity.
- reflexivity.
- intros v Hd Hl. destruct v; try reflexivity.
  + now destruct (Hl l).
  + now destruct (Hd d).
Qed.

(** X3.  [_format_node_groups_list]: no node group gives the empty
    string; after groups that have a name and a count, a group without
    ['name'] raises KeyError('name') and one with a name and without
    ['count'] raises KeyError('count'), whatever follows; [None], a
    boolean or a number in place of the list raises TypeError. *)
Theorem format_node_groups_list_edges :
  _format_node_groups_list (PList []) = Ok (PStr "") /\
  (forall pre parts g post,
      name_count_pairs pre parts ->
      Py.dict_get "name" g = None ->
      _format_node_groups_list (PList (pre ++ PDict g :: post))
      = Raise (KeyError "name")) /\
  (forall pre parts g n post,
      name_count_pairs pre parts ->
      Py.dict_get "name" g = Some n ->
      Py.dict_get "count" g = None ->
      _format_node_groups_list (PList (pre ++ PDict g :: post))
      = Raise (KeyError "count")) /\
  _format_node_groups_list PNone = Raise TypeError /\
  (forall b, _format_node_groups_list (PBool b) = Raise TypeError) /\
  (forall n, _format_node_groups_list (PInt n) = Raise TypeError).
Proof.
repeat apply conj; try reflexivity.
- intros pre parts g post Hp Hn. unfold _format_node_groups_list. cbn.
  assert (rmap node_group_pair (pre ++ PDict g :: post)
          = Raise (KeyError "name")) as ->; [|reflexivity].
  induction Hp as [|ng part ngs ps (n & c & En & Ec & ->) _ IH]; cbn.
  + unfold node_group_pair at 1. cbn. now rewrite Hn.
  + unfold node_group_pair at 1. rewrite En, Ec. cbn. now rewrite IH.
- intros pre parts g n post Hp Hn Hc. unfold _format_node_groups_list. cbn.
  assert (rmap node_group_pair (pre ++ PDict g :: post)
          = Raise (KeyError "count")) as ->; [|reflexivity].
  induction Hp as [|ng part ngs ps (n' & c & En & Ec & ->) _ IH]; cbn.
  + unfold node_group_pair at 1. cbn. now rewrite Hn, Hc.
  + unfold node_group_pair at 1. rewrite En, Ec. cbn. now rewrite IH.
Qed.

End MissingFields.

Lemma format_cluster_output_missing_witness :
  _format_cluster_output
    (C := Script.demo)
    (PDict [("hadoop_version", PStr "2.7.1"); ("name", PStr "c")])
  = Raise (KeyError "default_image_id").
Proof.
destruct (@format_cluster_output_missing_field Script.world Script.demo)
  as (_ & H & _).
apply (H _ (PStr "2.7.1")); reflexivity.
Defined.

Lemma format_node_groups_list_witness :
  _format_node_groups_list
    (C := Script.demo)
    (PList [PDict [("name", PStr "master"); ("count", PInt 1)];
            PDict [("name", PStr "worker")];
            PDict [("count", PInt 2)]])
  = Raise (KeyError "count").
Proof.
destruct (@format_node_groups_list_edges Script.world Script.demo)
  as (_ & _ & H & _).
apply (H [PDict [("name", PStr "master"); ("count", PInt 1)]] ["master:1"]
         [("name", PStr "worker")] (PStr "worker")
         [PDict [("count", PInt 2)]]); try reflexivity.
repeat constructor. eexists. eexists. repeat split; reflexivity.
Defined.

(** ** The arguments of [CreateCluster] *)

Section CreateArguments.
Context {World : Type} {C : Collaborators World}.

(** X4.  Without a JSON file, the handler stops on the CommandError for
    missing arguments, having called nothing, exactly when one of
    [--name], [--cluster-template], [--image] is absent or empty;
    otherwise its first call is the lookup of the cluster template. *)
Theorem create_requires_three_arguments a (w : World) :
  Py.truthy_opt (CreateCluster.json a) = false ->
  (CreateCluster.take_action a w
   = (Raise (CommandError CreateCluster.missing_arguments), w, [])
   <->
   Py.truthy_opt (CreateCluster.name a) = false \/
   Py.truthy_opt (CreateCluster.cluster_template a) = false \/
   Py.truthy_opt (CreateCluster.image a) = false) /\
  (Py.truthy_opt (CreateCluster.name a) = true ->
   Py.truthy_opt (CreateCluster.cluster_template a) = true ->
   Py.truthy_opt (CreateCluster.image a) = true ->
   exists r rest,
     trace (CreateCluster.take_action a w)
     = Called (get_resource cluster_templates
                            (Py.of_opt (CreateCluster.cluster_template a))) r
              :: rest).
Proof.
intros Hj.
assert (Py.truthy_opt (CreateCluster.name a) = true ->
        Py.truthy_opt (CreateCluster.cluster_template a) = true ->
        Py.truthy_opt (CreateCluster.image a) = true ->
        exists r rest,
          trace (CreateCluster.take_action a w)
          = Called (get_resource cluster_templates
                                 (Py.of_opt (CreateCluster.cluster_template a))) r
                   :: rest) as Hfirst.
{ intros Hn Hc Hi.
  unfold CreateCluster.take_action, CreateCluster.create.
  rewrite Hj, Hn, Hc, Hi. cbn [negb orb].
  unfold _get_plugin_version.
  rewrite !trace_bind, do_call_run. cbn [trace snd app].
  eexists. eexists. reflexivity. }
split; [|exact Hfirst]. split.
- intros E.
  destruct (Py.truthy_opt (CreateCluster.name a)) eqn:Hn; [|now left].
  destruct (Py.truthy_opt (CreateCluster.cluster_template a)) eqn:Hc;
    [|now right; left].
  destruct (Py.truthy_opt (CreateCluster.image a)) eqn:Hi;
    [|now right; right].
  destruct (Hfirst eq_refl eq_refl eq_refl) as (r & rest & Ht).
  rewrite E in Ht. discriminate.
- intros Hm. unfold CreateCluster.take_action, CreateCluster.create.
  rewrite Hj.
  assert (negb (Py.truthy_opt (CreateCluster.name a))
          || negb (Py.truthy_opt (CreateCluster.cluster_template a))
          || negb (Py.truthy_opt (CreateCluster.image a)) = true) as ->.
  { destruct Hm as [E|[E|E]]; rewrite E; cbn;
      rewrite ?orb_true_r; reflexivity. }
  reflexivity.
Qed.

(** The calls of the branch without [--json], with the network. *)
Lemma create_with_flags_network a (w : World) kw r :
  Py.truthy_opt (CreateCluster.json a) = false ->
  In (Called (clusters_create kw) r) (trace (CreateCluster.create a w)) ->
  (Py.truthy_opt (CreateCluster.neutron_network a) = false /\
   Py.dict_get "net_id" kw = Some PNone /\
   filter is_find_attr (trace (CreateCluster.create a w)) = []) \/
  (Py.truthy_opt (CreateCluster.neutron_network a) = true /\
   exists n net,
     In (Called (find_attr "networks"
                           (Py.of_opt (CreateCluster.neutron_network a)))
                (Ok n))
        (trace (CreateCluster.create a w)) /\
     Py.subscript n "id" = Ok net /\
     Py.dict_get "net_id" kw = Some net).
Proof.
intros Hj. unfold CreateCluster.create. rewrite Hj.
destruct (negb (Py.truthy_opt (CreateCluster.name a))
          || negb (Py.truthy_opt (CreateCluster.cluster_template a))
          || negb (Py.truthy_opt (CreateCluster.image a))); [intros []|].
unfold _get_plugin_version, bind, do_call, lift, ret.
destruct (perform (get_resource cluster_templates _) w) as [[ct|e] w1];
  [|cbn; intros [H|[]]; discriminate].
destruct (Py.getattr ct "plugin_name") as [p|e];
  [|cbn; intros [H|[]]; discriminate].
destruct (Py.getattr ct "hadoop_version") as [v|e];
  [|cbn; intros [H|[]]; discriminate].
destruct (Py.getattr ct "id") as [i|e];
  [|cbn; intros [H|[]]; discriminate].
cbn [fst snd app].
destruct (perform (get_resource_id images _) w1) as [[img|e] w2];
  [|cbn; intros [H|[H|[]]]; discriminate].
destruct (Py.truthy_opt (CreateCluster.neutron_network a)) eqn:Hn.
- destruct (perform (find_attr "networks" _) w2) as [[n|e] w3];
    [|cbn; intros [H|[H|[H|[]]]]; discriminate].
  destruct (Py.subscript n "id") as [net|e] eqn:Hs;
    [|cbn; intros [H|[H|[H|[]]]]; discriminate].
  intros Hin. right. split; [reflexivity|]. exists n, net.
  destruct (perform (clusters_create _) w3) as [[r'|e] w4];
    [destruct (Py.to_dict r')|]; cbn in Hin |- *;
    destruct Hin as [H|[H|[H|[H|[]]]]]; try discriminate;
    inversion H; subst; repeat split; auto.
- intros Hin. left. split; [reflexivity|].
  destruct (perform (clusters_create _) w2) as [[r'|e] w3];
    [destruct (Py.to_dict r')|]; cbn in Hin |- *;
    destruct Hin as [H|[H|[H|[]]]]; try discriminate;
    inversion H; subst; repeat split; auto.
Qed.

Lemma no_find_attr_after_create a data c :
  never (World := World) is_find_attr
        (bind (lift (CreateCluster.count_gt_1 c))
              (fun big : bool => if big then CreateCluster.batch a data
                                 else CreateCluster.single a data)).
Proof.
unfold CreateCluster.batch, CreateCluster.single, CreateCluster.add_cluster,
  wait_or_log.
never_tac.
Qed.

Lemma trace_of_take_action a (w : World) :
  exists rest,
    trace (CreateCluster.take_action a w)
    = (trace (CreateCluster.create a w) ++ rest)%list /\
    Forall (fun e => is_create e = false /\ is_find_attr e = false) rest.
Proof.
unfold CreateCluster.take_action. rewrite trace_bind.
eexists. split; [reflexivity|].
destruct (outcome (CreateCluster.create a w)) as [[data c]|e]; [|constructor].
apply Forall_forall. intros e He. split.
- exact (always_in _ _ _ _ (no_create_after_create a data c) He).
- exact (always_in _ _ _ _ (no_find_attr_after_create a data c) He).
Qed.

(** X5.  Without [--json], the network is looked up only when
    [--neutron-network] is given: without it no [find_attr] call is made
    and the create call has [net_id=None]; with it the create call's
    [net_id] is the ['id'] of what [find_attr('networks', ...)] returned
    for the network. *)
Theorem create_resolves_network_when_given a (w : World) kw r :
  Py.truthy_opt (CreateCluster.json a) = false ->
  In (Called (clusters_create kw) r) (trace (CreateCluster.take_action a w)) ->
  (Py.truthy_opt (CreateCluster.neutron_network a) = false /\
   Py.dict_get "net_id" kw = Some PNone /\
   filter is_find_attr (trace (CreateCluster.take_action a w)) = []) \/
  (Py.truthy_opt (CreateCluster.neutron_network a) = true /\
   exists n net,
     In (Called (find_attr "networks"
                           (Py.of_opt (CreateCluster.neutron_network a)))
                (Ok n))
        (trace (CreateCluster.take_action a w)) /\
     Py.subscript n "id" = Ok net /\
     Py.dict_get "net_id" kw = Some net).
Proof.
intros Hj Hin.
destruct (trace_of_take_action a w) as (rest & Ht & Hr).
assert (In (Called (clusters_create kw) r) (trace (CreateCluster.create a w)))
  as Hc.
{ rewrite Ht in Hin. apply in_app_or in Hin. destruct Hin as [H|H]; [exact H|].
  apply (proj1 (Forall_forall _ _) Hr) in H. destruct H. discriminate. }
destruct (create_with_flags_network a w kw r Hj Hc)
  as [(Hn & Hk & Hf) | (Hn & n & net & Hi & Hs & Hk)].
- left. split; [exact Hn|]. split; [exact Hk|].
  rewrite Ht, filter_app, Hf. cbn. apply filter_none.
  eapply Forall_impl; [|exact Hr]. now intros ? [].
- right. split; [exact Hn|]. exists n, net. split; [|now split].
  rewrite Ht. apply in_or_app. now left.
Qed.

End CreateArguments.

Lemma create_requires_three_arguments_witness :
  CreateCluster.take_action
    (C := Script.demo)
    {| CreateCluster.name := Some "";
       CreateCluster.cluster_template := Some "tmpl";
       CreateCluster.image := Some "img";
       CreateCluster.description := None;
       CreateCluster.user_keypair := None;
       CreateCluster.neutron_network := None;
       CreateCluster.count := None;
       CreateCluster.public := false;
       CreateCluster.protected := false;
       CreateCluster.transient := false;
       CreateCluster.json := None;
       CreateCluster.wait := false |} []
  = (Raise (CommandError CreateCluster.missing_arguments), [], []).
Proof.
apply create_requires_three_arguments; [reflexivity|]. left. reflexivity.
Defined.

Lemma create_resolves_network_witness :
  let a := {| CreateCluster.name := Some "c";
              CreateCluster.cluster_template := Some "tmpl";
              CreateCluster.image := Some "img";
              CreateCluster.description := None;
              CreateCluster.user_keypair := None;
              CreateCluster.neutron_network := Some "private";
              CreateCluster.count := None;
              CreateCluster.public := false;
              CreateCluster.protected := false;
              CreateCluster.transient := false;
              CreateCluster.json := None;
              CreateCluster.wait := false |} in
  let w := [Ok Script.template_resource; Ok (PStr "img-1");
            Ok (PDict [("id", PStr "net-9")]);
            Ok (Script.cluster_record "c-1" "c")] in
  exists n net,
    In (Called (find_attr "networks" (PStr "private")) (Ok n))
       (trace (CreateCluster.take_action (C := Script.demo) a w)) /\
    Py.subscript n "id" = Ok net /\
    Py.dict_get "net_id"
      (CreateCluster.create_kwargs a (PStr "vanilla") (PStr "2.7.1")
                                   (PStr "t-1") (PStr "img-1") (PStr "net-9"))
    = Some net.
Proof.
cbv zeta.
destruct (create_resolves_network_when_given
            (C := Script.demo)
            {| CreateCluster.name := Some "c";
               CreateCluster.cluster_template := Some "tmpl";
               CreateCluster.image := Some "img";
               CreateCluster.description := None;
               CreateCluster.user_keypair := None;
               CreateCluster.neutron_network := Some "private";
               CreateCluster.count := None;
               CreateCluster.public := false;
               CreateCluster.protected := false;
               CreateCluster.transient := false;
               CreateCluster.json := None;
               CreateCluster.wait := false |}
            [Ok Script.template_resource; Ok (PStr "img-1");
             Ok (PDict [("id", PStr "net-9")]);
             Ok (Script.cluster_record "c-1" "c")]
            _ (Ok (Script.cluster_record "c-1" "c")) eq_refl
            ltac:(cbn; do 3 right; left; reflexivity))
  as [(Hn & _) | (_ & H)]; [discriminate Hn | exact H].
Defined.

(** ** The JSON document of [CreateCluster] *)

Section CreateDocument.
Context {World : Type} {C : Collaborators World}.

Lemma after_template_other_outcome a t (w : World) :
  (forall d, t <> PDict d) ->
  outcome (after_template a t w) = Raise TypeError \/
  outcome (after_template a t w) = Raise (AttributeError "pop").
Proof.
intros Ht. unfold after_template, bind, lift, CreateCluster.rename_network,
  CreateCluster.template_count, py_in.
destruct t as [| | |s|l|d]; cbn; auto.
- destruct (Py.contains "neutron_management_network" s); cbn; auto.
  destruct (Py.contains "count" s); cbn; auto.
- destruct (Py.list_mem (PStr "neutron_management_network") l); cbn; auto.
  destruct (Py.list_mem (PStr "count") l); cbn; auto.
- now destruct (Ht d).
Qed.

(** X6.  With [--json], a file whose JSON document is not an object (a
    list, a string, a number, [true], [null]) never reaches the create
    call: the only call made is the reading of the file, and the handler
    raises TypeError, or AttributeError for a string in which the key
    ['neutron_management_network'] occurs. *)
Theorem create_rejects_documents_that_are_not_objects
        a file (w w1 : World) blob t :
  CreateCluster.json a = Some file -> file <> "" ->
  perform (read_blob_file_contents file) w = (Ok (PStr blob), w1) ->
  json_loads blob = inl t ->
  (forall d, t <> PDict d) ->
  trace (CreateCluster.take_action a w)
  = [Called (read_blob_file_contents file) (Ok (PStr blob))] /\
  (outcome (CreateCluster.take_action a w) = Raise TypeError \/
   outcome (CreateCluster.take_action a w) = Raise (AttributeError "pop")).
Proof.
intros Hj Hf Hr Hl Ht.
assert (read_template file w
        = (Ok t, w1, [Called (read_blob_file_contents file) (Ok (PStr blob))]))
  as Hread.
{ rewrite read_template_run. cbv zeta. rewrite Hr. cbn [fst snd].
  now rewrite Hl. }
assert (CreateCluster.create a w
        = (outcome (after_template a t w1), final (after_template a t w1),
           [Called (read_blob_file_contents file) (Ok (PStr blob))])) as Hb.
{ rewrite (create_json _ _ Hj Hf), (bind_ok _ _ _ _ _ _ Hread).
  now rewrite (after_template_other a t w1 Ht). }
unfold CreateCluster.take_action.
destruct (after_template_other_outcome a t w1 Ht) as [E|E]; rewrite E in Hb;
  rewrite (bind_raise _ _ _ _ _ _ Hb); (split; [reflexivity|]); auto.
Qed.

(** X7.  [--count] is not ignored with [--json]: when the document has
    no ['count'], the count of the command line is not sent to the service
    but still decides the branch.  With a count above 1 and the response
    for one cluster (no ['clusters']), the handler raises
    KeyError('clusters') after the create call. *)
Theorem count_flag_with_json_takes_batch_branch
        a file (w w1 w2 : World) blob d n resp :
  CreateCluster.json a = Some file -> file <> "" ->
  perform (read_blob_file_contents file) w = (Ok (PStr blob), w1) ->
  json_loads blob = inl (PDict d) ->
  Py.dict_get "count" d = None ->
  CreateCluster.count a = Some n -> 1 < n ->
  perform (clusters_create (network_renamed d)) w1 = (Ok (PDict resp), w2) ->
  Py.dict_get "clusters" resp = None ->
  Py.dict_get "count" (network_renamed d) = None /\
  CreateCluster.take_action a w
  = (Raise (KeyError "clusters"), w2,
     [Called (read_blob_file_contents file) (Ok (PStr blob));
      Called (clusters_create (network_renamed d)) (Ok (PDict resp))]).
Proof.
intros Hj Hf Hr Hl Hc Hn Hgt Hcr Hk.
assert (Py.dict_get "count" (network_renamed d) = None) as Hc'
    by now rewrite count_after_renaming.
split; [exact Hc'|].
assert (read_template file w
        = (Ok (PDict d), w1,
           [Called (read_blob_file_contents file) (Ok (PStr blob))]))
  as Hread.
{ rewrite read_template_run. cbv zeta. rewrite Hr. cbn [fst snd].
  now rewrite Hl. }
assert (after_template a (PDict d) w1
        = (Ok (PDict resp, PInt n), w2,
           [Called (clusters_create (network_renamed d)) (Ok (PDict resp))]))
  as Hafter.
{ unfold after_template, bind, lift. rewrite rename_network_dict.
  unfold CreateCluster.template_count, py_in, Py.dict_in, Py.subscript.
  rewrite Hc'. cbn. unfold do_call. rewrite Hcr. cbn.
  unfold CreateCluster.count_value. now rewrite Hn. }
assert (CreateCluster.create a w
        = (Ok (PDict resp, PInt n), w2,
           [Called (read_blob_file_contents file) (Ok (PStr blob));
            Called (clusters_create (network_renamed d)) (Ok (PDict resp))]))
  as Hcreate.
{ rewrite (create_json _ _ Hj Hf), (bind_ok _ _ _ _ _ _ Hread), Hafter.
  reflexivity. }
rewrite (take_action_after_create _ _ _ _ _ _ Hcreate). cbv zeta.
assert (CreateCluster.count_gt_1 (PInt n) = Ok true) as Hbig.
{ rewrite count_gt_1_int. f_equal. apply Z.ltb_lt. exact Hgt. }
unfold bind at 1 2 3. rewrite lift_run, Hbig.
unfold CreateCluster.batch. unfold bind at 1 2 3. rewrite lift_run.
unfold Py.subscript. rewrite Hk. reflexivity.
Qed.

End CreateDocument.

Lemma create_rejects_documents_witness :
  let outside := Script.outside [("list.json", "LIST")]
                                [("LIST", PList [PInt 1; PInt 2])] in
  let run := CreateCluster.take_action
               (C := outside)
               (Script.create_args None (Some "list.json") false) [] in
  trace run = [Called (read_blob_file_contents "list.json") (Ok (PStr "LIST"))]
  /\ (outcome run = Raise TypeError \/
      outcome run = Raise (AttributeError "pop")).
Proof.
cbv zeta.
apply (create_rejects_documents_that_are_not_objects
         (C := Script.outside [("list.json", "LIST")]
                              [("LIST", PList [PInt 1; PInt 2])])
         (Script.create_args None (Some "list.json") false)
         "list.json" [] [] "LIST" (PList [PInt 1; PInt 2]));
  try reflexivity; discriminate.
Defined.

Lemma count_flag_with_json_witness :
  CreateCluster.take_action
    (C := Script.demo)
    (Script.create_args (Some 3) (Some "cluster.json") false)
    [Ok (Script.cluster_record "c-1" "from-json")]
  = (Raise (KeyError "clusters"), [],
     [Called (read_blob_file_contents "cluster.json") (Ok (PStr "TEMPLATE"));
      Called (clusters_create (network_renamed Script.template_fields))
             (Ok (Script.cluster_record "c-1" "from-json"))]).
Proof.
refine (proj2 (count_flag_with_json_takes_batch_branch
                 (C := Script.demo)
                 (Script.create_args (Some 3) (Some "cluster.json") false)
                 "cluster.json"
                 [Ok (Script.cluster_record "c-1" "from-json")]
                 [Ok (Script.cluster_record "c-1" "from-json")]
                 [] "TEMPLATE" Script.template_fields 3
                 (Script.cluster_fields "c-1" "from-json")
                 eq_refl _ eq_refl eq_refl eq_refl eq_refl _ eq_refl eq_refl)).
- discriminate.
- reflexivity.
Defined.

(** ** What is displayed after a wait *)

Section Refetch.
Context {World : Type} {C : Collaborators World}.

Lemma to_dict_inv r d : Py.to_dict r = Ok d -> d = r.
Proof. destruct r; cbn; intros E; inversion E; reflexivity. Qed.

Lemma single_displays a data (w1 w2 : World) v t :
  CreateCluster.single a data w1 = (Ok v, w2, t) ->
  (CreateCluster.wait a = false -> show_cluster data = Ok v) /\
  (CreateCluster.wait a = true ->
   exists id r,
     Py.subscript data "id" = Ok id /\
     In (Called (clusters_get id) (Ok r)) t /\
     show_cluster r = Ok v).
Proof.
unfold CreateCluster.single. intros E.
destruct (CreateCluster.wait a).
- split; [discriminate|]. intros _.
  apply bind_inv in E. destruct E as (d & w3 & t3 & t4 & E1 & E2 & ->).
  apply bind_inv in E1. destruct E1 as (id & ? & ? & ? & Ei & E1 & ->).
  apply bind_inv in E1. destruct E1 as ([] & ? & ? & ? & _ & E1 & ->).
  apply bind_inv in E1. destruct E1 as (id' & ? & ? & ? & Ei' & E1 & ->).
  apply bind_inv in E1. destruct E1 as (r & ? & ? & ? & Ec & E1 & ->).
  rewrite lift_run in Ei, Ei', E1, E2.
  injection Ei as Hi Hw Ht. injection Ei' as Hi' Hw' Ht'.
  injection E1 as Hd Hw1 Ht1. injection E2 as Hs Hw2 Ht2.
  rewrite do_call_run in Ec. injection Ec as Hr Hw3 Ht3.
  apply to_dict_inv in Hd. subst d.
  rewrite Hi in Hi'. injection Hi' as Hi'. subst id'.
  exists id, r. split; [exact Hi|]. split; [|exact Hs].
  subst. rewrite Hr. rewrite ?app_nil_r. do 2 (apply in_or_app; right). cbn. auto.
- split; [|discriminate]. intros _.
  apply bind_inv in E. destruct E as (d & w3 & t3 & t4 & E1 & E2 & ->).
  injection E1 as Hd Hw Ht. subst d. rewrite lift_run in E2.
  now injection E2 as Hs _ _.
Qed.

(** X8.  [CreateCluster] for one cluster: without [--wait] the record
    displayed is the create response; with [--wait] it is the record
    fetched again with [client.clusters.get] for the response's ['id'],
    after the wait, whether or not the wait succeeded. *)
Theorem create_displays_refetched_record a (w w1 : World) data c t1 v :
  CreateCluster.create a w = (Ok (data, c), w1, t1) ->
  CreateCluster.count_gt_1 c = Ok false ->
  outcome (CreateCluster.take_action a w) = Ok v ->
  (CreateCluster.wait a = false -> show_cluster data = Ok v) /\
  (CreateCluster.wait a = true ->
   exists id r,
     Py.subscript data "id" = Ok id /\
     In (Called (clusters_get id) (Ok r))
        (trace (CreateCluster.take_action a w)) /\
     show_cluster r = Ok v).
Proof.
intros Ec Hc Hv.
rewrite (take_action_after_create _ _ _ _ _ _ Ec) in *. cbv zeta in *.
unfold outcome at 1 in Hv. unfold trace at 1. cbn [fst snd] in *.
rewrite outcome_bind, lift_run, Hc in Hv. rewrite trace_bind, lift_run, Hc.
cbn [outcome final trace fst snd app] in *.
destruct (CreateCluster.single a data w1) as [[o w2] t] eqn:S.
cbn in Hv. subst o.
destruct (single_displays _ _ _ _ _ _ S) as [H1 H2].
split; [exact H1|]. intros Hw.
destruct (H2 Hw) as (id & r & Hi & Hin & Hs).
exists id, r. split; [exact Hi|]. split; [|exact Hs].
apply in_or_app. now right.
Qed.

End Refetch.

Lemma create_displays_refetched_witness :
  exists id r,
    Py.subscript (Script.cluster_record "c-1" "c") "id" = Ok id /\
    In (Called (clusters_get id) (Ok r))
       (trace (CreateCluster.take_action
                 (C := Script.demo)
                 (Script.create_args None None true)
                 [Ok Script.template_resource; Ok (PStr "img-1");
                  Ok (Script.cluster_record "c-1" "c");
                  Ok (PBool false);
                  Ok (Script.cluster_record "c-1" "c-after")])) /\
    show_cluster (C := Script.demo) r
    = show_cluster (C := Script.demo) (Script.cluster_record "c-1" "c-after").
Proof.
destruct (create_displays_refetched_record
            (C := Script.demo)
            (Script.create_args None None true)
            [Ok Script.template_resource; Ok (PStr "img-1");
             Ok (Script.cluster_record "c-1" "c");
             Ok (PBool false);
             Ok (Script.cluster_record "c-1" "c-after")]
            _ (Script.cluster_record "c-1" "c") PNone _ _
            eq_refl eq_refl eq_refl) as [_ H].
destruct (H eq_refl) as (id & r & Hi & Hin & Hs).
exists id, r. split; [exact Hi|]. split; [exact Hin|].
rewrite Hs. reflexivity.
Defined.

(** ** Deleting several clusters *)

Section DeleteSeveral.
Context {World : Type} {C : Collaborators World}.

Lemma mapM_cons_ok {A B} (f : A -> M World B) x r (w w1 : World) y t1 :
  f x w = (Ok y, w1, t1) ->
  mapM f (x :: r) w =
  (match outcome (mapM f r w1) with
   | Ok ys => Ok (y :: ys)
   | Raise e => Raise e
   end, final (mapM f r w1), (t1 ++ trace (mapM f r w1))%list).
Proof.
intros E. rewrite mapM_cons. unfold bind at 1. rewrite E.
unfold bind, ret. destruct (mapM f r w1) as [[[ys|e] w2] t2]; cbn.
- now rewrite app_nil_r.
- reflexivity.
Qed.

Lemma mapM_cons_raise {A B} (f : A -> M World B) x r (w w1 : World) e t1 :
  f x w = (Raise e, w1, t1) -> mapM f (x :: r) w = (Raise e, w1, t1).
Proof. intros E. rewrite mapM_cons. now apply bind_raise. Qed.

(** The first loop: the arguments done, then either nothing more or the
    call that failed for the next argument. *)
Lemma deletes_stop_at_failure cs (w : World) :
  exists done rest t,
    cs = (done ++ rest)%list /\
    resolved_then_deleted done t /\
    ((rest = [] /\
      trace (mapM DeleteCluster.delete_one cs w) = t /\
      exists ids, outcome (mapM DeleteCluster.delete_one cs w) = Ok ids) \/
     (exists c rest' e,
         rest = c :: rest' /\
         outcome (mapM DeleteCluster.delete_one cs w) = Raise e /\
         (trace (mapM DeleteCluster.delete_one cs w)
          = (t ++ [Called (get_resource_id clusters (PStr c)) (Raise e)])%list
          \/
          exists id,
            trace (mapM DeleteCluster.delete_one cs w)
            = (t ++ [Called (get_resource_id clusters (PStr c)) (Ok id);
                     Called (clusters_delete id) (Raise e)])%list))).
Proof.
revert w. induction cs as [|c cs IH]; intros w.
- exists [], [], []. split; [reflexivity|]. split; [constructor|].
  left. split; [reflexivity|]. split; [reflexivity|]. now exists [].
- pose proof (delete_one_run c w) as R. cbv zeta in R.
  destruct (perform (get_resource_id clusters (PStr c)) w) as [[id|e] w1];
    cbn [fst snd] in R.
  2:{ exists [], (c :: cs), []. split; [reflexivity|]. split; [constructor|].
      right. exists c, cs, e. split; [reflexivity|].
      rewrite (mapM_cons_raise _ _ _ _ _ _ _ R). split; [reflexivity|].
      now left. }
  destruct (perform (clusters_delete id) w1) as [[r|e] w2]; cbn [fst snd] in R.
  2:{ exists [], (c :: cs), []. split; [reflexivity|]. split; [constructor|].
      right. exists c, cs, e. split; [reflexivity|].
      rewrite (mapM_cons_raise _ _ _ _ _ _ _ R). split; [reflexivity|].
      right. now exists id. }
  rewrite (mapM_cons_ok _ _ _ _ _ _ _ R). cbn [outcome trace fst snd].
  destruct (IH w2) as (done & rest & t & -> & Hd & H).
  exists (c :: done), rest,
    (Called (get_resource_id clusters (PStr c)) (Ok id)
            :: Called (clusters_delete id) (Ok r) :: t).
  split; [reflexivity|]. split; [now constructor|].
  destruct H as [(-> & Ht & ids & Ho) | (c' & rest' & e & -> & Ho & Ht)].
  + left. split; [reflexivity|]. rewrite Ht, Ho. split; [reflexivity|].
    now eexists.
  + right. exists c', rest', e. split; [reflexivity|]. rewrite Ho.
    split; [reflexivity|].
    destruct Ht as [Ht | (id' & Ht)]; rewrite Ht; [now left|].
    right. now exists id'.
Qed.

(** X9.  [DeleteCluster] deletes the clusters one after the other and
    undoes nothing: in every run, the arguments before the first one that
    fails have been resolved and deleted; when the lookup or the delete of
    an argument raises, the handler ends with that exception, the
    arguments after it are not touched and no wait is made; the waits
    come only after every argument has been deleted. *)
Theorem delete_stops_at_first_failure a (w : World) :
  exists done rest t tail,
    DeleteCluster.cluster a = (done ++ rest)%list /\
    trace (DeleteCluster.take_action a w) = (t ++ tail)%list /\
    resolved_then_deleted done t /\
    ((rest = [] /\
      Forall (fun e => is_wait e = true \/ is_log e = true) tail) \/
     (exists c rest' e,
         rest = c :: rest' /\
         outcome (DeleteCluster.take_action a w) = Raise e /\
         (tail = [Called (get_resource_id clusters (PStr c)) (Raise e)] \/
          exists id,
            tail = [Called (get_resource_id clusters (PStr c)) (Ok id);
                    Called (clusters_delete id) (Raise e)]))).
Proof.
destruct (deletes_stop_at_failure (DeleteCluster.cluster a) w)
  as (done & rest & t & Hc & Hd & H).
destruct (delete_trace a w) as (waits & Ht & Hw).
destruct H as [(-> & Hm & ids & Ho) | (c & rest' & e & -> & Ho & Hm)].
- exists done, [], t, waits. split; [exact Hc|]. rewrite Ht, Hm.
  split; [reflexivity|]. split; [exact Hd|]. left. split; [reflexivity|].
  eapply Forall_impl; [|exact Hw]. now intros ? [].
- assert (outcome (DeleteCluster.take_action a w) = Raise e /\
          trace (DeleteCluster.take_action a w)
          = trace (mapM DeleteCluster.delete_one (DeleteCluster.cluster a) w))
    as [Eo Et].
  { unfold DeleteCluster.take_action.
    rewrite outcome_bind, trace_bind, Ho. split; [reflexivity|].
    apply app_nil_r. }
  rewrite Et.
  destruct Hm as [Hm | (id & Hm)].
  + exists done, (c :: rest'), t,
      [Called (get_resource_id clusters (PStr c)) (Raise e)].
    split; [exact Hc|]. split; [exact Hm|]. split; [exact Hd|].
    right. exists c, rest', e. split; [reflexivity|]. split; [exact Eo|].
    now left.
  + exists done, (c :: rest'), t,
      [Called (get_resource_id clusters (PStr c)) (Ok id);
       Called (clusters_delete id) (Raise e)].
    split; [exact Hc|]. split; [exact Hm|]. split; [exact Hd|].
    right. exists c, rest', e. split; [reflexivity|]. split; [exact Eo|].
    right. now exists id.
Qed.

End DeleteSeveral.

Lemma deleted_app t t' : deleted (t ++ t') = (deleted t ++ deleted t')%list.
Proof. apply flat_map_app. Qed.

Lemma waited_app t t' : waited (t ++ t') = (waited t ++ waited t')%list.
Proof. apply flat_map_app. Qed.

Lemma count_app p t t' : count p (t ++ t') = (count p t + count p t')%nat.
Proof. unfold count. now rewrite filter_app, length_app. Qed.

Section DeleteWaits.
Context {World : Type} {C : Collaborators World}.

Lemma deletes_ids cs (w w' : World) ids t :
  mapM DeleteCluster.delete_one cs w = (Ok ids, w', t) ->
  deleted t = ids /\ waited t = [] /\ count is_log t = 0%nat /\
  count is_failed_delete_wait t = 0%nat /\ length ids = length cs.
Proof.
revert w ids t. induction cs as [|c cs IH]; intros w ids t E.
- inversion E. now subst.
- pose proof (delete_one_run c w) as R. cbv zeta in R.
  destruct (perform (get_resource_id clusters (PStr c)) w) as [[id|e] w1];
    cbn [fst snd] in R.
  2:{ rewrite (mapM_cons_raise _ _ _ _ _ _ _ R) in E. discriminate. }
  destruct (perform (clusters_delete id) w1) as [[r|e] w2]; cbn [fst snd] in R.
  2:{ rewrite (mapM_cons_raise _ _ _ _ _ _ _ R) in E. discriminate. }
  rewrite (mapM_cons_ok _ _ _ _ _ _ _ R) in E.
  destruct (mapM DeleteCluster.delete_one cs w2) as [[[ys|e] w3] t3] eqn:M;
    cbn in E; [|discriminate].
  injection E as <- <- <-.
  destruct (IH _ _ _ M) as (Hd & Hw & Hl & Hf & Hn).
  unfold deleted, waited, count in *. cbn. rewrite Hd, Hw. repeat split; auto.
Qed.

Lemma wait_one_run id (w : World) :
  DeleteCluster.wait_one id w =
  let p := perform (wait_for_delete id) w in
  (match fst p with Ok _ => Ok tt | Raise e => Raise e end, snd p,
   Called (wait_for_delete id) (fst p)
          :: match fst p with
             | Ok v => if Py.truthy v then []
                       else [LogError DeleteCluster.deleting_error id]
             | Raise _ => []
             end).
Proof.
unfold DeleteCluster.wait_one, bind, do_call, log_error, ret. cbv zeta.
destruct (perform (wait_for_delete id) w) as [[v|e] w1]; [|reflexivity].
cbn. now destruct (Py.truthy v).
Qed.

Lemma waits_run ids (w : World) :
  let run := for_each DeleteCluster.wait_one ids w in
  deleted (trace run) = [] /\
  count is_log (trace run) = count is_failed_delete_wait (trace run) /\
  (forall x, outcome run = Ok x -> waited (trace run) = ids).
Proof.
cbv zeta. revert w. induction ids as [|id r IH]; intros w.
- repeat split.
- cbn [for_each]. rewrite trace_bind, outcome_bind, wait_one_run. cbv zeta.
  cbn [trace outcome final fst snd].
  destruct (IH (snd (perform (wait_for_delete id) w))) as (Hd & Hl & Hw).
  destruct (fst (perform (wait_for_delete id) w)) as [v|e].
  + rewrite deleted_app, waited_app, !count_app, Hd.
    destruct (Py.truthy v) eqn:T; unfold count; cbn; rewrite ?T; cbn;
      fold (count is_log
              (trace (for_each DeleteCluster.wait_one r
                               (snd (perform (wait_for_delete id) w)))));
      fold (count is_failed_delete_wait
              (trace (for_each DeleteCluster.wait_one r
                               (snd (perform (wait_for_delete id) w)))));
      rewrite Hl; repeat split; intros x Hx; f_equal; eauto.
  + cbn. repeat split. discriminate.
Qed.

(** X10.  Without [--wait], [DeleteCluster] neither waits nor logs.
    With [--wait], in a run that returns, it has waited for the deletion
    of exactly the ids it deleted, in the same order, one per argument,
    and has logged one error for each wait that came back false. *)
Theorem delete_waits_for_what_it_deleted a (w : World) :
  (DeleteCluster.wait a = false ->
   count is_wait (trace (DeleteCluster.take_action a w)) = 0%nat /\
   count is_log (trace (DeleteCluster.take_action a w)) = 0%nat) /\
  (DeleteCluster.wait a = true ->
   forall v, outcome (DeleteCluster.take_action a w) = Ok v ->
     waited (trace (DeleteCluster.take_action a w))
     = deleted (trace (DeleteCluster.take_action a w)) /\
     length (deleted (trace (DeleteCluster.take_action a w)))
     = length (DeleteCluster.cluster a) /\
     count is_log (trace (DeleteCluster.take_action a w))
     = count is_failed_delete_wait (trace (DeleteCluster.take_action a w))).
Proof.
split.
- intros Hw.
  assert (always (fun e => is_wait e = false /\ is_log e = false)
                 (DeleteCluster.take_action a)) as Ha.
  { unfold DeleteCluster.take_action, DeleteCluster.delete_one. rewrite Hw.
    always_tac; split; reflexivity. }
  unfold count. split; rewrite filter_none; try reflexivity;
    (eapply Forall_impl; [|apply (Ha w)]); now intros ? [].
- intros Hw v Hv. unfold DeleteCluster.take_action in *. rewrite Hw in *.
  rewrite outcome_bind in Hv. rewrite !trace_bind.
  destruct (mapM DeleteCluster.delete_one (DeleteCluster.cluster a) w)
    as [[[ids|e] w1] t] eqn:M; cbn [outcome trace final fst snd] in *;
    [|discriminate].
  destruct (deletes_ids _ _ _ _ _ M) as (Hd & Hwt & Hl & Hf & Hn).
  rewrite outcome_bind in Hv.
  destruct (waits_run ids w1) as (Wd & Wl & Ww). cbv zeta in Wd, Wl, Ww.
  destruct (outcome (for_each DeleteCluster.wait_one ids w1)) as [[]|e] eqn:O;
    [|discriminate].
  rewrite trace_bind, O. cbn [trace ret snd]. rewrite !app_nil_r.
  rewrite waited_app, deleted_app, !count_app, Hd, Hwt, Wd, Hl, Hf, Wl,
    (Ww tt eq_refl), app_nil_r.
  repeat split; auto.
Qed.

End DeleteWaits.

Lemma delete_waits_witness :
  let run := DeleteCluster.take_action
               (C := Script.demo)
               {| DeleteCluster.cluster := ["a"; "b"];
                  DeleteCluster.wait := true |}
               [Ok (PStr "id-a"); Ok PNone; Ok (PStr "id-b"); Ok PNone;
                Ok (PBool true); Ok (PBool false)] in
  waited (trace run) = deleted (trace run) /\
  length (deleted (trace run)) = 2%nat /\
  count is_log (trace run) = count is_failed_delete_wait (trace run).
Proof.
cbv zeta.
apply (proj2 (delete_waits_for_what_it_deleted
                (C := Script.demo)
                {| DeleteCluster.cluster := ["a"; "b"];
                   DeleteCluster.wait := true |} _) eq_refl PNone).
reflexivity.
Defined.

(** ** The arguments of [ScaleCluster] *)

Lemma split_colon_without s : has_colon s = false -> Py.split_colon s = [s].
Proof.
induction s as [|c s IH]; cbn; [reflexivity|].
destruct (Ascii.eqb c ":"); cbn; [discriminate|].
intros H. now rewrite (IH H).
Qed.

Lemma split_colon_with s :
  has_colon s = true -> exists k v, Py.split_colon s = [k; v].
Proof.
induction s as [|c s IH]; cbn; [discriminate|].
destruct (Ascii.eqb c ":"); cbn.
- intros _. now exists "", s.
- intros H. destruct (IH H) as (k & v & ->). now exists (String c k), v.
Qed.

Lemma dict_of_pairs_without acc l s :
  In s l -> has_colon s = false ->
  exists msg, Py.dict_of_pairs acc (map Py.split_colon l) = Raise (ValueError msg).
Proof.
revert acc. induction l as [|x r IH]; intros acc Hin Hs; [destruct Hin|].
cbn [map]. destruct (has_colon x) eqn:Hx.
- destruct (split_colon_with x Hx) as (k & v & ->). cbn.
  destruct Hin as [->|Hin]; [congruence|]. now apply IH.
- rewrite (split_colon_without x Hx). cbn. now eexists.
Qed.

Lemma dict_of_pairs_with acc l :
  (forall s, In s l -> has_colon s = true) ->
  exists items, Py.dict_of_pairs acc (map Py.split_colon l) = Ok items.
Proof.
revert acc. induction l as [|x r IH]; intros acc Hl; cbn [map].
- now exists acc.
- destruct (split_colon_with x (Hl x (or_introl eq_refl))) as (k & v & ->).
  cbn. apply IH. intros s Hs. apply Hl. now right.
Qed.

Section ScaleArguments.
Context {World : Type} {C : Collaborators World}.

Lemma scale_with_json a cluster file (w1 : World) :
  ScaleCluster.json a = Some file -> file <> "" ->
  let rd := perform (read_blob_file_contents file) w1 in
  trace (ScaleCluster.scale a cluster w1) =
  Called (read_blob_file_contents file) (fst rd)
  :: match fst rd with
     | Ok (PStr blob) =>
         match json_loads blob, Py.getattr cluster "id" with
         | inl t, Ok id =>
             [Called (clusters_scale id t)
                     (fst (perform (clusters_scale id t) (snd rd)))]
         | _, _ => []
         end
     | _ => []
     end.
Proof.
intros Hj Hf. cbv zeta. unfold ScaleCluster.scale.
rewrite Hj, (truthy_some _ Hf).
rewrite trace_bind, read_template_run. cbv zeta.
cbn [trace outcome final fst snd app].
destruct (perform (read_blob_file_contents file) w1) as [[blob|e] w2];
  cbn [fst snd]; [|reflexivity].
destruct blob as [| | |blob| |]; try reflexivity.
destruct (json_loads blob) as [t|e]; [|reflexivity].
rewrite trace_bind, lift_run. cbn [trace outcome final fst snd app].
destruct (Py.getattr cluster "id") as [id|e]; [|reflexivity].
rewrite trace_bind, do_call_run. cbn [trace outcome final fst snd app].
now destruct (fst (perform (clusters_scale id t) w2)).
Qed.

(** X11.  [ScaleCluster] with [--json]: the object of a scale call is
    the document parsed from the file, as it is, and [--node-groups] is
    not looked at: no node group template is resolved. *)
Theorem scale_sends_json_document a file (w : World) :
  ScaleCluster.json a = Some file -> file <> "" ->
  (forall id obj r,
      In (Called (clusters_scale id obj) r)
         (trace (ScaleCluster.take_action a w)) ->
      exists blob,
        In (Called (read_blob_file_contents file) (Ok (PStr blob)))
           (trace (ScaleCluster.take_action a w)) /\
        json_loads blob = inl obj) /\
  count is_template_lookup (trace (ScaleCluster.take_action a w)) = 0%nat.
Proof.
intros Hj Hf. split.
- intros id obj r. unfold ScaleCluster.take_action.
  rewrite trace_bind, do_call_run. cbn [trace outcome final fst snd app].
  destruct (perform (get_resource clusters _) w) as [[cluster|e] w1];
    cbn [fst snd]; intros [Hin|Hin]; try discriminate; try contradiction.
  rewrite trace_bind in Hin |- *.
  assert (In (Called (clusters_scale id obj) r)
             (trace (ScaleCluster.scale a cluster w1))) as Hs.
  { apply in_app_or in Hin. destruct Hin as [Hin|Hin]; [exact Hin|].
    destruct (outcome (ScaleCluster.scale a cluster w1)) as [data|];
      [|contradiction].
    pose proof (always_in _ _ _ _ (after_scale_never_scales a cluster data) Hin).
    discriminate. }
  clear Hin. rewrite (scale_with_json _ _ _ _ Hj Hf) in Hs |- *.
  cbv zeta in *.
  destruct Hs as [Hs|Hs]; [discriminate|].
  destruct (fst (perform (read_blob_file_contents file) w1))
    as [[| | |blob| |]|]; try contradiction.
  destruct (json_loads blob) as [t|] eqn:J; [|contradiction].
  destruct (Py.getattr cluster "id") as [id'|]; [|contradiction].
  destruct Hs as [Hs|[]]. injection Hs as -> -> _.
  exists blob. split; [|exact J]. right. left. reflexivity.
- apply never_count.
  unfold ScaleCluster.take_action, ScaleCluster.scale.
  rewrite Hj, (truthy_some _ Hf). unfold read_template, wait_or_log.
  never_tac.
Qed.

(** X12.  [ScaleCluster] without [--json], once the cluster is found:
    without [--node-groups] the handler raises TypeError, and with an
    element that has no colon it raises ValueError, in both cases having
    made no other call than the lookup of the cluster; when every element
    has a colon the pairs make a dict. *)
Theorem scale_rejects_malformed_node_groups a (w w1 : World) cluster :
  Py.truthy_opt (ScaleCluster.json a) = false ->
  perform (get_resource clusters (PStr (ScaleCluster.cluster a))) w
  = (Ok cluster, w1) ->
  (ScaleCluster.node_groups a = None ->
   ScaleCluster.take_action a w
   = (Raise TypeError, w1,
      [Called (get_resource clusters (PStr (ScaleCluster.cluster a)))
              (Ok cluster)])) /\
  (forall l s,
      ScaleCluster.node_groups a = Some l -> In s l -> has_colon s = false ->
      exists msg,
        ScaleCluster.take_action a w
        = (Raise (ValueError msg), w1,
           [Called (get_resource clusters (PStr (ScaleCluster.cluster a)))
                   (Ok cluster)])) /\
  (forall l,
      ScaleCluster.node_groups a = Some l ->
      (forall s, In s l -> has_colon s = true) ->
      exists items, ScaleCluster.scale_node_groups a = Ok items).
Proof.
intros Hj Hc.
assert (forall e,
           ScaleCluster.scale_node_groups a = Raise e ->
           ScaleCluster.take_action a w
           = (Raise e, w1,
              [Called (get_resource clusters (PStr (ScaleCluster.cluster a)))
                      (Ok cluster)])) as Hfail.
{ intros e He. unfold ScaleCluster.take_action.
  erewrite bind_ok by (unfold do_call; rewrite Hc; reflexivity).
  assert (ScaleCluster.scale a cluster w1 = (Raise e, w1, [])) as E.
  { unfold ScaleCluster.scale. rewrite Hj. apply bind_raise.
    now rewrite lift_run, He. }
  erewrite (bind_raise (ScaleCluster.scale a cluster)) by exact E.
  reflexivity. }
repeat apply conj.
- intros Hn. apply Hfail. unfold ScaleCluster.scale_node_groups.
  now rewrite Hn.
- intros l s Hn Hin Hs.
  destruct (dict_of_pairs_without [] l s Hin Hs) as (msg & E).
  exists msg. apply Hfail. unfold ScaleCluster.scale_node_groups.
  now rewrite Hn.
- intros l Hn Hl. unfold ScaleCluster.scale_node_groups. rewrite Hn.
  now apply dict_of_pairs_with.
Qed.






End ScaleArguments.

Lemma scale_sends_json_document_witness :
  let run := ScaleCluster.take_action
               (C := Script.demo)
               {| ScaleCluster.cluster := "c";
                  ScaleCluster.node_groups := Some ["worker:3"];
                  ScaleCluster.json := Some "cluster.json";
                  ScaleCluster.wait := false |}
               [Ok (Script.cluster_record "c-1" "c");
                Ok (Script.cluster_record "c-1" "c")] in
  (exists blob,
      In (Called (read_blob_file_contents "cluster.json") (Ok (PStr blob)))
         (trace run) /\
      json_loads (Collaborators := Script.demo) blob = inl Script.template_doc) /\
  count is_template_lookup (trace run) = 0%nat.
Proof.
cbv zeta.
destruct (scale_sends_json_document
            (C := Script.demo)
            {| ScaleCluster.cluster := "c";
               ScaleCluster.node_groups := Some ["worker:3"];
               ScaleCluster.json := Some "cluster.json";
               ScaleCluster.wait := false |}
            "cluster.json"
            [Ok (Script.cluster_record "c-1" "c");
             Ok (Script.cluster_record "c-1" "c")]
            eq_refl ltac:(discriminate)) as [H1 H2].
split; [|exact H2].
apply (H1 (PStr "c-1") Script.template_doc
          (Ok (Script.cluster_record "c-1" "c"))).
cbn. do 2 right. left. reflexivity.
Defined.

Lemma scale_rejects_malformed_witness :
  exists msg,
    ScaleCluster.take_action
      (C := Script.demo)
      {| ScaleCluster.cluster := "c";
         ScaleCluster.node_groups := Some ["worker:3"; "new"];
         ScaleCluster.json := None;
         ScaleCluster.wait := false |}
      [Ok (Script.cluster_record "c-1" "c")]
    = (Raise (ValueError msg), [],
       [Called (get_resource clusters (PStr "c"))
               (Ok (Script.cluster_record "c-1" "c"))]).
Proof.
destruct (scale_rejects_malformed_node_groups
            (C := Script.demo)
            {| ScaleCluster.cluster := "c";
               ScaleCluster.node_groups := Some ["worker:3"; "new"];
               ScaleCluster.json := None;
               ScaleCluster.wait := false |}
            [Ok (Script.cluster_record "c-1" "c")] []
            (Script.cluster_record "c-1" "c")
            eq_refl eq_refl) as (_ & H & _).
apply (H ["worker:3"; "new"] "new" eq_refl); [cbn; auto | reflexivity].
Defined.


(** ** What [ScaleCluster] displays *)

Section ScaleDisplay.
Context {World : Type} {C : Collaborators World}.

Lemma do_call_inv c (w w' : World) r t :
  do_call c w = (Ok r, w', t) -> t = [Called c (Ok r)].
Proof.
rewrite do_call_run. intros E. injection E as Hr _ <-. now rewrite Hr.
Qed.

Lemma scale_returns a cluster (w1 w2 : World) data t :
  ScaleCluster.scale a cluster w1 = (Ok data, w2, t) ->
  exists id obj resp,
    Py.getattr cluster "id" = Ok id /\
    In (Called (clusters_scale id obj) (Ok resp)) t /\
    if Py.truthy_opt (ScaleCluster.json a) then data = resp
    else Py.getattr resp "cluster" = Ok data.
Proof.
unfold ScaleCluster.scale. intros E.
destruct (Py.truthy_opt (ScaleCluster.json a)).
- apply bind_inv in E. destruct E as (tpl & ? & ? & ? & _ & E & ->).
  apply bind_inv in E. destruct E as (id & ? & ? & ? & Ei & E & ->).
  apply bind_inv in E. destruct E as (r & ? & ? & ? & Ec & E & ->).
  rewrite lift_run in Ei, E. injection Ei as Hi _ _. injection E as Hd _ _.
  apply do_call_inv in Ec. subst.
  exists id, tpl, r. split; [exact Hi|]. split; [|now apply to_dict_inv].
  do 2 (apply in_or_app; right). apply in_or_app; left. cbn. auto.
- apply bind_inv in E. destruct E as (items & ? & ? & ? & _ & E & ->).
  apply bind_inv in E. destruct E as (existing & ? & ? & ? & _ & E & ->).
  apply bind_inv in E. destruct E as (o & ? & ? & ? & _ & E & ->).
  apply bind_inv in E. destruct E as (id & ? & ? & ? & Ei & E & ->).
  apply bind_inv in E. destruct E as (r & ? & ? & ? & Ec & E & ->).
  rewrite lift_run in Ei, E. injection Ei as Hi _ _. injection E as Hd _ _.
  apply do_call_inv in Ec. subst.
  exists id, (PDict (ScaleCluster.request o)), r.
  split; [exact Hi|]. split; [|exact Hd].
  do 4 (apply in_or_app; right). apply in_or_app; left. cbn. auto.
Qed.

(** X14.  What a successful [ScaleCluster] displays.  With [--wait] it
    is the record fetched again with [clusters.get] under the id of the
    cluster that was looked up, whatever the wait returned, while the
    wait itself is on the ['id'] of the scale response.  Without
    [--wait] it is made from the scale response: the response itself
    with [--json], its [cluster] attribute otherwise. *)
Theorem scale_displays_response_or_refetched a (w : World) v :
  outcome (ScaleCluster.take_action a w) = Ok v ->
  exists cluster id obj resp data,
    In (Called (get_resource clusters (PStr (ScaleCluster.cluster a)))
               (Ok cluster))
       (trace (ScaleCluster.take_action a w)) /\
    Py.getattr cluster "id" = Ok id /\
    In (Called (clusters_scale id obj) (Ok resp))
       (trace (ScaleCluster.take_action a w)) /\
    (if Py.truthy_opt (ScaleCluster.json a) then data = resp
     else Py.getattr resp "cluster" = Ok data) /\
    if ScaleCluster.wait a then
      exists wid ok r,
        Py.subscript data "id" = Ok wid /\
        In (Called (wait_for_status wid) (Ok ok))
           (trace (ScaleCluster.take_action a w)) /\
        In (Called (clusters_get id) (Ok r))
           (trace (ScaleCluster.take_action a w)) /\
        show_cluster r = Ok v
    else show_cluster data = Ok v.
Proof.
unfold outcome.
destruct (ScaleCluster.take_action a w) as [[res w'] t] eqn:E.
cbn [fst trace snd]. intros ->.
unfold ScaleCluster.take_action in E.
apply bind_inv in E. destruct E as (cluster & w1 & ? & ? & Ec & E & ->).
apply bind_inv in E. destruct E as (data & w2 & t2 & ? & Es & E & ->).
apply bind_inv in E. destruct E as (shown & w3 & t3 & ? & Ew & E & ->).
apply do_call_inv in Ec. subst.
rewrite lift_run in E. injection E as Hs _ <-.
destruct (scale_returns _ _ _ _ _ _ Es) as (id & obj & resp & Hi & Hin & Hd).
exists cluster, id, obj, resp, data. cbn [app].
split; [cbn; auto|]. split; [exact Hi|].
split; [right; apply in_or_app; left; exact Hin|].
split; [exact Hd|].
destruct (ScaleCluster.wait a).
- apply bind_inv in Ew. destruct Ew as (wid & ? & ? & ? & Ei & Ew & ->).
  apply bind_inv in Ew. destruct Ew as ([] & ? & ? & ? & Eo & Ew & ->).
  apply bind_inv in Ew. destruct Ew as (id' & ? & ? & ? & Ei' & Ew & ->).
  apply bind_inv in Ew. destruct Ew as (r & ? & ? & ? & Eg & Ew & ->).
  rewrite lift_run in Ei, Ei', Ew.
  injection Ei as Hw _ <-. injection Ei' as Hi' _ <-. injection Ew as Ht _ <-.
  apply do_call_inv in Eg. subst.
  rewrite Hi in Hi'. injection Hi' as <-.
  apply to_dict_inv in Ht. subst shown.
  unfold wait_or_log in Eo.
  apply bind_inv in Eo. destruct Eo as (ok & ? & ? & ? & Eo & _ & ->).
  apply do_call_inv in Eo. subst.
  exists wid, ok, r. split; [exact Hw|].
  split; [|split; [|exact Hs]];
    repeat (rewrite in_app_iff || cbn [In]); auto 20.
- cbn in Ew. injection Ew as <- _ _. exact Hs.
Qed.

End ScaleDisplay.

Lemma scale_displays_witness :
  let run := ScaleCluster.take_action
               (C := Script.demo)
               {| ScaleCluster.cluster := "c";
                  ScaleCluster.node_groups := Some ["worker:5"];
                  ScaleCluster.json := None;
                  ScaleCluster.wait := true |}
               [Ok (Script.cluster_record "c-1" "c");
                Ok (PDict [("name", PStr "worker"); ("id", PStr "ng-2")]);
                Ok (PDict [("cluster", Script.cluster_record "c-1" "c")]);
                Ok (PBool false);
                Ok (Script.cluster_record "c-1" "c-after")] in
  exists cluster id wid ok r,
    Py.getattr cluster "id" = Ok id /\
    In (Called (wait_for_status wid) (Ok ok)) (trace run) /\
    In (Called (clusters_get id) (Ok r)) (trace run) /\
    show_cluster (C := Script.demo) r = outcome run.
Proof.
cbv zeta.
destruct (scale_displays_response_or_refetched
            (C := Script.demo)
            {| ScaleCluster.cluster := "c";
               ScaleCluster.node_groups := Some ["worker:5"];
               ScaleCluster.json := None;
               ScaleCluster.wait := true |}
            [Ok (Script.cluster_record "c-1" "c");
             Ok (PDict [("name", PStr "worker"); ("id", PStr "ng-2")]);
             Ok (PDict [("cluster", Script.cluster_record "c-1" "c")]);
             Ok (PBool false);
             Ok (Script.cluster_record "c-1" "c-after")]
            _ eq_refl)
  as (cluster & id & obj & resp & data & _ & Hi & _ & _ & H).
cbv beta iota delta [ScaleCluster.wait] in H.
destruct H as (wid & ok & r & _ & Hw & Hg & Hs).
exists cluster, id, wid, ok, r.
split; [exact Hi|]. split; [exact Hw|]. split; [exact Hg|].
rewrite Hs. reflexivity.
Defined.

(** ** The flags of [UpdateCluster] *)

Lemma flag_eqb_refl f : UpdateCluster.flag_eqb f f = true.
Proof. destruct f; reflexivity. Qed.

Lemma given_cons_r f x r : given f r = true -> given f (x :: r) = true.
Proof. unfold given. cbn [existsb]. intros ->. apply orb_true_r. Qed.

Lemma parse_rejects seen fs a0 :
  UpdateCluster.parse_flags seen fs a0 = None ->
  exists f g,
    UpdateCluster.conflict f = Some g /\
    given f fs = true /\
    given g seen || given g fs = true.
Proof.
revert seen a0. induction fs as [|x r IH]; intros seen a0 Hp; [discriminate|].
cbn [UpdateCluster.parse_flags] in Hp.
assert ((exists g, UpdateCluster.conflict x = Some g /\ given g seen = true) \/
        UpdateCluster.parse_flags (x :: seen) r (UpdateCluster.store x a0) = None)
  as [(g & Cx & Hg) | Hr].
{ destruct (UpdateCluster.conflict x) as [g|] eqn:Cx; [|now right].
  destruct (existsb (UpdateCluster.flag_eqb g) seen) eqn:S; [|now right].
  left. now exists g. }
- exists x, g. split; [exact Cx|]. split.
  + unfold given. cbn [existsb]. now rewrite flag_eqb_refl.
  + now rewrite Hg.
- destruct (IH _ _ Hr) as (f & g & Cf & Hf & Hg).
  exists f, g. split; [exact Cf|]. split; [now apply given_cons_r|].
  unfold given in *. cbn [existsb] in *.
  destruct (UpdateCluster.flag_eqb g x); cbn [orb] in *;
    [apply orb_true_r | exact Hg].
Qed.

(** X15.  The parser of [UpdateCluster] refuses a command line exactly
    when it has both [--public] and [--private], or both [--protected]
    and [--unprotected]; any other combination of the flags, in any
    order and with repetitions, is accepted. *)
Theorem update_parser_refuses_exclusive_flags c fs :
  UpdateCluster.get_parser c fs = None <->
  given UpdateCluster.f_public fs && given UpdateCluster.f_private fs
  || given UpdateCluster.f_protected fs && given UpdateCluster.f_unprotected fs
  = true.
Proof.
unfold UpdateCluster.get_parser. split.
- intros Hp. destruct (parse_rejects _ _ _ Hp) as (f & g & Cf & Hf & Hg).
  change (given g [] || given g fs) with (given g fs) in Hg.
  destruct f; try discriminate; injection Cf as <-; rewrite Hf, Hg;
    cbn [andb orb]; rewrite ?orb_true_r; reflexivity.
- intros H.
  destruct (UpdateCluster.parse_flags [] fs (UpdateCluster.defaults c))
    as [a|] eqn:Hp; [|reflexivity].
  pose proof (parse_exclusive _ _ _ _ Hp) as Hex.
  apply orb_true_iff in H. destruct H as [H|H];
    apply andb_true_iff in H; destruct H as [H1 H2].
  + destruct (Hex UpdateCluster.f_public UpdateCluster.f_private eq_refl H1)
      as [_ H3]. congruence.
  + destruct (Hex UpdateCluster.f_protected UpdateCluster.f_unprotected
                  eq_refl H1) as [_ H3]. congruence.
Qed.

(** ** The filters of [ListClusters] *)

Section ListFilters.
Context {World : Type} {C : Collaborators World}.

(** X16.  [ListClusters]: the search options sent to the service hold
    the plugin under [plugin_name] and the version under
    [hadoop_version], each only when its flag is given and not empty,
    and nothing else.  The name is not sent: when given and not empty it
    filters what the service returned, through [get_by_name_substring].
    The rows of the result are the properties of the records that are
    left, one row per record, for five columns, or seven with
    [--long]. *)
Theorem list_filters_and_rows a (w w1 : World) data v :
  perform (clusters_list (ListClusters.search_opts a)) w = (Ok data, w1) ->
  outcome (ListClusters.take_action a w) = Ok v ->
  (forall k x,
      Py.dict_get k (ListClusters.search_opts a) = Some x <->
      (k = "plugin_name" /\ Py.truthy_opt (ListClusters.plugin a) = true /\
       x = Py.of_opt (ListClusters.plugin a)) \/
      (k = "hadoop_version" /\ Py.truthy_opt (ListClusters.version a) = true /\
       x = Py.of_opt (ListClusters.version a))) /\
  exists shown records,
    (if Py.truthy_opt (ListClusters.name a)
     then exists n, ListClusters.name a = Some n /\
                    get_by_name_substring data n = Ok shown
     else shown = data) /\
    Py.iter shown = Ok records /\
    v = PList
          [prepare_column_headers
             (ListClusters.columns a)
             [("hadoop_version", "version"); ("default_image_id", "image")];
           PList (map (fun s => get_item_properties s (ListClusters.columns a))
                      records)] /\
    length (ListClusters.columns a)
    = if ListClusters.long a then 7%nat else 5%nat.
Proof.
intros Hc Hv. split.
- intros k x. unfold ListClusters.search_opts.
  destruct (Py.truthy_opt (ListClusters.plugin a));
    destruct (Py.truthy_opt (ListClusters.version a));
    cbn [app Py.dict_get]; split.
  all: repeat match goal with
         | |- context [String.eqb ?k' ?s] => destruct (String.eqb_spec k' s)
         end.
  all: try (intros E; injection E as <-).
  all: try (intros [(Hk & Ht & ->) | (Hk & Ht & ->)]).
  all: try discriminate; try congruence; auto.
- unfold outcome, ListClusters.take_action, bind, do_call, lift, ret in Hv.
  rewrite Hc in Hv.
  assert (length (ListClusters.columns a)
          = if ListClusters.long a then 7%nat else 5%nat) as Hl
      by (unfold ListClusters.columns; now destruct (ListClusters.long a)).
  destruct (ListClusters.name a) as [n|] eqn:Hn.
  + destruct (Py.truthy_opt (Some n)) eqn:Ht.
    * destruct (get_by_name_substring data n) as [shown|e] eqn:Hg;
        [|discriminate].
      destruct (Py.iter shown) as [records|e] eqn:Hi; [|discriminate].
      cbn in Hv. injection Hv as <-.
      exists shown, records. split; [now exists n|]. repeat split; auto.
    * destruct (Py.iter data) as [records|e] eqn:Hi; [|discriminate].
      cbn in Hv. injection Hv as <-. exists data, records.
      repeat split; auto.
  + destruct (Py.iter data) as [records|e] eqn:Hi; [|discriminate].
    cbn in Hv. injection Hv as <-. exists data, records.
    cbn [Py.truthy_opt]. repeat split; auto.
Qed.

End ListFilters.

Lemma list_filters_and_rows_witness :
  let a := {| ListClusters.long := true;
              ListClusters.plugin := Some "vanilla";
              ListClusters.version := Some "";
              ListClusters.name := Some "c" |} in
  Py.dict_get "plugin_name" (ListClusters.search_opts a)
  = Some (PStr "vanilla") /\
  exists shown records,
    get_by_name_substring (Collaborators := Script.demo)
      (PList [Script.cluster_record "c-1" "c"]) "c" = Ok shown /\
    Py.iter shown = Ok records /\
    outcome (ListClusters.take_action
               (C := Script.demo) a [Ok (PList [Script.cluster_record "c-1" "c"])])
    = Ok (PList
            [prepare_column_headers
               (Collaborators := Script.demo)
               (ListClusters.columns a)
               [("hadoop_version", "version"); ("default_image_id", "image")];
             PList (map (fun s => get_item_properties
                                    (Collaborators := Script.demo)
                                    s (ListClusters.columns a))
                        records)]).
Proof.
cbv zeta.
destruct (list_filters_and_rows
            (C := Script.demo)
            {| ListClusters.long := true;
               ListClusters.plugin := Some "vanilla";
               ListClusters.version := Some "";
               ListClusters.name := Some "c" |}
            [Ok (PList [Script.cluster_record "c-1" "c"])] []
            (PList [Script.cluster_record "c-1" "c"]) _
            eq_refl eq_refl)
  as (Ho & shown & records & Hn & Hi & Hv & _).
split.
- apply (proj2 (Ho "plugin_name" (PStr "vanilla"))). left. repeat split.
- exists shown, records.
  cbv beta iota delta [Py.truthy_opt ListClusters.name String.eqb Ascii.eqb
                       Bool.eqb negb] in Hn.
  destruct Hn as (n & Hn & Hg). injection Hn as <-.
  split; [exact Hg|]. split; [exact Hi|].
  rewrite <- Hv. reflexivity.
Defined.

(** ** The record handed to the display helpers *)

Section Reshaping.
Context {World : Type} {C : Collaborators World}.

(** X17.  What [ShowCluster], [UpdateCluster], [ScaleCluster] and
    [CreateCluster] for one cluster return is made by [show_cluster] from
    a record; and for a record [d] that has the four fields the reshaping
    reads, [node_groups] being a list of groups with a name and a count:
    ['hadoop_version'] is renamed to ['version'] and ['default_image_id']
    to ['image'], [node_groups] becomes the ['name:count'] strings joined
    by [', '] in list order, [anti_affinity] becomes what [format_list]
    makes of it, the other fields stay as they are; what is returned is
    what [dict2columns] makes of [prepare_data] of that record and
    CLUSTER_FIELDS, a list that names the two new fields and not the two
    old ones. *)
Theorem displayed_record_is_reshaped :
  (forall a, shows (ShowCluster.take_action a)) /\
  (forall a, shows (UpdateCluster.take_action a)) /\
  (forall a, shows (ScaleCluster.take_action a)) /\
  (forall a (w w1 : World) data c t1 v,
      CreateCluster.create a w = (Ok (data, c), w1, t1) ->
      CreateCluster.count_gt_1 c = Ok false ->
      outcome (CreateCluster.take_action a w) = Ok v ->
      exists data', show_cluster data' = Ok v) /\
  (forall d hv img ngs parts aa l,
      Py.dict_get "hadoop_version" d = Some hv ->
      Py.dict_get "default_image_id" d = Some img ->
      Py.dict_get "node_groups" d = Some (PList ngs) ->
      name_count_pairs ngs parts ->
      Py.dict_get "anti_affinity" d = Some aa ->
      format_list aa = Ok l ->
      exists d',
        _format_cluster_output (PDict d) = Ok d' /\
        show_cluster (PDict d) =
        Ok (dict2columns (Py.map_of_dict (prepare_data d' CLUSTER_FIELDS))) /\
        Py.dict_get "version" d' = Some hv /\
        Py.dict_get "hadoop_version" d' = None /\
        Py.dict_get "image" d' = Some img /\
        Py.dict_get "default_image_id" d' = None /\
        Py.dict_get "node_groups" d' = Some (PStr (String.concat ", " parts)) /\
        Py.dict_get "anti_affinity" d' = Some l /\
        (forall k, existsb (String.eqb k) reshaped_fields = false ->
                   Py.dict_get k d' = Py.dict_get k d)) /\
  (forall f, In f ["version"; "image"; "node_groups"; "anti_affinity"] ->
             In f CLUSTER_FIELDS) /\
  ~ In "hadoop_version" CLUSTER_FIELDS /\
  ~ In "default_image_id" CLUSTER_FIELDS.
Proof.
split; [exact shows_show|].
split; [exact shows_update|].
split; [exact shows_scale|].
split; [exact shows_create_single|].
split.
- intros d hv img ngs parts aa l Hv Hi Hn Hp Ha Hl.
  pose (d2 := Py.dict_set "version" hv (Py.dict_del "hadoop_version" d)).
  pose (d4 := Py.dict_set "image" img (Py.dict_del "default_image_id" d2)).
  pose (d5 := Py.dict_set "node_groups" (PStr (String.concat ", " parts)) d4).
  exists (Py.dict_set "anti_affinity" l d5).
  assert (_format_cluster_output (PDict d)
          = Ok (Py.dict_set "anti_affinity" l d5)) as E.
  { unfold _format_cluster_output, Py.dict_pop. rewrite Hv. cbn [rbind].
    fold d2.
    assert (Py.dict_get "default_image_id" d2 = Some img) as ->
        by (unfold d2; dict_simpl; exact Hi).
    cbn [rbind]. fold d4.
    assert (Py.subscript (PDict d4) "node_groups" = Ok (PList ngs)) as ->
        by (unfold Py.subscript, d4, d2; dict_simpl; now rewrite Hn).
    cbn [rbind]. rewrite (format_node_groups _ _ Hp). cbn [rbind]. fold d5.
    assert (Py.subscript (PDict d5) "anti_affinity" = Ok aa) as ->
        by (unfold Py.subscript, d5, d4, d2; dict_simpl; now rewrite Ha).
    cbn [rbind]. rewrite Hl. reflexivity. }
  split; [exact E|].
  split; [unfold show_cluster; rewrite E; reflexivity|].
  unfold d5, d4, d2.
  repeat split; try (dict_simpl; reflexivity).
  intros k Hk. cbn in Hk.
  repeat (apply orb_false_elim in Hk; destruct Hk as [? Hk]).
  dict_simpl. reflexivity.
- split; [|split].
  + intros f Hf. cbn in Hf |- *. intuition.
  + cbn. intros H. repeat (destruct H as [H|H]; [discriminate|]). exact H.
  + cbn. intros H. repeat (destruct H as [H|H]; [discriminate|]). exact H.
Qed.

End Reshaping.

Lemma displayed_record_is_reshaped_witness :
  exists d',
    _format_cluster_output (C := Script.demo) (Script.cluster_record "c-1" "c")
    = Ok d' /\
    Py.dict_get "version" d' = Some (PStr "2.7.1") /\
    Py.dict_get "image" d' = Some (PStr "img-1") /\
    Py.dict_get "node_groups" d' = Some (PStr "master:1, worker:3") /\
    Py.dict_get "anti_affinity" d' = Some (PStr "datanode, namenode").
Proof.
destruct (@displayed_record_is_reshaped Script.world Script.demo)
  as (_ & _ & _ & _ & H & _).
destruct (H (Script.cluster_fields "c-1" "c") (PStr "2.7.1") (PStr "img-1")
            [PDict [("name", PStr "master"); ("count", PInt 1)];
             PDict [("name", PStr "worker"); ("count", PInt 3)]]
            ["master:1"; "worker:3"]
            (PList [PStr "datanode"; PStr "namenode"])
            (PStr "datanode, namenode"))
  as (d' & E & _ & Hv & _ & Hi & _ & Hn & Ha & _);
  try reflexivity.
- repeat constructor; eexists; eexists; repeat split; reflexivity.
- exists d'. repeat split; assumption.
Defined.
